(** * CEASIOMpy: [ceasiompy/utils/ceasiompyutils.py]

    A shallow embedding of the workflow utilities (working-directory scope,
    CPU budget, module runner, external tool invoker, results directory,
    aeromap list, part classification, file clean-up) and the verification
    of their documented behaviour.

    Conventions of the embedding:
    - a filesystem path is the list of its components below the root
      (canonical: no ".", ".." or symbolic link component);
    - the process and its host are an explicit [world]; Python code is a
      state-and-exception computation [Py A] over it;
    - every [os.chdir], import, entry-point call and child process issued by
      the embedded code is recorded in [events], every logger call in
      [logged]. *)

From Stdlib Require Import ZArith QArith Qround String Ascii DecimalString Lia.
From stdpp Require Import base option gmap strings list.

Open Scope string_scope.
Open Scope list_scope.

(** ** Python [str] operations *)

(** [s.startswith(p)] *)
Definition startswith (s p : string) : bool := String.prefix p s.

(** [s.endswith(p)] *)
Definition endswith (s p : string) : bool :=
  String.prefix (String.rev p) (String.rev s).

(** [pat in s] for strings *)
Fixpoint str_contains (pat s : string) : bool :=
  String.prefix pat s ||
  match s with
  | EmptyString => false
  | String _ s' => str_contains pat s'
  end.

(** [s.split(sep)[0]]: the text before the first occurrence of [sep]
    (all of [s] when [sep] does not occur) *)
Fixpoint split_head (sep s : string) : string :=
  if String.prefix sep s then ""
  else match s with
       | EmptyString => ""
       | String c s' => String c (split_head sep s')
       end.

(** [s.rfind(c)] for a single character, [None] standing for -1 *)
Fixpoint rfind (c : ascii) (s : string) : option nat :=
  match s with
  | EmptyString => None
  | String a s' =>
      match rfind c s' with
      | Some i => Some (S i)
      | None => if Ascii.eqb a c then Some 0%nat else None
      end
  end.

(** [str(n)] for an integer *)
Definition str_int (n : Z) : string := NilEmpty.string_of_int (Z.to_int n).

(** [c * n] for a one-character string *)
Fixpoint str_repeat (c : ascii) (n : nat) : string :=
  match n with
  | O => ""
  | S k => String c (str_repeat c k)
  end.

(** [sep.join(l)] *)
Fixpoint str_join (sep : string) (l : list string) : string :=
  match l with
  | [] => ""
  | [x] => x
  | x :: rest => x +:+ sep +:+ str_join sep rest
  end.

(** [s.replace(old, new)] for one-character strings [old] and [new] *)
Fixpoint str_replace_char (old new : ascii) (s : string) : string :=
  match s with
  | EmptyString => ""
  | String c s' =>
      String (if Ascii.eqb c old then new else c) (str_replace_char old new s')
  end.

(** [s.split(sep)] for a one-character separator *)
Fixpoint str_split_char (sep : ascii) (s : string) : list string :=
  match s with
  | EmptyString => [""]
  | String c s' =>
      if Ascii.eqb c sep then "" :: str_split_char sep s'
      else match str_split_char sep s' with
           | [] => [String c ""]
           | piece :: rest => String c piece :: rest
           end
  end.

(** ** Paths ([pathlib]) *)

Abbreviation path := (list string) (only parsing).

(** [str(p)] *)
Definition path_str (p : path) : string :=
  match p with
  | [] => "/"
  | _ => String.concat "" (List.map (fun c => "/" +:+ c) p)
  end.

(** [p.name] *)
Definition path_name (p : path) : string := List.last p "".

(** [p.parent], [None] for the root (whose parent is itself in Python) *)
Definition path_parent (p : path) : option path :=
  match reverse p with
  | [] => None
  | _ :: r => Some (reverse r)
  end.

(** [PurePath.suffix] of a file name *)
Definition name_suffix (name : string) : string :=
  match rfind "."%char name with
  | Some i =>
      if (0 <? i)%nat && (i <? String.length name - 1)%nat
      then String.substring i (String.length name - i) name
      else ""
  | None => ""
  end.

(** [PurePath.stem] of a file name *)
Definition name_stem (name : string) : string :=
  match rfind "."%char name with
  | Some i =>
      if (0 <? i)%nat && (i <? String.length name - 1)%nat
      then String.substring 0 i name
      else name
  | None => name
  end.

(** A path value as written in a specification file: [Path("a", "b")] is
    relative, [Path("/a/b")] absolute. *)
Inductive pure_path :=
| RelPath (parts : list string)
| AbsPath (parts : list string).

(** [Path(base, p)] for an absolute [base] *)
Definition path_join (base : path) (p : pure_path) : path :=
  match p with
  | RelPath parts => base ++ parts
  | AbsPath parts => parts
  end.

(** The components [pathlib] parses out of a string: the pieces between
    the slashes, empty pieces and "." dropped (".." stays a component). *)
Definition pure_parts (s : string) : list string :=
  List.filter (fun piece => negb (String.eqb piece "" || String.eqb piece "."))
              (str_split_char "/" s).

(** [Path(base, s)] for an absolute [base] and a string [s]: a string that
    starts with a slash replaces [base]. *)
Definition path_join_str (base : path) (s : string) : path :=
  if startswith s "/" then pure_parts s else base ++ pure_parts s.

(** ** Exceptions and the state of the process *)

Inductive exn :=
| FileNotFoundError (filename : path)
| FileExistsError (filename : path)
| NotADirectoryError (filename : path)
| IsADirectoryError (filename : path)
| UnboundLocalError (variable : string)
| ModuleNotFoundError (name : string)
| ValueError (msg : string)
| TypeError (msg : string)
| OverflowError (msg : string)
| Tixi3Exception (msg : string)
| SoftwareNotInstalled (msg : string)
| AttributeError (attribute : string)
| OtherException (tag : string).

(** [isinstance(e, OSError)]; [EnvironmentError] is an alias of [OSError]. *)
Definition is_OSError (e : exn) : bool :=
  match e with
  | FileNotFoundError _ | FileExistsError _
  | NotADirectoryError _ | IsADirectoryError _ => true
  | _ => false
  end.

Definition is_EnvironmentError : exn -> bool := is_OSError.

Inductive result (A : Type) :=
| Ok (value : A)
| Raise (e : exn).
Arguments Ok {A} value.
Arguments Raise {A} e.

Inductive node :=
| Dir
| File (content : string).

(** What code outside this module (a module entry point, a child process)
    can observe and change. *)
Record os_state := {
  cwd : path;
  fs : gmap path node;
  search_path : gmap string path;   (* what [shutil.which] resolves *)
  cpu_count : option Z;             (* what [os.cpu_count()] reports *)
  platform : string;                (* [sys.platform] *)
  listed_before : path -> path -> bool
                                    (* the order in which the file system
                                       lists the entries of a directory *)
}.

Inductive event :=
| EChdir (target : path) (succeeded : bool)
| EImport (module : string)
| ECall (module : string) (cpacs_in cpacs_out : path)
| ESpawn (command_line : list string) (stdout : path).

Inductive level := INFO | WARNING.

Record world := {
  os : os_state;
  events : list event;
  logged : list (level * string)
}.

Definition Py (A : Type) : Type := world -> result A * world.

#[global] Instance Py_ret : MRet Py := fun A a w => (Ok a, w).

#[global] Instance Py_bind : MBind Py := fun A B f m w =>
  match m w with
  | (Ok a, w') => f a w'
  | (Raise e, w') => (Raise e, w')
  end.

Definition raise {A} (e : exn) : Py A := fun w => (Raise e, w).

Definition get_os : Py os_state := fun w => (Ok (os w), w).

Definition put_os (s : os_state) : Py unit := fun w =>
  (Ok tt, {| os := s; events := events w; logged := logged w |}).

Definition emit (ev : event) : Py unit := fun w =>
  (Ok tt, {| os := os w; events := events w ++ [ev]; logged := logged w |}).

Definition log_info (msg : string) : Py unit := fun w =>
  (Ok tt, {| os := os w; events := events w; logged := logged w ++ [(INFO, msg)] |}).

Definition log_warning (msg : string) : Py unit := fun w =>
  (Ok tt, {| os := os w; events := events w; logged := logged w ++ [(WARNING, msg)] |}).

(** [try: body finally: fin], with the local variables [L] the body binds
    handed to the [finally] clause: an exception of the clause replaces the
    pending outcome. *)
Definition try_finally {A L} (body : world -> result A * L * world)
    (fin : L -> Py unit) : Py A := fun w =>
  let '(r, locals, w1) := body w in
  match fin locals w1 with
  | (Ok _, w2) => (r, w2)
  | (Raise e, w2) => (Raise e, w2)
  end.

(** [for x in l: body] *)
Fixpoint for_each {X} (l : list X) (body : X -> Py unit) : Py unit :=
  match l with
  | [] => mret tt
  | x :: rest => body x;; for_each rest body
  end.

(** ** Operating-system and [pathlib] primitives *)

Definition set_cwd (p : path) (s : os_state) : os_state :=
  {| cwd := p; fs := fs s; search_path := search_path s;
     cpu_count := cpu_count s; platform := platform s;
     listed_before := listed_before s |}.

Definition set_fs (m : gmap path node) (s : os_state) : os_state :=
  {| cwd := cwd s; fs := m; search_path := search_path s;
     cpu_count := cpu_count s; platform := platform s;
     listed_before := listed_before s |}.

(** [os.getcwd()]: fails when the working directory has been removed *)
Definition os_getcwd : Py path :=
  s ← get_os;
  match fs s !! cwd s with
  | Some Dir => mret (cwd s)
  | _ => raise (FileNotFoundError (cwd s))
  end.

(** [os.chdir(p)] *)
Definition os_chdir (p : path) : Py unit :=
  s ← get_os;
  match fs s !! p with
  | Some Dir => emit (EChdir p true);; put_os (set_cwd p s)
  | Some (File _) => emit (EChdir p false);; raise (NotADirectoryError p)
  | None => emit (EChdir p false);; raise (FileNotFoundError p)
  end.

(** ** [change_working_dir] *)

(** [change_working_dir(working_dir)], a [contextlib.contextmanager]: the
    generator, applied to the block of the [with] statement that stands at
    its [yield]. The local [cwd] is bound by the first statement of the
    [try]; the [finally] clause reads it. *)
Definition change_working_dir {A} (working_dir : path) (block : Py A) : Py A :=
  try_finally
    (fun w =>
       match os_getcwd w with
       | (Raise e, w1) => (Raise e, None, w1)
       | (Ok cwd, w1) =>
           match os_chdir working_dir w1 with
           | (Raise e, w2) => (Raise e, Some cwd, w2)
           | (Ok _, w2) => let '(r, w3) := block w2 in (r, Some cwd, w3)
           end
       end)
    (fun cwd =>
       match cwd with
       | Some d => os_chdir d
       | None => raise (UnboundLocalError "cwd")
       end).

(** ** More [os], [pathlib], [shutil] and [subprocess] primitives *)

(** [p.exists()] *)
Definition path_exists (p : path) : Py bool :=
  s ← get_os; mret (bool_decide (is_Some (fs s !! p))).

(** [p.is_dir()] *)
Definition path_is_dir (p : path) : Py bool :=
  s ← get_os;
  mret (match fs s !! p with Some Dir => true | _ => false end).

(** [p.is_file()] *)
Definition path_is_file (p : path) : Py bool :=
  s ← get_os;
  mret (match fs s !! p with Some (File _) => true | _ => false end).

(** The direct entries of a directory, each one once, in no order that
    matters: [listing] orders them. *)
Definition children (d : path) (m : gmap path node) : list path :=
  filter (fun p => path_parent p = Some d) ((map_to_list m).*1).

(** Arranging entries in the order of the file system: an entry is put
    before the first one the file system lists after it. Whatever
    [before] is, the result has the entries of [l], each as often. *)
Fixpoint place (before : path -> path -> bool) (x : path) (l : list path)
    : list path :=
  match l with
  | [] => [x]
  | y :: rest => if before x y then x :: y :: rest else y :: place before x rest
  end.

Definition arrange (before : path -> path -> bool) (l : list path) : list path :=
  foldr (place before) [] l.

(** What the operating system yields for the directory [d]: its direct
    entries, in the file system's order. *)
Definition listing (s : os_state) (d : path) : list path :=
  arrange (listed_before s) (children d (fs s)).

(** [p.iterdir()] *)
Definition path_iterdir (p : path) : Py (list path) :=
  s ← get_os;
  match fs s !! p with
  | Some Dir => mret (listing s p)
  | Some (File _) => raise (NotADirectoryError p)
  | None => raise (FileNotFoundError p)
  end.

(** [p.unlink()] *)
Definition path_unlink (p : path) : Py unit :=
  s ← get_os;
  match fs s !! p with
  | Some (File _) => put_os (set_fs (delete p (fs s)) s)
  | Some Dir => raise (IsADirectoryError p)
  | None => raise (FileNotFoundError p)
  end.

(** [os.mkdir(p)] *)
Definition os_mkdir (p : path) : Py unit :=
  s ← get_os;
  match fs s !! p with
  | Some _ => raise (FileExistsError p)
  | None =>
      match path_parent p with
      | None => raise (FileExistsError p)
      | Some parent =>
          match fs s !! parent with
          | Some Dir => put_os (set_fs (<[p := Dir]> (fs s)) s)
          | Some (File _) => raise (NotADirectoryError p)
          | None => raise (FileNotFoundError p)
          end
      end
  end.

(** [Path.mkdir(parents=False, exist_ok=exist_ok)]: [FileNotFoundError] is
    raised again, any other [OSError] is swallowed only when [exist_ok] is
    set and the path is a directory. *)
Definition path_mkdir_here (p : path) (exist_ok : bool) : Py unit := fun w =>
  match os_mkdir p w with
  | (Raise (FileNotFoundError f), w1) => (Raise (FileNotFoundError f), w1)
  | (Raise e, w1) =>
      if is_OSError e then
        match path_is_dir p w1 with
        | (Ok is_d, w2) =>
            if negb exist_ok || negb is_d then (Raise e, w2) else (Ok tt, w2)
        | (Raise e', w2) => (Raise e', w2)
        end
      else (Raise e, w1)
  | (Ok u, w1) => (Ok u, w1)
  end.

(** [Path.mkdir(parents=True, exist_ok=exist_ok)] on the path whose
    components, last one first, are [rev_parts]: on [FileNotFoundError] the
    parent is made with [parents=True, exist_ok=True], then the directory
    itself with [parents=False]. *)
Fixpoint path_mkdir_parents (rev_parts : list string) (exist_ok : bool) : Py unit :=
  fun w =>
  let self := reverse rev_parts in
  match os_mkdir self w with
  | (Raise (FileNotFoundError f), w1) =>
      match rev_parts with
      | [] => (Raise (FileNotFoundError f), w1)
      | _ :: rev_parent =>
          (path_mkdir_parents rev_parent true;; path_mkdir_here self exist_ok) w1
      end
  | (Raise e, w1) =>
      if is_OSError e then
        match path_is_dir self w1 with
        | (Ok is_d, w2) =>
            if negb exist_ok || negb is_d then (Raise e, w2) else (Ok tt, w2)
        | (Raise e', w2) => (Raise e', w2)
        end
      else (Raise e, w1)
  | (Ok u, w1) => (Ok u, w1)
  end.

(** [p.mkdir(parents=parents, exist_ok=exist_ok)] *)
Definition path_mkdir (p : path) (parents exist_ok : bool) : Py unit :=
  if parents then path_mkdir_parents (reverse p) exist_ok
  else path_mkdir_here p exist_ok.

(** [open(p, "w")]: creates the file or truncates it *)
Definition open_w (p : path) : Py path :=
  s ← get_os;
  match fs s !! p with
  | Some Dir => raise (IsADirectoryError p)
  | _ =>
      match path_parent p with
      | None => raise (IsADirectoryError p)
      | Some parent =>
          match fs s !! parent with
          | Some Dir => put_os (set_fs (<[p := File ""]> (fs s)) s);; mret p
          | Some (File _) => raise (NotADirectoryError p)
          | None => raise (FileNotFoundError p)
          end
      end
  end.

(** [shutil.which(name)] *)
Definition shutil_which (name : string) : Py (option path) :=
  s ← get_os; mret (search_path s !! name).

(** An element of a command line: [run_software] puts paths, strings and
    possibly [None] into the list. *)
Inductive arg :=
| ArgNone
| ArgPath (p : path)
| ArgStr (s : string).

(** [str(a)] *)
Definition arg_str (a : arg) : string :=
  match a with
  | ArgNone => "None"
  | ArgPath p => path_str p
  | ArgStr s => s
  end.

Definition arg_is_none (a : arg) : bool :=
  match a with ArgNone => true | _ => false end.

(** [x in l] for a list of strings *)
Definition in_list (x : string) (l : list string) : bool :=
  existsb (String.eqb x) l.

(** ** Floating point: [int / 4] and [math.ceil] *)

(** The nearest integer with at most 53 significant bits, ties to even:
    the binary64 value of a non-negative integer. *)
Definition round53 (n : Z) : Z :=
  let bits := (Z.log2 n + 1)%Z in
  if (bits <=? 53)%Z then n
  else
    let sh := (bits - 53)%Z in
    let q := Z.shiftr n sh in
    let r := Z.land n (Z.ones sh) in
    let half := Z.shiftl 1 (sh - 1) in
    let q' := if (half <? r)%Z || ((r =? half)%Z && Z.odd q) then (q + 1)%Z else q in
    Z.shiftl q' sh.

(** [a / 2**k] for integers [a] and [k >= 0]: the correctly rounded binary64
    quotient, as the rational it denotes; [OverflowError] beyond the
    binary64 range. Scaling by a power of two is exact, so only the
    conversion of [a] rounds. *)
Definition int_truediv_pow2 (a k : Z) : result Q :=
  let m := (Z.sgn a * round53 (Z.abs a))%Z in
  if (2 ^ (1024 + k) <=? Z.abs m)%Z
  then Raise (OverflowError "integer division result too large for a float")
  else Ok (Qmake m (Z.to_pos (2 ^ k))).

(** [math.ceil(x)] *)
Definition math_ceil (x : Q) : Z := Qceiling x.

(** ** The module *)

(** A 'ModuleToRun' object, as far as [run_module] reads it. *)
Record ModuleToRun := {
  name : string;
  cpacs_in : path;
  cpacs_out : path;
  module_dir : path
}.

(** An importable Python module of the package, as far as this file reads
    it: [__specs__] modules define [RESULTS_DIR], module entry files define
    [main]. The entry point is code outside this file: it acts on the
    process state and returns or raises. *)
Record py_module := {
  RESULTS_DIR : option pure_path;
  main : option (path -> path -> os_state -> result unit * os_state)
}.

(** A CPACS object of cpacspy: its TIXI handle and the aeromaps it lists. *)
Record CPACS (tixi_handle : Type) := {
  tixi : tixi_handle;
  get_aeromap_uid_list : list string
}.
Arguments tixi {tixi_handle} c.
Arguments get_aeromap_uid_list {tixi_handle} c.

(** A Python value as the document library returns it and as a widget of
    the settings page holds it. *)
Inductive py_value :=
| VStr (s : string)
| VInt (n : Z)
| VFloat (x : Q)
| VBool (b : bool)
| VList (l : list string).

(** The argument of [aircraft_name]: a path to a CPACS file or a TIXI
    handle. *)
Inductive tixi_or_cpacs_arg (tixi_handle : Type) :=
| GivenPath (cpacs_path : path)
| GivenTixi (handle : tixi_handle).
Arguments GivenPath {tixi_handle} cpacs_path.
Arguments GivenTixi {tixi_handle} handle.

(** The state of the settings page ([st.session_state]), as far as
    [update_value] reads it: the values of the widgets by key and the TIXI
    handle of the selected CPACS object. *)
Record session_state (tixi_handle : Type) := {
  widgets : gmap string py_value;
  session_tixi : tixi_handle
}.
Arguments widgets {tixi_handle} s.
Arguments session_tixi {tixi_handle} s.

(** ** A concrete host

    A small installation on which the statements above are exercised: a
    home directory with a run directory in it, the package directory of the
    Optimisation module, one tool on the search path. *)

Definition demo_fs : gmap path node :=
  list_to_map
    [ ([], Dir);
      (["home"], Dir);
      (["home"; "run"], Dir);
      (["home"; "run"; "mesh.su2"], File "mesh");
      (["home"; "run"; "old.log"], File "log");
      (["home"; "run"; "notes.txt"], File "notes");
      (["home"; "run"; "backup.log"], Dir);
      (["home"; "cpacs_in.xml"], File "<cpacs/>");
      (["pkg"], Dir);
      (["pkg"; "Optimisation"], Dir);
      (["pkg"; "Optimisation"; "__init__.py"], File "");
      (["pkg"; "Optimisation"; "__specs__.py"], File "");
      (["pkg"; "Optimisation"; "optimisation.py"], File "");
      (["pkg"; "Optimisation"; "README.md"], File "") ].

Definition demo_os (tools : gmap string path) : os_state :=
  {| cwd := ["home"]; fs := demo_fs; search_path := tools;
     cpu_count := Some 8%Z; platform := "linux";
     listed_before := fun p q => String.leb (path_name p) (path_name q) |}.

Definition demo_tools : gmap string path :=
  list_to_map [ ("echo", ["bin"; "echo"]) ].

Definition demo_mpi_tools : gmap string path :=
  list_to_map [ ("echo", ["bin"; "echo"]); ("mpirun", ["bin"; "mpirun"]) ].

Definition demo (tools : gmap string path) : world :=
  {| os := demo_os tools; events := []; logged := [] |}.

(** An entry point that writes its output document. *)
Definition demo_main (input output : path) (s : os_state)
    : result unit * os_state :=
  (Ok tt, set_fs (<[output := File "<cpacs/>"]> (fs s)) s).

Definition demo_packages (dotted : string) : result py_module :=
  if String.eqb dotted "ceasiompy.Optimisation.optimisation"
  then Ok {| RESULTS_DIR := None; main := Some demo_main |}
  else if String.eqb dotted "ceasiompy.Optimisation.__specs__"
  then Ok {| RESULTS_DIR := Some (RelPath ["Results"; "Optimisation"]);
             main := None |}
  else Raise (ModuleNotFoundError dotted).

Definition demo_module_list : list string := ["Optimisation"; "PyTornado"].

(** A child process that prints one line and exits with code 0. *)
Definition demo_child (argv : list string) (stdout : path) (s : os_state)
    : result Z * os_state :=
  (Ok 0%Z, set_fs (<[stdout := File "hello"]> (fs s)) s).

(** A document as far as the library calls go: the string vectors by
    xpath, the xpath of every uid. *)
Record demo_doc := {
  vectors : gmap string (list string);
  uids : gmap string string
}.

Definition demo_get_string_vector (d : demo_doc) (xpath : string)
    : result (list string) :=
  match vectors d !! xpath with
  | Some l => Ok l
  | None => Raise (ValueError (xpath +:+ " XPath does not exist!"))
  end.

Definition demo_create_branch (d : demo_doc) (xpath : string) : result demo_doc :=
  Ok d.

Definition demo_add_string_vector (d : demo_doc) (xpath : string)
    (l : list string) : result demo_doc :=
  Ok {| vectors := <[xpath := l]> (vectors d); uids := uids d |}.

Definition demo_uIDGetXPath (d : demo_doc) (uid : string) : result string :=
  match uids d !! uid with
  | Some x => Ok x
  | None => Raise (Tixi3Exception "UID_DONT_EXISTS")
  end.

Definition demo_document : demo_doc :=
  {| vectors := list_to_map [ ("/cpacs/toolspecific/plot", ["aeromap_1"]) ];
     uids := list_to_map
       [ ("Wing1", "/cpacs/vehicles/aircraft/model/wings/wing[1]");
         ("Rotor1", "/cpacs/vehicles/rotorcraft/model/rotors/rotor[1]");
         ("Gear1", "/cpacs/vehicles/aircraft/model/landingGear/noseGears/noseGear[1]") ] |}.

Definition demo_cpacs : CPACS demo_doc :=
  {| tixi := demo_document; get_aeromap_uid_list := ["aeromap_1"; "aeromap_2"] |}.

Definition demo_optimisation : ModuleToRun :=
  {| name := "Optimisation";
     cpacs_in := ["home"; "cpacs_in.xml"];
     cpacs_out := ["home"; "cpacs_out.xml"];
     module_dir := ["pkg"; "Optimisation"] |}.

(** The host after its working directory has been removed. *)
Definition demo_removed : world :=
  {| os := set_cwd ["home"; "old"] (demo_os demo_tools);
     events := []; logged := [] |}.

(** A block that removes the home directory. *)
Definition demo_remove_home : Py unit := fun w =>
  (Ok tt, {| os := set_fs (delete ["home"] (fs (os w))) (os w);
             events := events w; logged := logged w |}).


Definition demo_open_tixi (cpacs_path : path) (s : os_state) : result demo_doc :=
  match fs s !! cpacs_path with
  | Some (File _) => Ok demo_document
  | _ => Raise (Tixi3Exception "OPEN_FAILED")
  end.

Definition demo_name_xpath : string := "/cpacs/header/name".

Definition demo_get_value_or_default (d : demo_doc) (xpath : string)
    (default : py_value) : result (py_value * demo_doc) :=
  if String.eqb xpath demo_name_xpath
  then Ok (VStr "D150 v2 test", d)
  else Ok (default, d).

Definition demo_add_value (d : demo_doc) (xpath : string) (value : py_value)
    : result demo_doc :=
  Ok {| vectors := <[xpath := match value with
                              | VStr s => [s]
                              | _ => []
                              end]> (vectors d);
        uids := uids d |}.

(** A settings page with two widgets. *)
Definition demo_session : session_state demo_doc :=
  {| widgets := list_to_map
       [ ("0_PyTornado_aeromap", VList ["aeromap_2"]);
         ("0_PyTornado_plot", VBool true) ];
     session_tixi := demo_document |}.

Section Ceasiompyutils.

Set Default Proof Using "Type".

(** [ceasiompy.utils.moduleinterfaces.get_module_list(only_active=False)] *)
Variable module_list : list string.

(** What [importlib.import_module] yields for a dotted name: the module,
    or what looking it up and loading it raises ([ModuleNotFoundError] for
    a name that is not found, whatever the file raises while it loads).
    Loading a module is taken to leave the state of the process alone. *)
Variable packages : string -> result py_module.

(** The child process [subprocess.call] waits for: from its argument vector
    and the file its standard output is redirected to, it acts on the
    process state and ends with an exit code, or cannot be started. *)
Variable child_process : list string -> path -> os_state -> result Z * os_state.

(** The document library (tixi3 and cpacspy.cpacsfunctions). *)
Variable tixi_handle : Type.
Variable uIDGetXPath : tixi_handle -> string -> result string.
Variable get_string_vector : tixi_handle -> string -> result (list string).
Variable create_branch : tixi_handle -> string -> result tixi_handle.
Variable add_string_vector :
  tixi_handle -> string -> list string -> result tixi_handle.

(** [cpacspy.cpacsfunctions.open_tixi]: reads the file system. *)
Variable open_tixi : path -> os_state -> result tixi_handle.

(** [cpacspy.cpacsfunctions.get_value_or_default(tixi, xpath, default)]:
    the value, and the handle as the call leaves it (a missing field is
    written with the default). *)
Variable get_value_or_default :
  tixi_handle -> string -> py_value -> result (py_value * tixi_handle).

(** [cpacspy.cpacsfunctions.add_value(tixi, xpath, value)] *)
Variable add_value : tixi_handle -> string -> py_value -> result tixi_handle.

(** [ceasiompy.utils.commonxpath.AIRCRAFT_NAME_XPATH] *)
Variable AIRCRAFT_NAME_XPATH : string.

(** [importlib.import_module(name)] *)
Definition import_module (dotted : string) : Py py_module :=
  emit (EImport dotted);;
  match packages dotted with
  | Ok m => mret m
  | Raise e => raise e
  end.

(** [my_module.main(cpacs_in, cpacs_out)] for the module imported as [dotted] *)
Definition call_main (dotted : string) (my_module : py_module)
    (input output : path) : Py unit :=
  match main my_module with
  | None => raise (AttributeError "main")
  | Some entry_point =>
      emit (ECall dotted input output);;
      s ← get_os;
      let '(r, s') := entry_point input output s in
      put_os s';;
      match r with
      | Ok u => mret u
      | Raise e => raise e
      end
  end.

(** [subprocess.call(command_line, stdout=logfile)] *)
Definition subprocess_call (command_line : list arg) (stdout : path) : Py Z :=
  if existsb arg_is_none command_line
  then raise (TypeError "expected str, bytes or os.PathLike object, not NoneType")
  else
    emit (ESpawn (List.map arg_str command_line) stdout);;
    s ← get_os;
    let '(r, s') := child_process (List.map arg_str command_line) stdout s in
    put_os s';;
    match r with
    | Ok code => mret code
    | Raise e => raise e
    end.

(** [get_aeromap_list_from_xpath(cpacs, aeromap_to_analyze_xpath,
    empty_if_not_found)]: the returned list (or the exception raised) and
    the CPACS object as the call leaves it. *)
Definition get_aeromap_list_from_xpath (cpacs : CPACS tixi_handle)
    (aeromap_to_analyze_xpath : string) (empty_if_not_found : bool)
    : result (list string) * CPACS tixi_handle :=
  let aeromap_uid_list := [] in
  match get_string_vector (tixi cpacs) aeromap_to_analyze_xpath with
  | Ok l => (Ok l, cpacs)
  | Raise (ValueError _) =>
      if negb empty_if_not_found then
        let aeromap_uid_list := get_aeromap_uid_list cpacs in
        match create_branch (tixi cpacs) aeromap_to_analyze_xpath with
        | Raise e => (Raise e, cpacs)
        | Ok t1 =>
            let cpacs1 := {| tixi := t1;
                             get_aeromap_uid_list := get_aeromap_uid_list cpacs |} in
            match add_string_vector t1 aeromap_to_analyze_xpath aeromap_uid_list with
            | Raise e => (Raise e, cpacs1)
            | Ok t2 =>
                (Ok aeromap_uid_list,
                 {| tixi := t2;
                    get_aeromap_uid_list := get_aeromap_uid_list cpacs |})
            end
        end
      else (Ok aeromap_uid_list, cpacs)
  | Raise e => (Raise e, cpacs)
  end.

(** [get_results_directory(module_name)] *)
Definition get_results_directory (module_name : string) : Py path :=
  if negb (in_list module_name module_list)
  then raise (ValueError ("Module '" +:+ module_name +:+ "' did not exit!"))
  else
    specs ← import_module ("ceasiompy." +:+ module_name +:+ ".__specs__");
    here ← os_getcwd;
    match RESULTS_DIR specs with
    | None => raise (AttributeError "RESULTS_DIR")
    | Some results_subdir =>
        let results_dir := path_join here results_subdir in
        is_d ← path_is_dir results_dir;
        (if negb is_d then path_mkdir results_dir true false else mret tt);;
        mret results_dir
    end.

(** The loop of [run_module] over the entries of the module directory:
    [python_file] is bound by each entry that qualifies, the last one
    winning, and stays unbound ([None]) when none does. *)
Definition find_python_file (files : list path) : option string :=
  foldl (fun python_file file =>
           if endswith (path_name file) ".py"
              && negb (startswith (path_name file) "__")
           then Some (name_stem (path_name file))
           else python_file)
        None files.

(** [run_module(module, wkdir, iteration)] *)
Definition run_module (module : ModuleToRun) (wkdir : path) (iteration : Z)
    : Py unit :=
  log_info (str_repeat "#" 99);;
  log_info ("# Run module: " +:+ name module);;
  log_info (str_repeat "#" 99);;
  log_info ("Working directory: " +:+ path_str wkdir);;
  log_info ("CPACS input file: " +:+ path_str (cpacs_in module));;
  log_info ("CPACS output file: " +:+ path_str (cpacs_out module));;
  if String.eqb (name module) "Optimisation" && (0 <? iteration)%Z then
    log_info "Optimisation module is only run at first iteration!"
  else
    files ← path_iterdir (module_dir module);
    match find_python_file files with
    | None => raise (UnboundLocalError "python_file")
    | Some python_file =>
        let dotted := "ceasiompy." +:+ name module +:+ "." +:+ python_file in
        my_module ← import_module dotted;
        change_working_dir wkdir
          (call_main dotted my_module (cpacs_in module) (cpacs_out module))
    end.

(** [get_install_path(software_name, raise_error)] *)
Definition get_install_path (software_name : string) (raise_error : bool)
    : Py (option path) :=
  install_path ← shutil_which software_name;
  match install_path with
  | Some found =>
      log_info (software_name +:+ " is installed at: " +:+ path_str found);;
      mret (Some found)
  | None =>
      log_warning (software_name +:+ " is not installed on your computer!");;
      if raise_error
      then raise (SoftwareNotInstalled
                    (software_name +:+ " is not installed on your computer!"))
      else mret None
  end.

(** [str(os.cpu_count())] *)
Definition str_cpu_count (c : option Z) : string :=
  match c with
  | Some n => str_int n
  | None => "None"
  end.

(** [run_software(software_name, arguments, wkdir, with_mpi, nb_cpu)] *)
Definition run_software (software_name : string) (arguments : list string)
    (wkdir : path) (with_mpi : bool) (nb_cpu : Z) : Py unit :=
  s ← get_os;
  log_info (str_int nb_cpu +:+ " cpu over " +:+ str_cpu_count (cpu_count s)
            +:+ " will be used for this calculation.");;
  let logfile := path_join_str wkdir ("logfile_" +:+ software_name +:+ ".log") in
  install_path ← get_install_path software_name false;
  let command_line := [] in
  command_line ←
    (if with_mpi then
       mpi_install_path ← get_install_path "mpirun" false;
       match mpi_install_path with
       | Some mpi =>
           mret (command_line ++ [ArgPath mpi; ArgStr "-np"; ArgStr (str_int nb_cpu)])
       | None => mret command_line
       end
     else mret command_line);
  let command_line :=
    command_line ++ [match install_path with
                     | Some p => ArgPath p
                     | None => ArgNone
                     end] in
  let command_line := command_line ++ List.map ArgStr arguments in
  s ← get_os;
  let command_line :=
    if in_list software_name ["sumo"; "dwfsumo"] && String.eqb (platform s) "linux"
    then [ArgStr "xvfb-run"] ++ command_line
    else command_line in
  log_info (">>> Running " +:+ software_name +:+ " on " +:+ str_int nb_cpu
            +:+ " cpu(s)");;
  log_info ("Working directory: " +:+ path_str wkdir);;
  log_info ("Logfile: " +:+ path_str logfile);;
  log_info "Command line that will be run is:";;
  log_info (str_join " " (List.map arg_str command_line));;
  change_working_dir wkdir
    (opened ← open_w logfile;
     subprocess_call command_line opened;;
     mret tt);;
  log_info (">>> " +:+ software_name +:+ " End").

(** [get_reasonable_nb_cpu()] *)
Definition get_reasonable_nb_cpu : Py Z :=
  s ← get_os;
  match cpu_count s with
  | None => mret 1%Z
  | Some n =>
      match int_truediv_pow2 n 2 with
      | Ok quarter => mret (math_ceil quarter)
      | Raise e => raise e
      end
  end.

(** [if print: log.info(msg)] *)
Definition info_if (print : bool) (msg : string) : Py unit :=
  if print then log_info msg else mret tt.

(** [get_part_type(tixi, part_uid, print)]; [None] is Python's [None]. *)
Definition get_part_type (tixi : tixi_handle) (part_uid : string) (print : bool)
    : Py (option string) :=
  let part_uid := split_head "_mirrored" part_uid in
  match uIDGetXPath tixi part_uid with
  | Raise e => raise e
  | Ok part_xpath =>
      if str_contains "wings/wing" part_xpath then
        info_if print ("'" +:+ part_uid +:+ "' is a wing");;
        mret (Some "wing")
      else if str_contains "fuselages/fuselage" part_xpath then
        info_if print ("'" +:+ part_uid +:+ "' is a fuselage");;
        mret (Some "fuselage")
      else if str_contains "enginePylons/enginePylon" part_xpath then
        info_if print ("'" +:+ part_uid +:+ "' is a pylon");;
        mret (Some "pylon")
      else if str_contains "engine/nacelle/fanCowl" part_xpath then
        info_if print ("'" +:+ part_uid +:+ "' is a fanCowl");;
        mret (Some "fanCowl")
      else if str_contains "engine/nacelle/centerCowl" part_xpath then
        info_if print ("'" +:+ part_uid +:+ "' is a centerCowl");;
        mret (Some "centerCowl")
      else if str_contains "engine/nacelle/coreCowl" part_xpath then
        info_if print ("'" +:+ part_uid +:+ "' is a coreCowl");;
        mret (Some "coreCowl")
      else if str_contains "vehicles/engines/engine" part_xpath then
        info_if print ("'" +:+ part_uid +:+ "' is an engine");;
        mret (Some "engine")
      else if str_contains "vehicles/rotorcraft/model/rotors/rotor" part_xpath then
        info_if print ("'" +:+ part_uid +:+ "' is an rotor");;
        mret (Some "rotor")
      else
        (if print
         then log_warning ("'" +:+ part_uid +:+ "' cannot be categorized!")
         else mret tt);;
        mret None
  end.

(** [remove_file_type_in_dir(directory, file_type_list)] *)
Definition remove_file_type_in_dir (directory : path)
    (file_type_list : list string) : Py unit :=
  found ← path_exists directory;
  if negb found
  then raise (FileNotFoundError directory)
  else
    files ← path_iterdir directory;
    for_each files (fun file =>
      regular ← path_is_file file;
      if negb regular then mret tt
      else if in_list (name_suffix (path_name file)) file_type_list
           then path_unlink file
           else mret tt).

(** [aircraft_name(tixi_or_cpacs)]: the name, and the TIXI handle the
    function worked on as it leaves it. A value that is not a string has no
    [replace] method. *)
Definition aircraft_name (tixi_or_cpacs : tixi_or_cpacs_arg tixi_handle)
    : Py (string * tixi_handle) :=
  tixi ← (match tixi_or_cpacs with
          | GivenPath cpacs_path =>
              s ← get_os;
              match open_tixi cpacs_path s with
              | Ok t => mret t
              | Raise e => raise e
              end
          | GivenTixi t => mret t
          end);
  match get_value_or_default tixi AIRCRAFT_NAME_XPATH (VStr "Aircraft") with
  | Raise e => raise e
  | Ok (VStr name, tixi') =>
      let name := str_replace_char " " "_" name in
      log_info ("The name of the aircraft is : " +:+ name);;
      mret (name, tixi')
  | Ok (_, _) => raise (AttributeError "replace")
  end.

(** [update_value(xpath, key)] of the settings page: the outcome and the
    session state as the call leaves it. *)
Definition update_value (st : session_state tixi_handle) (xpath key : string)
    : result unit * session_state tixi_handle :=
  match widgets st !! key with
  | None => (Ok tt, st)
  | Some value =>
      let write (r : result tixi_handle) :=
        match r with
        | Ok t => (Ok tt, {| widgets := widgets st; session_tixi := t |})
        | Raise e => (Raise e, st)
        end in
      match value with
      | VList (_ :: _ as l) => write (add_string_vector (session_tixi st) xpath l)
      | VList [] => write (add_value (session_tixi st) xpath (VStr ""))
      | _ => write (add_value (session_tixi st) xpath value)
      end
  end.

(** [update_all_modified_value()]: the loop over
    [st.session_state.xpath_to_update.items()], in the order of the
    dictionary. *)
Fixpoint update_all_modified_value (xpath_to_update : list (string * string))
    (st : session_state tixi_handle) : result unit * session_state tixi_handle :=
  match xpath_to_update with
  | [] => (Ok tt, st)
  | (xpath, key) :: rest =>
      match update_value st xpath key with
      | (Ok _, st') => update_all_modified_value rest st'
      | (Raise e, st') => (Raise e, st')
      end
  end.

(** ** Vocabulary of the statements *)

(** The world right after a successful [os.chdir(p)]. *)
Definition entered (p : path) (w : world) : world :=
  {| os := set_cwd p (os w);
     events := events w ++ [EChdir p true];
     logged := logged w |}.

(** The world right after a failed [os.chdir(p)]. *)
Definition refused (p : path) (w : world) : world :=
  {| os := os w; events := events w ++ [EChdir p false]; logged := logged w |}.

Definition is_dir (p : path) (w : world) : Prop := fs (os w) !! p = Some Dir.

(** The lines [run_module] logs before it decides whether to run. *)
Definition banner (module : ModuleToRun) (wkdir : path) : list (level * string) :=
  [ (INFO, str_repeat "#" 99);
    (INFO, "# Run module: " +:+ name module);
    (INFO, str_repeat "#" 99);
    (INFO, "Working directory: " +:+ path_str wkdir);
    (INFO, "CPACS input file: " +:+ path_str (cpacs_in module));
    (INFO, "CPACS output file: " +:+ path_str (cpacs_out module)) ].

(** The line [get_install_path] logs. *)
Definition install_line (software_name : string) (found : option path)
    : level * string :=
  match found with
  | Some p => (INFO, software_name +:+ " is installed at: " +:+ path_str p)
  | None => (WARNING, software_name +:+ " is not installed on your computer!")
  end.

(** The command line [run_software] assembles when the tool resolves to
    [tool]: the virtual-display wrapper, the MPI prefix, the tool, its
    arguments. *)
Definition assembled (xvfb : bool) (launcher : option path) (nb_cpu : Z)
    (tool : path) (arguments : list string) : list arg :=
  (if xvfb then [ArgStr "xvfb-run"] else []) ++
  (match launcher with
   | Some mpi => [ArgPath mpi; ArgStr "-np"; ArgStr (str_int nb_cpu)]
   | None => []
   end) ++ [ArgPath tool] ++ List.map ArgStr arguments.

(** Two worlds that differ at most in what has been logged. *)
Definition same_process (w1 w2 : world) : Prop :=
  os w1 = os w2 /\ events w1 = events w2.

(** A computation whose outcome and whose effect on the process do not
    depend on the log. *)
Definition log_blind {A} (m : Py A) : Prop :=
  forall w1 w2, same_process w1 w2 ->
    fst (m w1) = fst (m w2) /\ same_process (snd (m w1)) (snd (m w2)).

(** What [run_software] does once the MPI prefix has been decided. *)
Definition run_tail (software_name : string) (arguments : list string)
    (wkdir : path) (nb_cpu : Z) (install_path : option path)
    (command_line : list arg) : Py unit :=
  let logfile := path_join_str wkdir ("logfile_" +:+ software_name +:+ ".log") in
  let command_line :=
    command_line ++ [match install_path with
                     | Some p => ArgPath p
                     | None => ArgNone
                     end] in
  let command_line := command_line ++ List.map ArgStr arguments in
  s ← get_os;
  let command_line :=
    if in_list software_name ["sumo"; "dwfsumo"] && String.eqb (platform s) "linux"
    then [ArgStr "xvfb-run"] ++ command_line
    else command_line in
  log_info (">>> Running " +:+ software_name +:+ " on " +:+ str_int nb_cpu
            +:+ " cpu(s)");;
  log_info ("Working directory: " +:+ path_str wkdir);;
  log_info ("Logfile: " +:+ path_str logfile);;
  log_info "Command line that will be run is:";;
  log_info (str_join " " (List.map arg_str command_line));;
  change_working_dir wkdir
    (opened ← open_w logfile;
     subprocess_call command_line opened;;
     mret tt);;
  log_info (">>> " +:+ software_name +:+ " End").

(** [w'] is [w] with, at most, new entries in the file system. *)
Definition grown (w w' : world) : Prop :=
  cwd (os w') = cwd (os w) /\
  search_path (os w') = search_path (os w) /\
  cpu_count (os w') = cpu_count (os w) /\
  platform (os w') = platform (os w) /\
  listed_before (os w') = listed_before (os w) /\
  events w' = events w /\
  logged w' = logged w /\
  forall q n, fs (os w) !! q = Some n -> fs (os w') !! q = Some n.

(** A file system in which every entry sits in a directory. *)
Definition tree_shaped (m : gmap path node) : bool :=
  forallb (fun q => match path_parent q with
                    | None => true
                    | Some parent =>
                        match m !! parent with Some Dir => true | _ => false end
                    end)
          ((map_to_list m).*1).

Definition imported (dotted : string) (w : world) : world :=
  {| os := os w; events := events w ++ [EImport dotted]; logged := logged w |}.

(** The classification the specification words: a fixed ordered list of
    address patterns with their categories, the first pattern found in the
    address deciding. *)
Definition part_patterns : list (string * string) :=
  [ ("wings/wing", "wing");
    ("fuselages/fuselage", "fuselage");
    ("enginePylons/enginePylon", "pylon");
    ("engine/nacelle/fanCowl", "fanCowl");
    ("engine/nacelle/centerCowl", "centerCowl");
    ("engine/nacelle/coreCowl", "coreCowl");
    ("vehicles/engines/engine", "engine");
    ("vehicles/rotorcraft/model/rotors/rotor", "rotor") ].

Definition classify_by_patterns (part_xpath : string) : option string :=
  match List.find (fun pc => str_contains (fst pc) part_xpath) part_patterns with
  | Some (_, category) => Some category
  | None => None
  end.

Definition with_line (line : level * string) (w : world) : world :=
  {| os := os w; events := events w; logged := logged w ++ [line] |}.

(** The line [get_part_type] logs, when [print] is set, for the uid it
    asked the document about and the category it found. *)
Definition part_line (asked_uid : string) (category : option string)
    : level * string :=
  match category with
  | Some c =>
      (INFO, "'" +:+ asked_uid +:+ "' is " +:+
             (if in_list c ["engine"; "rotor"] then "an " else "a ") +:+ c)
  | None => (WARNING, "'" +:+ asked_uid +:+ "' cannot be categorized!")
  end.

(** What a call of [get_part_type] comes to when it asks the document for
    the address of [asked_uid]. *)
Definition part_type_of (tixi : tixi_handle) (asked_uid : string)
    (print : bool) (w : world) : result (option string) * world :=
  match uIDGetXPath tixi asked_uid with
  | Raise e => (Raise e, w)
  | Ok part_xpath =>
      let category := classify_by_patterns part_xpath in
      (Ok category, if print then with_line (part_line asked_uid category) w else w)
  end.

Definition with_fs (m : gmap path node) (w : world) : world :=
  {| os := set_fs m (os w); events := events w; logged := logged w |}.

(** The entries the loop of [remove_file_type_in_dir] unlinks when it meets
    them: regular files whose suffix is listed. *)
Definition removable (file_type_list : list string) (m : gmap path node)
    (q : path) : bool :=
  match m !! q with
  | Some (File _) => in_list (name_suffix (path_name q)) file_type_list
  | _ => false
  end.

(** The body of the loop of [remove_file_type_in_dir]. *)
Definition remove_step (file_type_list : list string) (file : path) : Py unit :=
  regular ← path_is_file file;
  if negb regular then mret tt
  else if in_list (name_suffix (path_name file)) file_type_list
       then path_unlink file
       else mret tt.

(** The entries of a module directory that the loop of [run_module] takes
    for the entry file. *)
Definition is_entry_file (file : path) : bool :=
  endswith (path_name file) ".py" && negb (startswith (path_name file) "__").

(** What a file system [m] holds at [q] once the regular files of
    [directory] with a listed suffix are gone. *)
Definition swept (directory : path) (file_type_list : list string)
    (m : gmap path node) (q : path) : option node :=
  match m !! q with
  | Some (File c) =>
      if bool_decide (path_parent q = Some directory)
         && in_list (name_suffix (path_name q)) file_type_list
      then None else Some (File c)
  | other => other
  end.

(** * Verification *)

(** ** The working-directory scope *)

Lemma os_chdir_dir (p : path) (w : world) :
  is_dir p w -> os_chdir p w = (Ok tt, entered p w).
Proof.
  unfold is_dir, os_chdir, entered. intros Hd.
  unfold mbind, Py_bind, get_os. rewrite Hd. reflexivity.
Qed.

Lemma os_chdir_not_dir (p : path) (w : world) :
  ~ is_dir p w ->
  exists e, os_chdir p w = (Raise e, refused p w) /\ is_OSError e = true.
Proof.
  unfold is_dir, os_chdir, refused. intros Hd.
  unfold mbind, Py_bind, get_os.
  destruct (fs (os w) !! p) as [[|c]|] eqn:E.
  - congruence.
  - exists (NotADirectoryError p). split; reflexivity.
  - exists (FileNotFoundError p). split; reflexivity.
Qed.

Lemma os_getcwd_dir (w : world) :
  is_dir (cwd (os w)) w -> os_getcwd w = (Ok (cwd (os w)), w).
Proof.
  unfold is_dir, os_getcwd. intros Hd.
  unfold mbind, Py_bind, get_os. rewrite Hd. reflexivity.
Qed.

Lemma set_cwd_same (s : os_state) : set_cwd (cwd s) s = s.
Proof. destruct s; reflexivity. Qed.


(** C1. Starting in a directory D, with T a directory the process can
    change to, the block of [with change_working_dir(T)] runs with working
    directory T; whatever its outcome (a value or a raised exception), it is
    the outcome of the whole statement, and on exit the working directory is
    D again, by exactly one [os.chdir(D)] issued after the block, D being a
    directory the process can change to when the block ends. *)
Theorem change_working_dir_restores {A} (T : path) (block : Py A) (w : world) :
  let D := cwd (os w) in
  let inside := entered T w in
  let after := snd (block inside) in
  is_dir D w ->
  is_dir T w ->
  is_dir D after ->
  cwd (os inside) = T /\
  change_working_dir T block w = (fst (block inside), entered D after) /\
  cwd (os (entered D after)) = D /\
  events (entered D after) = events after ++ [EChdir D true].
Proof.
  intros D inside after HD HT HD'.
  split; [reflexivity|]. split; [|split; reflexivity].
  unfold change_working_dir, try_finally.
  rewrite (os_getcwd_dir w HD), (os_chdir_dir T w HT).
  subst after inside. destruct (block (entered T w)) as [r w3]. cbn [fst snd] in *.
  unfold D in *. rewrite (os_chdir_dir _ w3 HD'). reflexivity.
Qed.

(** C2, as the code has it. When the initial [os.chdir(T)] fails, the block
    is not run and the error, an [EnvironmentError], is what the statement
    raises; but the [finally] clause still runs: one [os.chdir(D)] back to
    the saved directory is issued (and succeeds, the process being in D),
    leaving the process state as it was. *)
Theorem change_working_dir_enter_fails {A} (T : path) (block : Py A) (w : world) :
  let D := cwd (os w) in
  is_dir D w ->
  ~ is_dir T w ->
  exists e,
    os_chdir T w = (Raise e, refused T w) /\
    is_EnvironmentError e = true /\
    change_working_dir T block w =
      (Raise e, {| os := os w;
                   events := events w ++ [EChdir T false; EChdir D true];
                   logged := logged w |}).
Proof.
  intros D HD HT.
  destruct (os_chdir_not_dir T w HT) as (e & He & Hos).
  exists e. split; [exact He|]. split; [exact Hos|].
  unfold change_working_dir, try_finally.
  rewrite (os_getcwd_dir w HD), He.
  assert (HD2 : is_dir D (refused T w)) by exact HD.
  change (cwd (os w)) with D.
  rewrite (os_chdir_dir D _ HD2). unfold entered, refused; cbn.
  unfold D at 1. rewrite set_cwd_same, <- app_assoc. reflexivity.
Qed.

(** ** The CPU budget *)

Lemma round53_small (n : Z) : (0 <= n < 2 ^ 53)%Z -> round53 n = n.
Proof.
  intros [Hlo Hhi]. unfold round53.
  assert (H : (Z.log2 n + 1 <= 53)%Z).
  { destruct (Z.eq_dec n 0%Z) as [->|Hn]; [cbn; lia|].
    assert (Z.log2 n < 53)%Z; [|lia].
    apply Z.log2_lt_pow2; lia. }
  apply Z.leb_le in H. rewrite H. reflexivity.
Qed.

Lemma int_truediv_pow2_small (n : Z) :
  (0 <= n < 2 ^ 53)%Z -> int_truediv_pow2 n 2 = Ok (Qmake n 4).
Proof.
  intros Hn. unfold int_truediv_pow2.
  rewrite (Z.abs_eq n) by lia. rewrite (round53_small n Hn).
  assert (Hm : (Z.sgn n * n = n)%Z).
  { destruct (Z.eq_dec n 0%Z) as [->|Hz]; [reflexivity|].
    rewrite Z.sgn_pos by lia. lia. }
  rewrite Hm, (Z.abs_eq n) by lia.
  assert (Hlt : (n < 2 ^ (1024 + 2))%Z).
  { apply Z.lt_trans with (2 ^ 53)%Z; [lia|].
    apply Z.pow_lt_mono_r; lia. }
  apply Z.leb_gt in Hlt. rewrite Hlt. reflexivity.
Qed.

Lemma math_ceil_quarter (n : Z) :
  let k := math_ceil (Qmake n 4) in (4 * (k - 1) < n <= 4 * k)%Z.
Proof.
  unfold math_ceil, Qceiling, Qfloor. cbn.
  pose proof (Z.div_mod (- n) 4 ltac:(lia)) as Hdm.
  pose proof (Z.mod_pos_bound (- n) 4 ltac:(lia)) as Hb.
  lia.
Qed.

(** C3. On a host whose CPU count, when it is known, is a positive machine
    integer (below 2^53, so that the float division by 4 is exact),
    [get_reasonable_nb_cpu()] returns, without failing and without touching
    the process state, 1 when the count is unknown and otherwise the least
    integer k with n <= 4k, that is ceil(n/4): 1 for n = 1..4, 2 for
    n = 8. *)
Theorem get_reasonable_nb_cpu_spec (w : world)
    (Hrange : forall n, cpu_count (os w) = Some n -> (1 <= n < 2 ^ 53)%Z) :
  exists k,
    get_reasonable_nb_cpu w = (Ok k, w) /\
    match cpu_count (os w) with
    | None => k = 1%Z
    | Some n =>
        (4 * (k - 1) < n <= 4 * k)%Z /\
        ((n <= 4)%Z -> k = 1%Z) /\
        (n = 8%Z -> k = 2%Z)
    end.
Proof.
  unfold get_reasonable_nb_cpu, mbind, Py_bind, get_os.
  destruct (cpu_count (os w)) as [n|] eqn:Hc.
  - specialize (Hrange n eq_refl).
    rewrite int_truediv_pow2_small by lia.
    exists (math_ceil (Qmake n 4)). split; [reflexivity|].
    pose proof (math_ceil_quarter n) as Hk. cbv zeta in Hk.
    repeat split; lia.
  - exists 1%Z. split; reflexivity.
Qed.

(** ** The step runner *)

Lemma run_module_banner (module : ModuleToRun) (wkdir : path) (iteration : Z)
    (w : world) :
  run_module module wkdir iteration w =
  (if String.eqb (name module) "Optimisation" && (0 <? iteration)%Z then
     log_info "Optimisation module is only run at first iteration!"
   else
     files ← path_iterdir (module_dir module);
     match find_python_file files with
     | None => raise (UnboundLocalError "python_file")
     | Some python_file =>
         let dotted := "ceasiompy." +:+ name module +:+ "." +:+ python_file in
         my_module ← import_module dotted;
         change_working_dir wkdir
           (call_main dotted my_module (cpacs_in module) (cpacs_out module))
     end)
    {| os := os w; events := events w;
       logged := logged w ++ banner module wkdir |}.
Proof.
  unfold run_module, banner.
  unfold mbind at 1 2 3 4 5 6. unfold Py_bind at 1 2 3 4 5 6.
  unfold log_info at 1 2 3 4 5 6. cbn [os events logged].
  repeat rewrite <- app_assoc. reflexivity.
Qed.

(** C4. A step of the module named "Optimisation" at an iteration above
    zero is skipped: [run_module] only logs, it imports nothing, enters no
    directory, calls no entry point and leaves the process state (hence
    every document) as it was. In every other case (another name, or
    iteration 0) the entry file found in the module directory (the last
    one that qualifies, in the order the file system lists the directory)
    is imported and its [main] is called, inside the scope of [wkdir], with
    the input and output document paths. *)
Theorem run_module_optimisation_skip (module : ModuleToRun) (wkdir : path)
    (iteration : Z) (w : world) :
  (name module = "Optimisation" -> (0 < iteration)%Z ->
   run_module module wkdir iteration w =
     (Ok tt,
      {| os := os w;
         events := events w;
         logged := logged w ++ banner module wkdir ++
                   [(INFO, "Optimisation module is only run at first iteration!")] |}))
  /\
  (forall python_file my_module entry_point,
     name module <> "Optimisation" \/ (iteration <= 0)%Z ->
     is_dir (module_dir module) w ->
     find_python_file (listing (os w) (module_dir module)) = Some python_file ->
     let dotted := "ceasiompy." +:+ name module +:+ "." +:+ python_file in
     packages dotted = Ok my_module ->
     main my_module = Some entry_point ->
     is_dir (cwd (os w)) w ->
     is_dir wkdir w ->
     let run := entry_point (cpacs_in module) (cpacs_out module)
                            (set_cwd wkdir (os w)) in
     fs (snd run) !! cwd (os w) = Some Dir ->
     run_module module wkdir iteration w =
       (fst run,
        {| os := set_cwd (cwd (os w)) (snd run);
           events := events w ++
                     [EImport dotted; EChdir wkdir true;
                      ECall dotted (cpacs_in module) (cpacs_out module);
                      EChdir (cwd (os w)) true];
           logged := logged w ++ banner module wkdir |})).
Proof.
  split.
  - intros Hn Hi. rewrite run_module_banner, Hn.
    apply Z.ltb_lt in Hi. rewrite Hi. cbn [String.eqb Ascii.eqb Bool.eqb andb].
    unfold log_info. cbn [os events logged]. rewrite <- app_assoc. reflexivity.
  - intros python_file my_module entry_point Hrun Hmd Hfile dotted Hpkg Hmain
           HD HT run Hback.
    rewrite run_module_banner.
    assert (Hcond : String.eqb (name module) "Optimisation" && (0 <? iteration)%Z
                    = false).
    { destruct Hrun as [Hn|Hi].
      - apply String.eqb_neq in Hn. rewrite Hn. reflexivity.
      - apply andb_false_intro2. apply Z.ltb_ge. exact Hi. }
    rewrite Hcond.
    unfold is_dir in Hmd.
    unfold mbind at 1. unfold Py_bind at 1.
    unfold path_iterdir at 1. unfold mbind at 1. unfold Py_bind at 1.
    unfold get_os at 1. cbn [os]. rewrite Hmd.
    unfold mret at 1. unfold Py_ret at 1. rewrite Hfile. fold dotted.
    unfold mbind at 1. unfold Py_bind at 1.
    unfold import_module. unfold mbind at 1. unfold Py_bind at 1.
    unfold emit at 1. cbn [os events logged]. rewrite Hpkg.
    unfold mret at 1. unfold Py_ret at 1.
    unfold change_working_dir, try_finally.
    rewrite os_getcwd_dir by exact HD. cbn [os].
    rewrite os_chdir_dir by exact HT.
    unfold call_main. rewrite Hmain.
    unfold mbind, Py_bind, emit, get_os, put_os, entered. cbn [os events logged].
    fold run. destruct run as [r s'] eqn:Erun. cbn [fst snd] in *.
    destruct r as [[]|e]; unfold mret, Py_ret, raise.
    + rewrite os_chdir_dir by exact Hback. unfold entered. cbn [os events logged].
      repeat rewrite <- app_assoc. reflexivity.
    + rewrite os_chdir_dir by exact Hback. unfold entered. cbn [os events logged].
      repeat rewrite <- app_assoc. reflexivity.
Qed.

(** ** The external tool invoker *)

Lemma get_install_path_permissive (software_name : string) (w : world) :
  get_install_path software_name false w =
  (Ok (search_path (os w) !! software_name),
   {| os := os w; events := events w;
      logged := logged w ++
                [install_line software_name (search_path (os w) !! software_name)] |}).
Proof.
  unfold get_install_path, shutil_which, mbind, Py_bind, get_os, mret, Py_ret.
  destruct (search_path (os w) !! software_name); reflexivity.
Qed.

Lemma path_parent_snoc (d : path) (x : string) : path_parent (d ++ [x]) = Some d.
Proof.
  unfold path_parent. rewrite reverse_app, reverse_singleton. cbn [app].
  rewrite reverse_involutive. reflexivity.
Qed.

Lemma no_none_in_strings (l : list string) :
  existsb arg_is_none (List.map ArgStr l) = false.
Proof. induction l as [|x l IH]; [reflexivity|exact IH]. Qed.

Lemma arg_str_strings (l : list string) : List.map arg_str (List.map ArgStr l) = l.
Proof. induction l as [|x l IH]; [reflexivity|cbn; rewrite IH; reflexivity]. Qed.

Lemma assembled_no_none xvfb launcher nb_cpu tool arguments :
  existsb arg_is_none (assembled xvfb launcher nb_cpu tool arguments) = false.
Proof.
  unfold assembled. rewrite !existsb_app, no_none_in_strings.
  destruct xvfb, launcher; reflexivity.
Qed.

Lemma assembled_str xvfb launcher nb_cpu tool arguments :
  List.map arg_str (assembled xvfb launcher nb_cpu tool arguments) =
  (if xvfb then ["xvfb-run"] else []) ++
  (match launcher with
   | Some mpi => [path_str mpi; "-np"; str_int nb_cpu]
   | None => []
   end) ++ [path_str tool] ++ arguments.
Proof.
  unfold assembled. rewrite !map_app, arg_str_strings.
  destruct xvfb, launcher; reflexivity.
Qed.

(** *** The path of the logfile *)

Lemma str_contains_char_cons (x c : ascii) (s : string) :
  str_contains (String x "") (String c s) =
  Ascii.eqb x c || str_contains (String x "") s.
Proof.
  cbn [str_contains String.prefix].
  destruct (ascii_dec x c) as [->|Hne].
  - rewrite Ascii.eqb_refl. destruct s; reflexivity.
  - apply Ascii.eqb_neq in Hne. rewrite Hne. reflexivity.
Qed.

Lemma str_contains_char_append (x : ascii) (s t : string) :
  str_contains (String x "") (s +:+ t) =
  str_contains (String x "") s || str_contains (String x "") t.
Proof.
  induction s as [|c s IH].
  - change ("" +:+ t) with t. reflexivity.
  - change (String c s +:+ t) with (String c (s +:+ t)).
    rewrite !str_contains_char_cons, IH. apply orb_assoc.
Qed.

Lemma str_split_char_free (sep : ascii) (s : string) :
  str_contains (String sep "") s = false -> str_split_char sep s = [s].
Proof.
  induction s as [|c s IH]; [reflexivity|].
  rewrite str_contains_char_cons. intros H.
  apply orb_false_elim in H. destruct H as [Hc Hs].
  cbn [str_split_char]. rewrite Ascii.eqb_sym, Hc, (IH Hs). reflexivity.
Qed.

(** For a tool given by its name (no directory part) the logfile sits
    directly in the working directory. *)
Lemma logfile_in_wkdir (wkdir : path) (software_name : string) :
  str_contains "/" software_name = false ->
  path_join_str wkdir ("logfile_" +:+ software_name +:+ ".log") =
  wkdir ++ ["logfile_" +:+ software_name +:+ ".log"].
Proof.
  intros Hname. unfold path_join_str, pure_parts.
  rewrite str_split_char_free.
  - change ("logfile_" +:+ software_name +:+ ".log")
      with (String "l" ("ogfile_" +:+ software_name +:+ ".log")).
    reflexivity.
  - rewrite !str_contains_char_append, Hname. reflexivity.
Qed.

(** What the block of [run_software]'s [with] statement does, started in
    the working directory with a command line free of [None]. *)
Lemma run_block (cmd : list arg) (wkdir : path) (x : string) (w : world) :
  existsb arg_is_none cmd = false ->
  is_dir wkdir w ->
  fs (os w) !! (wkdir ++ [x]) <> Some Dir ->
  let logfile := wkdir ++ [x] in
  let s1 := set_fs (<[logfile := File ""]> (fs (os w))) (os w) in
  let child := child_process (List.map arg_str cmd) logfile s1 in
  (opened ← open_w logfile; subprocess_call cmd opened;; mret tt) w =
  (match fst child with Ok _ => Ok tt | Raise e => Raise e end,
   {| os := snd child;
      events := events w ++ [ESpawn (List.map arg_str cmd) logfile];
      logged := logged w |}).
Proof.
  intros Hnone Hd Hlog logfile s1 child.
  assert (Hp : path_parent logfile = Some wkdir) by apply path_parent_snoc.
  fold logfile in Hlog.
  unfold open_w, subprocess_call. rewrite Hnone.
  unfold mbind, Py_bind, get_os, put_os, emit, mret, Py_ret, raise.
  cbn beta. rewrite Hp.
  unfold is_dir in Hd. rewrite Hd.
  destruct (fs (os w) !! logfile) as [[|c]|] eqn:E; [congruence| |];
    cbn [os events logged]; fold s1; fold child;
    destruct child as [[code|e] s2]; reflexivity.
Qed.

(** [run_software] on a host where the tool resolves, the working directory
    can be entered and the logfile can be opened: the child process is
    started once, inside the working directory, and the directory the
    process came from is entered again. *)
Lemma run_software_runs (software_name : string) (arguments : list string)
    (wkdir : path) (with_mpi : bool) (nb_cpu : Z) (w : world) (tool : path) :
  let D := cwd (os w) in
  let logfile := wkdir ++ ["logfile_" +:+ software_name +:+ ".log"] in
  let xvfb := in_list software_name ["sumo"; "dwfsumo"]
              && String.eqb (platform (os w)) "linux" in
  let launcher := if with_mpi then search_path (os w) !! "mpirun" else None in
  let cmd := List.map arg_str (assembled xvfb launcher nb_cpu tool arguments) in
  let child := child_process cmd logfile
                 (set_fs (<[logfile := File ""]> (fs (os w))) (set_cwd wkdir (os w))) in
  str_contains "/" software_name = false ->
  search_path (os w) !! software_name = Some tool ->
  is_dir D w ->
  is_dir wkdir w ->
  fs (os w) !! logfile <> Some Dir ->
  fs (snd child) !! D = Some Dir ->
  exists lines,
    run_software software_name arguments wkdir with_mpi nb_cpu w =
    (match fst child with Ok _ => Ok tt | Raise e => Raise e end,
     {| os := set_cwd D (snd child);
        events := events w ++
                  [EChdir wkdir true; ESpawn cmd logfile; EChdir D true];
        logged := lines |}).
Proof.
  intros D logfile xvfb launcher cmd child Hname Htool HD HT Hlog Hback.
  unfold run_software. rewrite (logfile_in_wkdir wkdir software_name Hname).
  unfold mbind at 1. unfold Py_bind at 1. unfold get_os at 1.
  unfold mbind at 1. unfold Py_bind at 1. unfold log_info at 1.
  unfold mbind at 1. unfold Py_bind at 1.
  rewrite get_install_path_permissive. cbn [os events logged]. rewrite Htool.
  unfold mbind at 1. unfold Py_bind at 1.
  set (w1 := {| os := os w; events := events w; logged := _ |}).
  assert (Hmpi : exists lg,
    (if with_mpi
     then mpi_install_path ← get_install_path "mpirun" false;
          match mpi_install_path with
          | Some mpi => mret ([] ++ [ArgPath mpi; ArgStr "-np"; ArgStr (str_int nb_cpu)])
          | None => mret []
          end
     else mret []) w1 =
    (Ok (match launcher with
         | Some mpi => [ArgPath mpi; ArgStr "-np"; ArgStr (str_int nb_cpu)]
         | None => []
         end),
     {| os := os w; events := events w; logged := lg |})).
  { subst launcher. destruct with_mpi.
    - unfold mbind, Py_bind. rewrite get_install_path_permissive. subst w1.
      cbn [os events logged].
      destruct (search_path (os w) !! "mpirun"); eexists; reflexivity.
    - eexists. reflexivity. }
  destruct Hmpi as (lg & ->).
  unfold mbind at 1. unfold Py_bind at 1. unfold get_os at 1. cbn [os].
  fold xvfb.
  set (command_line := if xvfb then _ else _).
  assert (Hcmd : command_line = assembled xvfb launcher nb_cpu tool arguments).
  { subst command_line. unfold assembled.
    destruct xvfb; cbn [app]; rewrite <- ?app_assoc; reflexivity. }
  rewrite Hcmd. clear Hcmd command_line.
  do 5 (unfold mbind at 1; unfold Py_bind at 1; unfold log_info at 1;
        cbn [os events logged]).
  unfold mbind at 1. unfold Py_bind at 1.
  unfold change_working_dir, try_finally.
  rewrite os_getcwd_dir by exact HD. cbn [os].
  rewrite os_chdir_dir by exact HT.
  rewrite run_block;
    [ | apply assembled_no_none | exact HT | exact Hlog ].
  unfold entered at 1 2 3. cbn [os events logged fs]. fold logfile. fold cmd.
  change (fs (set_cwd wkdir (os w))) with (fs (os w)).
  fold child. fold D.
  rewrite os_chdir_dir by exact Hback.
  unfold entered, log_info. cbn [os events logged].
  rewrite <- !app_assoc. cbn [app].
  change (fs (set_cwd wkdir (os w))) with (fs (os w)). fold child.
  destruct (fst child) as [code|e]; eexists; reflexivity.
Qed.

Lemma log_blind_ret {A} (a : A) : log_blind (mret a).
Proof. intros w1 w2 H. split; [reflexivity|exact H]. Qed.

Lemma log_blind_raise {A} (e : exn) : log_blind (@raise A e).
Proof. intros w1 w2 H. split; [reflexivity|exact H]. Qed.

Lemma log_blind_bind {A B} (m : Py A) (f : A -> Py B) :
  log_blind m -> (forall a, log_blind (f a)) -> log_blind (m ≫= f).
Proof.
  intros Hm Hf w1 w2 H. unfold mbind, Py_bind.
  destruct (Hm w1 w2 H) as [Hr Hw].
  destruct (m w1) as [r1 w1'], (m w2) as [r2 w2']. cbn [fst snd] in *.
  subst r2. destruct r1 as [a|e].
  - apply Hf. exact Hw.
  - split; [reflexivity|exact Hw].
Qed.

Lemma log_blind_get_os : log_blind get_os.
Proof. intros w1 w2 [Ho He]. unfold get_os; cbn. rewrite Ho. repeat split; assumption. Qed.

Lemma log_blind_put_os (s : os_state) : log_blind (put_os s).
Proof. intros w1 w2 [Ho He]. unfold put_os, same_process; cbn. auto. Qed.

Lemma log_blind_emit (ev : event) : log_blind (emit ev).
Proof.
  intros w1 w2 [Ho He]. unfold emit, same_process; cbn. rewrite He. auto.
Qed.

Lemma log_blind_log_info (msg : string) : log_blind (log_info msg).
Proof. intros w1 w2 [Ho He]. unfold log_info, same_process; cbn. auto. Qed.

Lemma log_blind_log_warning (msg : string) : log_blind (log_warning msg).
Proof. intros w1 w2 [Ho He]. unfold log_warning, same_process; cbn. auto. Qed.

Ltac blind :=
  repeat first
    [ apply log_blind_ret | apply log_blind_raise | apply log_blind_get_os
    | apply log_blind_put_os | apply log_blind_emit
    | apply log_blind_log_info | apply log_blind_log_warning
    | apply log_blind_bind
    | match goal with
      | |- forall _, log_blind _ => intro
      | |- log_blind (match ?x with _ => _ end) => destruct x
      end ].

Lemma log_blind_os_getcwd : log_blind os_getcwd.
Proof. unfold os_getcwd. blind. Qed.

Lemma log_blind_os_chdir (p : path) : log_blind (os_chdir p).
Proof. unfold os_chdir. blind. Qed.

Lemma log_blind_open_w (p : path) : log_blind (open_w p).
Proof. unfold open_w. blind. Qed.

Lemma log_blind_subprocess_call (cmd : list arg) (out : path) :
  log_blind (subprocess_call cmd out).
Proof. unfold subprocess_call. blind. Qed.

Lemma log_blind_change_working_dir {A} (d : path) (block : Py A) :
  log_blind block -> log_blind (change_working_dir d block).
Proof.
  intros Hb w1 w2 H. unfold change_working_dir, try_finally.
  destruct (log_blind_os_getcwd w1 w2 H) as [Hr Hw].
  destruct (os_getcwd w1) as [r1 u1], (os_getcwd w2) as [r2 u2].
  cbn [fst snd] in *. subst r2. destruct r1 as [d0|e]; [|split; [reflexivity|exact Hw]].
  destruct (log_blind_os_chdir d u1 u2 Hw) as [Hr1 Hw1].
  destruct (os_chdir d u1) as [r1 v1], (os_chdir d u2) as [r2 v2].
  cbn [fst snd] in *. subst r2. destruct r1 as [[]|e].
  - destruct (Hb v1 v2 Hw1) as [Hr2 Hw2].
    destruct (block v1) as [r1 x1], (block v2) as [r2 x2].
    cbn [fst snd] in *. subst r2.
    destruct (log_blind_os_chdir d0 x1 x2 Hw2) as [Hr3 Hw3].
    destruct (os_chdir d0 x1) as [q1 y1], (os_chdir d0 x2) as [q2 y2].
    cbn [fst snd] in *. subst q2. destruct q1; split; auto.
  - destruct (log_blind_os_chdir d0 v1 v2 Hw1) as [Hr3 Hw3].
    destruct (os_chdir d0 v1) as [q1 y1], (os_chdir d0 v2) as [q2 y2].
    cbn [fst snd] in *. subst q2. destruct q1; split; auto.
Qed.

Lemma run_software_tail (software_name : string) (arguments : list string)
    (wkdir : path) (with_mpi : bool) (nb_cpu : Z) :
  run_software software_name arguments wkdir with_mpi nb_cpu =
  (s ← get_os;
   log_info (str_int nb_cpu +:+ " cpu over " +:+ str_cpu_count (cpu_count s)
             +:+ " will be used for this calculation.");;
   install_path ← get_install_path software_name false;
   command_line ←
     (if with_mpi then
        mpi_install_path ← get_install_path "mpirun" false;
        match mpi_install_path with
        | Some mpi =>
            mret ([] ++ [ArgPath mpi; ArgStr "-np"; ArgStr (str_int nb_cpu)])
        | None => mret []
        end
      else mret []);
   run_tail software_name arguments wkdir nb_cpu install_path command_line).
Proof. reflexivity. Qed.

Lemma log_blind_run_tail software_name arguments wkdir nb_cpu install_path
    command_line :
  log_blind (run_tail software_name arguments wkdir nb_cpu install_path
               command_line).
Proof.
  unfold run_tail. blind.
  apply log_blind_change_working_dir.
  apply log_blind_bind; [apply log_blind_open_w|intro].
  apply log_blind_bind; [apply log_blind_subprocess_call|intro; blind].
Qed.

(** C5. [run_software] with [with_mpi] set, for a tool given by its name
    (no directory part in it, so that the logfile sits directly in the
    working directory). When "mpirun" resolves, the
    command line handed to the child process carries
    [<launcher> -np <nb_cpu>] right before the tool executable (after the
    virtual-display wrapper, when that applies). When it does not resolve,
    nothing is raised for it: the call has the outcome, the effect on the
    process and the events of the call without MPI, and the child process
    is started on the tool and its arguments alone. *)
Theorem run_software_mpi_prefix (software_name : string)
    (arguments : list string) (wkdir : path) (nb_cpu : Z) (w : world) :
  str_contains "/" software_name = false ->
  let D := cwd (os w) in
  let logfile := path_join_str wkdir ("logfile_" +:+ software_name +:+ ".log") in
  let xvfb := if in_list software_name ["sumo"; "dwfsumo"]
                 && String.eqb (platform (os w)) "linux"
              then ["xvfb-run"] else [] in
  let inside := set_fs (<[logfile := File ""]> (fs (os w)))
                       (set_cwd wkdir (os w)) in
  let with_mpi := run_software software_name arguments wkdir true nb_cpu w in
  let without := run_software software_name arguments wkdir false nb_cpu w in
  (forall launcher tool,
     search_path (os w) !! "mpirun" = Some launcher ->
     search_path (os w) !! software_name = Some tool ->
     let cmd := xvfb ++ [path_str launcher; "-np"; str_int nb_cpu]
                     ++ [path_str tool] ++ arguments in
     let child := child_process cmd logfile inside in
     is_dir D w ->
     is_dir wkdir w ->
     fs (os w) !! logfile <> Some Dir ->
     fs (snd child) !! D = Some Dir ->
     fst with_mpi = match fst child with Ok _ => Ok tt | Raise e => Raise e end /\
     os (snd with_mpi) = set_cwd D (snd child) /\
     events (snd with_mpi) =
       events w ++ [EChdir wkdir true; ESpawn cmd logfile; EChdir D true])
  /\
  (search_path (os w) !! "mpirun" = None ->
     (fst with_mpi = fst without /\
      os (snd with_mpi) = os (snd without) /\
      events (snd with_mpi) = events (snd without)) /\
     (forall tool,
        search_path (os w) !! software_name = Some tool ->
        let cmd := xvfb ++ [path_str tool] ++ arguments in
        let child := child_process cmd logfile inside in
        is_dir D w ->
        is_dir wkdir w ->
        fs (os w) !! logfile <> Some Dir ->
        fs (snd child) !! D = Some Dir ->
        fst with_mpi = match fst child with Ok _ => Ok tt | Raise e => Raise e end /\
        os (snd with_mpi) = set_cwd D (snd child) /\
        events (snd with_mpi) =
          events w ++ [EChdir wkdir true; ESpawn cmd logfile; EChdir D true])).
Proof.
  intros Hname. rewrite (logfile_in_wkdir wkdir software_name Hname).
  intros D logfile xvfb inside with_mpi without. split.
  - intros launcher tool Hmpi Htool cmd child HD HT Hlog Hback.
    pose proof (run_software_runs software_name arguments wkdir true nb_cpu w tool)
      as H.
    cbv zeta in H. rewrite assembled_str, Hmpi in H.
    destruct (H Hname Htool HD HT Hlog Hback) as (lines & Hrun).
    subst with_mpi. rewrite Hrun. repeat split.
  - intros Hmpi. split.
    + subst with_mpi without. rewrite !run_software_tail.
      unfold mbind, Py_bind, get_os, log_info.
      rewrite !get_install_path_permissive. cbn [os events logged].
      rewrite Hmpi. unfold mret, Py_ret.
      match goal with
      | |- fst (?k ?w1) = fst (?k ?w2) /\ _ =>
          destruct (log_blind_run_tail software_name arguments wkdir nb_cpu
                      (search_path (os w) !! software_name) [] w1 w2)
            as (Hr & Ho & He);
          [split; reflexivity | repeat split; assumption]
      end.
    + intros tool Htool cmd child HD HT Hlog Hback.
      pose proof (run_software_runs software_name arguments wkdir true nb_cpu w tool)
        as H.
      cbv zeta in H. rewrite assembled_str, Hmpi in H.
      destruct (H Hname Htool HD HT Hlog Hback) as (lines & Hrun).
      subst with_mpi. rewrite Hrun. repeat split.
Qed.

(** ** The results directory *)

Lemma grown_refl (w : world) : grown w w.
Proof. unfold grown. repeat split; auto. Qed.

Lemma grown_trans (w1 w2 w3 : world) : grown w1 w2 -> grown w2 w3 -> grown w1 w3.
Proof.
  unfold grown.
  intros (A1 & A2 & A3 & A4 & A5 & A6 & A7 & A8) (B1 & B2 & B3 & B4 & B5 & B6 & B7 & B8).
  repeat split; try congruence. auto.
Qed.

Lemma os_mkdir_inv (p : path) (w w' : world) (r : result unit) :
  os_mkdir p w = (r, w') ->
  match r with
  | Ok _ => grown w w' /\ is_dir p w'
  | Raise e => w' = w /\ is_OSError e = true
  end.
Proof.
  unfold os_mkdir, mbind, Py_bind, get_os, put_os, raise.
  destruct (fs (os w) !! p) as [n|] eqn:Ep.
  { intros [= <- <-]. split; reflexivity. }
  destruct (path_parent p) as [parent|].
  2:{ intros [= <- <-]. split; reflexivity. }
  destruct (fs (os w) !! parent) as [[|c]|].
  - intros [= <- <-]. split.
    + unfold grown; cbn. repeat split; auto.
      intros q n Hq. rewrite lookup_insert_ne; [exact Hq|].
      intros ->. congruence.
    + unfold is_dir; cbn. apply lookup_insert_eq.
  - intros [= <- <-]. split; reflexivity.
  - intros [= <- <-]. split; reflexivity.
Qed.

Lemma path_is_dir_eq (p : path) (w : world) :
  path_is_dir p w =
  (Ok (match fs (os w) !! p with Some Dir => true | _ => false end), w).
Proof. reflexivity. Qed.

Lemma path_mkdir_here_ok (p : path) (exist_ok : bool) (w w' : world) :
  path_mkdir_here p exist_ok w = (Ok tt, w') -> grown w w' /\ is_dir p w'.
Proof.
  unfold path_mkdir_here.
  destruct (os_mkdir p w) as [r w1] eqn:Em.
  pose proof (os_mkdir_inv p w w1 r Em) as Hinv.
  destruct r as [[]|e].
  - intros [= <-]. exact Hinv.
  - destruct Hinv as [-> He].
    destruct e; try discriminate He; try (intros [=]; fail);
      cbn [is_OSError]; rewrite path_is_dir_eq;
      unfold is_dir;
      destruct (fs (os w) !! p) as [[|c]|] eqn:El; destruct exist_ok; cbn;
      intros [= <-]; split; auto using grown_refl.
Qed.

Lemma path_mkdir_parents_ok (rev_parts : list string) :
  forall (exist_ok : bool) (w w' : world),
    path_mkdir_parents rev_parts exist_ok w = (Ok tt, w') ->
    grown w w' /\ is_dir (reverse rev_parts) w'.
Proof.
  induction rev_parts as [|x rev_parent IH]; intros exist_ok w w'.
  - cbn [path_mkdir_parents].
    destruct (os_mkdir (reverse []) w) as [r w1] eqn:Em.
    pose proof (os_mkdir_inv _ w w1 r Em) as Hinv.
    destruct r as [[]|e].
    + intros [= <-]. exact Hinv.
    + destruct Hinv as [-> He].
      destruct e; try discriminate He; try (intros [=]; fail);
        cbn [is_OSError]; rewrite path_is_dir_eq;
        unfold is_dir;
        destruct (fs (os w) !! reverse []) as [[|c]|] eqn:El; destruct exist_ok; cbn;
        intros [= <-]; split; auto using grown_refl.
  - cbn [path_mkdir_parents].
    destruct (os_mkdir (reverse (x :: rev_parent)) w) as [r w1] eqn:Em.
    pose proof (os_mkdir_inv _ w w1 r Em) as Hinv.
    destruct r as [[]|e].
    + intros [= <-]. exact Hinv.
    + destruct Hinv as [-> He].
      destruct e; try discriminate He.
      * unfold mbind, Py_bind.
        destruct (path_mkdir_parents rev_parent true w) as [[[]|e1] w2] eqn:Ep;
          [|intros [=]].
        destruct (IH true w w2 Ep) as [Hg _].
        intros Hh. destruct (path_mkdir_here_ok _ _ _ _ Hh) as [Hg' Hd].
        split; [exact (grown_trans _ _ _ Hg Hg')|exact Hd].
      * cbn [is_OSError]; rewrite path_is_dir_eq; unfold is_dir;
          destruct (fs (os w) !! reverse (x :: rev_parent)) as [[|c]|] eqn:El;
          destruct exist_ok; cbn; intros [= <-]; split; auto using grown_refl.
      * cbn [is_OSError]; rewrite path_is_dir_eq; unfold is_dir;
          destruct (fs (os w) !! reverse (x :: rev_parent)) as [[|c]|] eqn:El;
          destruct exist_ok; cbn; intros [= <-]; split; auto using grown_refl.
      * cbn [is_OSError]; rewrite path_is_dir_eq; unfold is_dir;
          destruct (fs (os w) !! reverse (x :: rev_parent)) as [[|c]|] eqn:El;
          destruct exist_ok; cbn; intros [= <-]; split; auto using grown_refl.
Qed.

(** The call when the results directory is there already. *)
Lemma get_results_directory_present (module_name : string) (w : world)
    (specs : py_module) (results_subdir : pure_path) :
  let dotted := "ceasiompy." +:+ module_name +:+ ".__specs__" in
  in_list module_name module_list = true ->
  packages dotted = Ok specs ->
  RESULTS_DIR specs = Some results_subdir ->
  is_dir (cwd (os w)) w ->
  is_dir (path_join (cwd (os w)) results_subdir) w ->
  get_results_directory module_name w =
    (Ok (path_join (cwd (os w)) results_subdir), imported dotted w).
Proof.
  intros dotted Hreg Hpkg Hrd Hcwd Hdir.
  unfold get_results_directory. rewrite Hreg. cbn [negb].
  unfold import_module. fold dotted. rewrite Hpkg.
  unfold mbind, Py_bind, emit, mret, Py_ret. fold (imported dotted w).
  rewrite (os_getcwd_dir (imported dotted w)) by exact Hcwd.
  rewrite Hrd, path_is_dir_eq. cbn [os imported].
  unfold is_dir in Hdir. rewrite Hdir. reflexivity.
Qed.

(** What a returning call tells. *)
Lemma get_results_directory_returns (module_name : string) (w w1 : world)
    (p : path) :
  let dotted := "ceasiompy." +:+ module_name +:+ ".__specs__" in
  get_results_directory module_name w = (Ok p, w1) ->
  exists specs results_subdir,
    in_list module_name module_list = true /\
    packages dotted = Ok specs /\
    RESULTS_DIR specs = Some results_subdir /\
    p = path_join (cwd (os w)) results_subdir /\
    is_dir (cwd (os w)) w /\
    grown (imported dotted w) w1 /\
    is_dir p w1 /\
    (is_dir p w -> w1 = imported dotted w).
Proof.
  intros dotted. unfold get_results_directory.
  destruct (in_list module_name module_list); cbn [negb]; [|intros [=]].
  unfold import_module. fold dotted.
  unfold mbind, Py_bind, emit. fold (imported dotted w).
  destruct (packages dotted) as [specs|] eqn:Epkg; [|intros [=]].
  unfold mret at 1. unfold Py_ret at 1.
  unfold os_getcwd, mbind, Py_bind, get_os.
  destruct (fs (os (imported dotted w)) !! cwd (os (imported dotted w)))
    as [[|c]|] eqn:Ecwd; try (intros [=]; fail).
  unfold mret at 1. unfold Py_ret at 1.
  destruct (RESULTS_DIR specs) as [results_subdir|] eqn:Esub; [|intros [=]].
  rewrite path_is_dir_eq.
  set (results_dir := path_join (cwd (os (imported dotted w))) results_subdir).
  destruct (fs (os (imported dotted w)) !! results_dir) as [[|c]|] eqn:Erd;
    cbn [negb].
  - unfold mret, Py_ret. intros [= <- <-].
    exists specs, results_subdir. repeat split; auto using grown_refl.
  - unfold path_mkdir.
    destruct (path_mkdir_parents (reverse results_dir) false (imported dotted w))
      as [[[]|e] w2] eqn:Emk; [|intros [=]].
    unfold mret, Py_ret. intros [= <- <-].
    destruct (path_mkdir_parents_ok _ _ _ _ Emk) as [Hg Hd].
    rewrite reverse_involutive in Hd.
    exists specs, results_subdir.
    refine (conj eq_refl (conj eq_refl (conj Esub (conj eq_refl
             (conj Ecwd (conj Hg (conj Hd _))))))).
    intros Hw. exfalso.
    assert (Habs : fs (os (imported dotted w)) !! results_dir = Some Dir)
      by exact Hw.
    rewrite Erd in Habs. discriminate Habs.
  - unfold path_mkdir.
    destruct (path_mkdir_parents (reverse results_dir) false (imported dotted w))
      as [[[]|e] w2] eqn:Emk; [|intros [=]].
    unfold mret, Py_ret. intros [= <- <-].
    destruct (path_mkdir_parents_ok _ _ _ _ Emk) as [Hg Hd].
    rewrite reverse_involutive in Hd.
    exists specs, results_subdir.
    refine (conj eq_refl (conj eq_refl (conj Esub (conj eq_refl
             (conj Ecwd (conj Hg (conj Hd _))))))).
    intros Hw. exfalso.
    assert (Habs : fs (os (imported dotted w)) !! results_dir = Some Dir)
      by exact Hw.
    rewrite Erd in Habs. discriminate Habs.
Qed.

(** C6. When [get_results_directory] has returned a path for a (registered)
    module name, that path is a directory, nothing was created if it
    already was one, and a second call from the same working directory
    returns the same path: it does not fail and it changes nothing in the
    process state (it only imports the specification module again). *)
Theorem get_results_directory_idempotent (module_name : string)
    (w w1 : world) (p : path) :
  get_results_directory module_name w = (Ok p, w1) ->
  in_list module_name module_list = true /\
  is_dir p w1 /\
  (is_dir p w -> os w1 = os w) /\
  get_results_directory module_name w1 =
    (Ok p, imported ("ceasiompy." +:+ module_name +:+ ".__specs__") w1).
Proof.
  intros Hcall.
  destruct (get_results_directory_returns _ _ _ _ Hcall)
    as (specs & results_subdir & Hreg & Hpkg & Hrd & -> & Hcwd & Hg & Hd & Hsame).
  split; [exact Hreg|]. split; [exact Hd|]. split.
  { intros Hw. rewrite (Hsame Hw). reflexivity. }
  destruct Hg as (G1 & G2 & G3 & G4 & G5 & G6 & G7).
  cbn [imported os] in G1.
  rewrite <- G1 in *.
  apply get_results_directory_present with (specs := specs); auto.
  unfold is_dir. apply G7. exact Hcwd.
Qed.

(** ** The aeromap list *)

(** C7. [get_aeromap_list_from_xpath]: when the document library returns
    the list stored at the xpath, that list is returned and the document is
    left as it is; when the library reports the field missing (a
    [ValueError]) and [empty_if_not_found] is set, the empty list is
    returned and the document is left as it is; when the field is missing
    and the flag is not set, all the aeromap identifiers of the document are
    returned and the document is the one in which the branch has been
    created and that list stored at the xpath. *)
Theorem get_aeromap_list_from_xpath_cases (cpacs : CPACS tixi_handle)
    (xpath : string) (empty_if_not_found : bool) :
  (forall stored,
     get_string_vector (tixi cpacs) xpath = Ok stored ->
     get_aeromap_list_from_xpath cpacs xpath empty_if_not_found
       = (Ok stored, cpacs))
  /\
  (forall msg,
     get_string_vector (tixi cpacs) xpath = Raise (ValueError msg) ->
     (empty_if_not_found = true ->
      get_aeromap_list_from_xpath cpacs xpath empty_if_not_found
        = (Ok [], cpacs)) /\
     (empty_if_not_found = false ->
      forall branched written,
        create_branch (tixi cpacs) xpath = Ok branched ->
        add_string_vector branched xpath (get_aeromap_uid_list cpacs)
          = Ok written ->
        get_aeromap_list_from_xpath cpacs xpath empty_if_not_found
          = (Ok (get_aeromap_uid_list cpacs),
             {| tixi := written;
                get_aeromap_uid_list := get_aeromap_uid_list cpacs |}))).
Proof.
  unfold get_aeromap_list_from_xpath. split.
  - intros stored ->. reflexivity.
  - intros msg ->. split.
    + intros ->. reflexivity.
    + intros -> branched written -> ->. reflexivity.
Qed.

(** ** Part classification *)

(** C8, as the code has it. [get_part_type] returns the category of the
    first pattern of the ordered list that occurs in the address of the
    part: "wing" as soon as the address contains "wings/wing", "rotor" for
    an address that contains "vehicles/rotorcraft/model/rotors/rotor" and
    none of the seven patterns before it, [None] when no pattern occurs.
    Nothing but the log is touched, and the log only when [print] is set:
    then one INFO line for a recognized part, one WARNING line for an
    unrecognized one. *)
Theorem get_part_type_classifies (tixi : tixi_handle) (part_uid : string)
    (print : bool) (w : world) (part_xpath : string) :
  uIDGetXPath tixi (split_head "_mirrored" part_uid) = Ok part_xpath ->
  let category := classify_by_patterns part_xpath in
  let run := get_part_type tixi part_uid print w in
  fst run = Ok category /\
  (str_contains "wings/wing" part_xpath = true -> category = Some "wing") /\
  (str_contains "vehicles/rotorcraft/model/rotors/rotor" part_xpath = true ->
   (forall pattern c, (pattern, c) ∈ part_patterns -> c <> "rotor" ->
                      str_contains pattern part_xpath = false) ->
   category = Some "rotor") /\
  ((forall pattern c, (pattern, c) ∈ part_patterns ->
                      str_contains pattern part_xpath = false) ->
   category = None) /\
  (print = false -> snd run = w) /\
  (print = true -> category = None ->
   snd run = with_line (WARNING, "'" +:+ split_head "_mirrored" part_uid
                                 +:+ "' cannot be categorized!") w) /\
  (print = true -> category <> None ->
   exists msg, snd run = with_line (INFO, msg) w).
Proof.
  intros Hx category run. subst run category.
  unfold get_part_type, classify_by_patterns. rewrite Hx.
  cbn [List.find part_patterns fst].
  split; [|split; [|split; [|split; [|split; [|split]]]]].
  - repeat match goal with
           | |- context [str_contains ?p part_xpath] =>
               destruct (str_contains p part_xpath)
           end; destruct print; reflexivity.
  - intros ->. reflexivity.
  - intros Hrotor Hnone.
    rewrite (Hnone "wings/wing" "wing"),
            (Hnone "fuselages/fuselage" "fuselage"),
            (Hnone "enginePylons/enginePylon" "pylon"),
            (Hnone "engine/nacelle/fanCowl" "fanCowl"),
            (Hnone "engine/nacelle/centerCowl" "centerCowl"),
            (Hnone "engine/nacelle/coreCowl" "coreCowl"),
            (Hnone "vehicles/engines/engine" "engine"), Hrotor;
      first [ reflexivity | discriminate
            | unfold part_patterns;
              repeat first [apply list_elem_of_here | apply list_elem_of_further] ].
  - intros Hnone.
    rewrite (Hnone "wings/wing" "wing"),
            (Hnone "fuselages/fuselage" "fuselage"),
            (Hnone "enginePylons/enginePylon" "pylon"),
            (Hnone "engine/nacelle/fanCowl" "fanCowl"),
            (Hnone "engine/nacelle/centerCowl" "centerCowl"),
            (Hnone "engine/nacelle/coreCowl" "coreCowl"),
            (Hnone "vehicles/engines/engine" "engine"),
            (Hnone "vehicles/rotorcraft/model/rotors/rotor" "rotor");
      first [ reflexivity
            | unfold part_patterns;
              repeat first [apply list_elem_of_here | apply list_elem_of_further] ].
  - intros ->.
    repeat match goal with
           | |- context [str_contains ?p part_xpath] =>
               destruct (str_contains p part_xpath)
           end; cbn; destruct w; reflexivity.
  - intros ->.
    repeat match goal with
           | |- context [str_contains ?p part_xpath] =>
               destruct (str_contains p part_xpath)
           end; try discriminate; intros _; reflexivity.
  - intros ->.
    repeat match goal with
           | |- context [str_contains ?p part_xpath] =>
               destruct (str_contains p part_xpath)
           end; intros Hc; try (exfalso; apply Hc; reflexivity);
      eexists; reflexivity.
Qed.

(** ** Mirrored parts *)

Lemma prefix_cons_inv (a b : ascii) (p s : string) :
  String.prefix (String a p) (String b s) = true ->
  a = b /\ String.prefix p s = true.
Proof.
  cbn [String.prefix]. destruct (ascii_dec a b) as [->|]; [auto|discriminate].
Qed.

Lemma append_cons (c : ascii) (s t : string) :
  String c s +:+ t = String c (s +:+ t).
Proof. reflexivity. Qed.

Lemma prefix_append (p s t : string) :
  String.prefix p s = true -> String.prefix p (s +:+ t) = true.
Proof.
  revert s. induction p as [|a p IH]; intros s;
    [intros _; destruct (s +:+ t); reflexivity|].
  destruct s as [|b s]; [discriminate|].
  intros H. apply prefix_cons_inv in H. destruct H as [-> H].
  change (String b s +:+ t) with (String b (s +:+ t)).
  cbn [String.prefix].
  destruct (ascii_dec b b) as [_|Hne]; [apply IH; exact H|congruence].
Qed.

(** "_mirrored" does not overlap itself: it starts, in a text that goes on
    with "_mirrored", only where it starts in the text itself. *)
Lemma prefix_mirrored_append (base rest : string) :
  String.prefix "_mirrored" (base +:+ "_mirrored" +:+ rest) = true ->
  base = "" \/ String.prefix "_mirrored" base = true.
Proof.
  intros H. destruct base as [|c base]; [left; reflexivity|right].
  repeat (rewrite append_cons in H;
          apply prefix_cons_inv in H; destruct H as [<- H];
          destruct base as [|c base]; [lazy in H; discriminate H|]).
  rewrite append_cons in H.
  apply prefix_cons_inv in H. destruct H as [<- _].
  cbn. destruct base; reflexivity.
Qed.

Lemma split_head_mirrored (base rest : string) :
  split_head "_mirrored" (base +:+ "_mirrored" +:+ rest)
  = split_head "_mirrored" base.
Proof.
  induction base as [|c base IH].
  { change ("" +:+ "_mirrored" +:+ rest) with (String "_" ("mirrored" +:+ rest)).
    cbn [split_head].
    assert (Hp : String.prefix "_mirrored" (String "_" ("mirrored" +:+ rest))
                 = true).
    { apply (prefix_append "_mirrored" "_mirrored" rest). reflexivity. }
    rewrite Hp. reflexivity. }
  change (String c base +:+ "_mirrored" +:+ rest)
    with (String c (base +:+ "_mirrored" +:+ rest)).
  cbn [split_head].
  destruct (String.prefix "_mirrored" (String c base)) eqn:Hp.
  - apply (prefix_append _ _ ("_mirrored" +:+ rest)) in Hp.
    change (String c base +:+ "_mirrored" +:+ rest)
      with (String c (base +:+ "_mirrored" +:+ rest)) in Hp.
    rewrite Hp. reflexivity.
  - destruct (String.prefix "_mirrored" (String c (base +:+ "_mirrored" +:+ rest)))
      eqn:Hq.
    + destruct (prefix_mirrored_append (String c base) rest Hq) as [Habs|Habs];
        [discriminate Habs|congruence].
    + rewrite IH. reflexivity.
Qed.

Lemma split_head_no_match (sep s : string) :
  str_contains sep s = false -> split_head sep s = s.
Proof.
  induction s as [|c s IH]; cbn [str_contains split_head].
  - destruct (String.prefix sep ""); [discriminate|reflexivity].
  - destruct (String.prefix sep (String c s)); [discriminate|].
    cbn [orb]. intros H. rewrite IH by exact H. reflexivity.
Qed.

(** The uid [get_part_type] asks the document about is the given one cut
    before its first "_mirrored": the address of that uid decides the
    result, the exception of that lookup is the exception of the call, and
    the logged line names that uid. *)
Lemma get_part_type_asks_cut_uid (tixi : tixi_handle) (part_uid : string)
    (print : bool) (w : world) :
  get_part_type tixi part_uid print w =
  part_type_of tixi (split_head "_mirrored" part_uid) print w.
Proof.
  unfold get_part_type, part_type_of, classify_by_patterns.
  destruct (uIDGetXPath tixi (split_head "_mirrored" part_uid))
    as [part_xpath|e]; [|reflexivity].
  cbn [List.find part_patterns fst].
  repeat match goal with
         | |- context [str_contains ?p part_xpath] =>
             destruct (str_contains p part_xpath)
         end;
    destruct print; try reflexivity; destruct w; reflexivity.
Qed.

(** C9. [get_part_type] cuts the uid before its first "_mirrored" and asks
    the document for the address of what is left: for a uid made of a base
    uid, "_mirrored" and any suffix, the document is asked about the base
    uid cut the same way (the base uid itself when it is free of
    "_mirrored"); the address found for it decides the category, a failure
    of that lookup is the failure of the call, and the logged line names
    it. The mirrored part is therefore treated, in result and in log,
    exactly as its base part. *)
Theorem get_part_type_mirrored (tixi : tixi_handle) (base suffix : string)
    (print : bool) (w : world) :
  let mirrored := base +:+ "_mirrored" +:+ suffix in
  get_part_type tixi mirrored print w
    = part_type_of tixi (split_head "_mirrored" base) print w /\
  (str_contains "_mirrored" base = false ->
   get_part_type tixi mirrored print w = part_type_of tixi base print w) /\
  get_part_type tixi mirrored print w = get_part_type tixi base print w /\
  split_head "_mirrored" mirrored = split_head "_mirrored" base /\
  (str_contains "_mirrored" base = false ->
   split_head "_mirrored" mirrored = base).
Proof.
  intros mirrored. subst mirrored.
  split; [|split; [|split; [|split]]].
  - rewrite get_part_type_asks_cut_uid, split_head_mirrored. reflexivity.
  - intros H.
    rewrite get_part_type_asks_cut_uid, split_head_mirrored,
      (split_head_no_match _ _ H).
    reflexivity.
  - unfold get_part_type. rewrite split_head_mirrored. reflexivity.
  - apply split_head_mirrored.
  - intros H. rewrite split_head_mirrored. apply split_head_no_match. exact H.
Qed.

(** ** Removing files by type *)

Lemma with_fs_same (w : world) : with_fs (fs (os w)) w = w.
Proof. destruct w as [[] ? ?]; reflexivity. Qed.

Lemma remove_step_eq (file_type_list : list string) (file : path) (w : world) :
  remove_step file_type_list file w =
  (Ok tt, if removable file_type_list (fs (os w)) file
          then with_fs (delete file (fs (os w))) w else w).
Proof.
  unfold remove_step, path_is_file, path_unlink, removable, mbind, Py_bind,
    get_os, mret, Py_ret, put_os.
  cbn [os].
  destruct (fs (os w) !! file) as [[|c]|] eqn:E; cbn [negb]; try reflexivity.
  destruct (in_list (name_suffix (path_name file)) file_type_list);
    [|reflexivity].
  cbn [os]. rewrite E. reflexivity.
Qed.

Lemma remove_loop (file_type_list : list string) (files : list path) :
  forall w : world,
  exists m',
    for_each files (remove_step file_type_list) w = (Ok tt, with_fs m' w) /\
    forall q, m' !! q =
              if bool_decide (q ∈ files) && removable file_type_list (fs (os w)) q
              then None else fs (os w) !! q.
Proof.
  induction files as [|file files IH]; intros w.
  - exists (fs (os w)). split.
    + cbn [for_each]. rewrite with_fs_same. reflexivity.
    + intros q. rewrite bool_decide_eq_false_2 by apply not_elem_of_nil.
      reflexivity.
  - change (for_each (file :: files) (remove_step file_type_list))
      with (remove_step file_type_list file;;
            for_each files (remove_step file_type_list)).
    unfold mbind, Py_bind. rewrite remove_step_eq.
    destruct (removable file_type_list (fs (os w)) file) eqn:Hrm.
    + destruct (IH (with_fs (delete file (fs (os w))) w)) as (m' & Hrun & Hm').
      exists m'. split; [exact Hrun|].
      intros q. rewrite Hm'. cbn [with_fs os set_fs fs].
      destruct (decide (q = file)) as [->|Hne].
      * rewrite (bool_decide_eq_true_2 (file ∈ file :: files))
          by apply list_elem_of_here.
        rewrite Hrm. cbn [andb].
        unfold removable. rewrite lookup_delete_eq.
        rewrite andb_false_r. reflexivity.
      * unfold removable.
        rewrite lookup_delete_ne by (intros Heq; apply Hne; symmetry; exact Heq).
        destruct (decide (q ∈ files)) as [Hin|Hnin].
        -- rewrite !bool_decide_eq_true_2;
             [reflexivity | apply list_elem_of_further; exact Hin | exact Hin].
        -- rewrite !bool_decide_eq_false_2; [reflexivity | | exact Hnin].
           intros Hc. apply elem_of_cons in Hc.
           destruct Hc as [Hc|Hc]; [exact (Hne Hc)|exact (Hnin Hc)].
    + destruct (IH w) as (m' & Hrun & Hm').
      exists m'. split; [exact Hrun|].
      intros q. rewrite Hm'.
      destruct (decide (q = file)) as [->|Hne].
      * rewrite Hrm, !andb_false_r. reflexivity.
      * destruct (decide (q ∈ files)) as [Hin|Hnin].
        -- rewrite !bool_decide_eq_true_2;
             [reflexivity | apply list_elem_of_further; exact Hin | exact Hin].
        -- rewrite !bool_decide_eq_false_2; [reflexivity | | exact Hnin].
           intros Hc. apply elem_of_cons in Hc.
           destruct Hc as [Hc|Hc]; [exact (Hne Hc)|exact (Hnin Hc)].
Qed.

Lemma elem_of_place (before : path -> path -> bool) (x q : path) (l : list path) :
  q ∈ place before x l <-> q = x \/ q ∈ l.
Proof.
  induction l as [|y rest IH]; cbn [place].
  - rewrite list_elem_of_singleton. split; [intros ->; left; reflexivity|].
    intros [->|H]; [reflexivity|]. inversion H.
  - destruct (before x y).
    + apply elem_of_cons.
    + rewrite elem_of_cons, IH, elem_of_cons. split.
      * intros [->|[->|H]]; [right; left; reflexivity|left; reflexivity|].
        right; right; exact H.
      * intros [->|[->|H]]; [right; left; reflexivity|left; reflexivity|].
        right; right; exact H.
Qed.

Lemma elem_of_arrange (before : path -> path -> bool) (q : path) (l : list path) :
  q ∈ arrange before l <-> q ∈ l.
Proof.
  induction l as [|x rest IH]; cbn [arrange foldr]; [reflexivity|].
  fold (arrange before rest). rewrite elem_of_place, elem_of_cons, IH.
  reflexivity.
Qed.

Lemma elem_of_children (d q : path) (m : gmap path node) :
  q ∈ children d m <-> path_parent q = Some d /\ is_Some (m !! q).
Proof.
  unfold children. split.
  - intros Hin. apply list_elem_of_filter in Hin. destruct Hin as [Hp Hin].
    apply list_elem_of_fmap in Hin. destruct Hin as ([q' n] & -> & Hin).
    apply elem_of_map_to_list in Hin. cbn in *. split; [exact Hp|eauto].
  - intros [Hp [n Hn]]. apply list_elem_of_filter. split; [exact Hp|].
    apply list_elem_of_fmap. exists (q, n). split; [reflexivity|].
    apply elem_of_map_to_list. exact Hn.
Qed.

Lemma elem_of_listing (s : os_state) (d q : path) :
  q ∈ listing s d <-> path_parent q = Some d /\ is_Some (fs s !! q).
Proof.
  unfold listing. rewrite elem_of_arrange. apply elem_of_children.
Qed.

(** C10. For an existing directory, [remove_file_type_in_dir] returns and
    leaves a file system from which exactly the regular files that sit
    directly in the directory and whose suffix is in the list are gone:
    every other entry (subdirectories, files with another suffix, anything
    outside the directory) is as before, and nothing else of the process is
    touched. For a path that does not exist it raises [FileNotFoundError]
    and changes nothing. *)
Theorem remove_file_type_in_dir_exact (directory : path)
    (file_type_list : list string) (w : world) :
  (is_dir directory w ->
   exists m',
     remove_file_type_in_dir directory file_type_list w = (Ok tt, with_fs m' w) /\
     forall q,
       m' !! q =
       match fs (os w) !! q with
       | Some (File c) =>
           if bool_decide (path_parent q = Some directory)
              && in_list (name_suffix (path_name q)) file_type_list
           then None else Some (File c)
       | other => other
       end)
  /\
  (fs (os w) !! directory = None ->
   remove_file_type_in_dir directory file_type_list w
     = (Raise (FileNotFoundError directory), w)).
Proof.
  split.
  - intros Hd. unfold is_dir in Hd.
    unfold remove_file_type_in_dir.
    unfold mbind at 1. unfold Py_bind at 1.
    unfold path_exists, mbind at 1. unfold Py_bind at 1. unfold get_os at 1.
    unfold mret at 1. unfold Py_ret at 1. rewrite Hd.
    rewrite bool_decide_eq_true_2 by (eexists; reflexivity). cbn [negb].
    unfold mbind at 1. unfold Py_bind at 1.
    unfold path_iterdir, mbind at 1. unfold Py_bind at 1. unfold get_os at 1.
    rewrite Hd. unfold mret at 1. unfold Py_ret at 1.
    destruct (remove_loop file_type_list (listing (os w) directory) w)
      as (m' & Hrun & Hm').
    exists m'. split; [exact Hrun|].
    intros q. rewrite Hm'. unfold removable.
    destruct (fs (os w) !! q) as [[|c]|] eqn:Eq;
      rewrite ?andb_false_r; try reflexivity.
    destruct (decide (path_parent q = Some directory)) as [Hp|Hp].
    + rewrite !bool_decide_eq_true_2; [reflexivity|exact Hp|].
      apply elem_of_listing. split; [exact Hp|exists (File c); exact Eq].
    + rewrite !bool_decide_eq_false_2; [reflexivity|exact Hp|].
      intros Hc. apply elem_of_listing in Hc. destruct Hc as [Hc _].
      exact (Hp Hc).
  - intros Hn. unfold remove_file_type_in_dir, path_exists, mbind, Py_bind,
      get_os, mret, Py_ret.
    rewrite Hn. rewrite bool_decide_eq_false_2; [reflexivity|].
    intros [x Hx]. discriminate Hx.
Qed.

(** * Further properties of the module *)

(** ** More on the working-directory scope *)

Lemma os_getcwd_gone (w : world) :
  ~ is_dir (cwd (os w)) w ->
  os_getcwd w = (Raise (FileNotFoundError (cwd (os w))), w).
Proof.
  unfold is_dir, os_getcwd, mbind, Py_bind, get_os. intros Hd.
  destruct (fs (os w) !! cwd (os w)) as [[|c]|] eqn:E;
    [exfalso; apply Hd; reflexivity | reflexivity | reflexivity].
Qed.

(** The scope in full when all goes well: shared by the statements below. *)
Lemma change_working_dir_run {A} (T : path) (block : Py A) (w : world) :
  is_dir (cwd (os w)) w ->
  is_dir T w ->
  is_dir (cwd (os w)) (snd (block (entered T w))) ->
  change_working_dir T block w =
    (fst (block (entered T w)),
     entered (cwd (os w)) (snd (block (entered T w)))).
Proof.
  intros HD HT HD'. unfold change_working_dir, try_finally.
  rewrite (os_getcwd_dir w HD), (os_chdir_dir T w HT).
  destruct (block (entered T w)) as [r w3]. cbn [fst snd] in *.
  rewrite (os_chdir_dir _ w3 HD'). reflexivity.
Qed.

(** X1. When the working directory of the process has been removed,
    [os.getcwd()] fails before [cwd] is bound: the [finally] clause then
    fails on the unbound name, so the statement raises [UnboundLocalError]
    (not the [FileNotFoundError] of [os.getcwd]), the block is not run and
    no directory change is attempted. *)
Theorem change_working_dir_cwd_removed {A} (T : path) (block : Py A) (w : world) :
  ~ is_dir (cwd (os w)) w ->
  change_working_dir T block w = (Raise (UnboundLocalError "cwd"), w).
Proof.
  intros Hgone. unfold change_working_dir, try_finally.
  rewrite (os_getcwd_gone w Hgone). reflexivity.
Qed.

(** X2. When the block leaves the starting directory D unusable (removed,
    or replaced by a file), the [os.chdir(D)] of the [finally] clause fails:
    its [OSError] is what the statement raises, whatever the block returned
    or raised, and the process stays in the directory the block left it
    in. *)
Theorem change_working_dir_restore_fails {A} (T : path) (block : Py A)
    (w : world) :
  let D := cwd (os w) in
  let after := snd (block (entered T w)) in
  is_dir D w ->
  is_dir T w ->
  ~ is_dir D after ->
  exists e,
    is_OSError e = true /\
    change_working_dir T block w = (Raise e, refused D after) /\
    cwd (os (refused D after)) = cwd (os after).
Proof.
  intros D after HD HT Hgone.
  destruct (os_chdir_not_dir D after Hgone) as (e & He & Hos).
  exists e. split; [exact Hos|]. split; [|reflexivity].
  unfold change_working_dir, try_finally.
  rewrite (os_getcwd_dir w HD), (os_chdir_dir T w HT).
  subst after. destruct (block (entered T w)) as [r w3]. cbn [fst snd] in *.
  fold D. rewrite He. reflexivity.
Qed.

(** X3. Scopes nest: inside [with change_working_dir(T1)] a second
    [with change_working_dir(T2)] runs its block in T2, then the process
    goes back to T1 and, leaving the outer scope, to the starting directory
    D, by one [os.chdir] each, in that order. *)
Theorem change_working_dir_nested {A} (T1 T2 : path) (block : Py A) (w : world) :
  let D := cwd (os w) in
  let inside := entered T2 (entered T1 w) in
  let after := snd (block inside) in
  is_dir D w ->
  is_dir T1 w ->
  is_dir T2 w ->
  is_dir T1 after ->
  is_dir D after ->
  cwd (os inside) = T2 /\
  change_working_dir T1 (change_working_dir T2 block) w =
    (fst (block inside), entered D (entered T1 after)) /\
  cwd (os (entered D (entered T1 after))) = D /\
  events (entered D (entered T1 after)) =
    events after ++ [EChdir T1 true; EChdir D true].
Proof.
  intros D inside after HD H1 H2 H1' HD'.
  assert (Hinner : change_working_dir T2 block (entered T1 w) =
                   (fst (block inside), entered T1 after)).
  { apply (change_working_dir_run T2 block (entered T1 w)).
    - exact H1.
    - exact H2.
    - exact H1'. }
  split; [reflexivity|]. split; [|split].
  - rewrite (change_working_dir_run T1 (change_working_dir T2 block) w HD H1);
      rewrite Hinner; [reflexivity|exact HD'].
  - reflexivity.
  - cbn [entered events]. rewrite <- app_assoc. reflexivity.
Qed.


(** ** More on the tool locator and the invoker *)

(** X4. [get_install_path] leaves the process as it is and logs one line.
    A tool on the search path is returned whatever the mode; a tool that is
    not is answered by [None] in the permissive mode and by
    [SoftwareNotInstalled], carrying the name of the tool, in the strict
    one. *)
Theorem get_install_path_modes (software_name : string) (raise_error : bool)
    (w : world) :
  let found := search_path (os w) !! software_name in
  let run := get_install_path software_name raise_error w in
  snd run = with_line (install_line software_name found) w /\
  (forall p, found = Some p -> fst run = Ok (Some p)) /\
  (found = None -> raise_error = false -> fst run = Ok None) /\
  (found = None -> raise_error = true ->
   fst run = Raise (SoftwareNotInstalled
                      (software_name +:+ " is not installed on your computer!"))).
Proof.
  intros found run. subst run found.
  unfold get_install_path, shutil_which, mbind, Py_bind, get_os, mret, Py_ret,
    log_info, log_warning, raise, with_line, install_line.
  cbn [os events logged].
  destruct (search_path (os w) !! software_name) as [p|]; cbn [fst snd].
  - repeat split; try discriminate. intros q [= <-]. reflexivity.
  - destruct raise_error; cbn [fst snd]; repeat split; try discriminate.
Qed.

(** [run_software] up to the point where the MPI prefix has been decided:
    only the log has grown. *)
Lemma run_software_prefix (software_name : string) (arguments : list string)
    (wkdir : path) (with_mpi : bool) (nb_cpu : Z) (w : world) :
  exists command_line lines,
    run_software software_name arguments wkdir with_mpi nb_cpu w =
    run_tail software_name arguments wkdir nb_cpu
      (search_path (os w) !! software_name) command_line
      {| os := os w; events := events w; logged := lines |}.
Proof.
  rewrite run_software_tail.
  unfold mbind at 1. unfold Py_bind at 1. unfold get_os at 1.
  unfold mbind at 1. unfold Py_bind at 1. unfold log_info at 1.
  unfold mbind at 1. unfold Py_bind at 1.
  rewrite get_install_path_permissive. cbn [os events logged].
  unfold mbind at 1. unfold Py_bind at 1.
  destruct with_mpi.
  - unfold mbind, Py_bind. rewrite get_install_path_permissive.
    cbn [os events logged].
    destruct (search_path (os w) !! "mpirun"); do 2 eexists; reflexivity.
  - do 2 eexists. reflexivity.
Qed.

(** The scope when the directory cannot be entered: shared by the
    statements below. *)
Lemma change_working_dir_refused {A} (T : path) (block : Py A) (w : world) :
  is_dir (cwd (os w)) w ->
  ~ is_dir T w ->
  exists e,
    is_OSError e = true /\
    change_working_dir T block w =
      (Raise e, {| os := os w;
                   events := events w ++ [EChdir T false; EChdir (cwd (os w)) true];
                   logged := logged w |}).
Proof.
  intros HD HT.
  destruct (os_chdir_not_dir T w HT) as (e & He & Hos).
  exists e. split; [exact Hos|].
  unfold change_working_dir, try_finally.
  rewrite (os_getcwd_dir w HD), He.
  assert (HD2 : is_dir (cwd (os w)) (refused T w)) by exact HD.
  rewrite (os_chdir_dir (cwd (os w)) _ HD2). unfold entered, refused; cbn.
  rewrite set_cwd_same, <- app_assoc. reflexivity.
Qed.

Lemma none_in_command_line (before : list arg) (arguments : list string) :
  existsb arg_is_none ((before ++ [ArgNone]) ++ List.map ArgStr arguments) = true.
Proof. rewrite !existsb_app. cbn. rewrite orb_true_r. reflexivity. Qed.

(** X5. When a tool given by its name (no directory part in it) is not on
    the search path, [run_software] still enters the working directory and
    creates (or truncates) the logfile, and only then fails:
    [subprocess.call] raises [TypeError] on the [None] that stands for the
    tool in the command line. No child process is started, and the process
    is back in the directory it came from. *)
Theorem run_software_tool_missing (software_name : string)
    (arguments : list string) (wkdir : path) (with_mpi : bool) (nb_cpu : Z)
    (w : world) :
  str_contains "/" software_name = false ->
  let D := cwd (os w) in
  let logfile := path_join_str wkdir ("logfile_" +:+ software_name +:+ ".log") in
  search_path (os w) !! software_name = None ->
  is_dir D w ->
  is_dir wkdir w ->
  fs (os w) !! logfile <> Some Dir ->
  exists msg lines,
    run_software software_name arguments wkdir with_mpi nb_cpu w =
    (Raise (TypeError msg),
     {| os := set_fs (<[logfile := File ""]> (fs (os w))) (os w);
        events := events w ++ [EChdir wkdir true; EChdir D true];
        logged := lines |}).
Proof.
  intros Hname. rewrite (logfile_in_wkdir wkdir software_name Hname).
  intros D logfile Htool HD HT Hlog.
  destruct (run_software_prefix software_name arguments wkdir with_mpi nb_cpu w)
    as (cmd0 & lines0 & ->).
  rewrite Htool. unfold run_tail.
  rewrite (logfile_in_wkdir wkdir software_name Hname).
  unfold mbind at 1. unfold Py_bind at 1. unfold get_os at 1. cbn [os].
  do 5 (unfold mbind at 1; unfold Py_bind at 1; unfold log_info at 1;
        cbn [os events logged]).
  unfold mbind at 1. unfold Py_bind at 1.
  unfold change_working_dir, try_finally.
  rewrite os_getcwd_dir by exact HD. cbn [os].
  rewrite os_chdir_dir by exact HT.
  fold logfile.
  assert (Hp : path_parent logfile = Some wkdir) by apply path_parent_snoc.
  assert (Hne : logfile <> D).
  { intros Heq. apply Hlog. rewrite Heq. exact HD. }
  unfold open_w, subprocess_call.
  match goal with
  | |- context [existsb arg_is_none ?cl] =>
      assert (Hnone : existsb arg_is_none cl = true);
      [ destruct (in_list software_name ["sumo"; "dwfsumo"]
                  && String.eqb (platform (os w)) "linux");
        [ rewrite existsb_app, none_in_command_line; apply orb_true_r
        | apply none_in_command_line ]
      | rewrite Hnone ]
  end.
  unfold mbind, Py_bind, get_os, put_os, mret, Py_ret, raise.
  cbn beta. rewrite Hp. unfold entered. cbn [os fs set_cwd events logged].
  unfold is_dir in HT. rewrite HT.
  destruct (fs (os w) !! logfile) as [[|c]|] eqn:E; [congruence| |];
    cbn [os events logged]; do 2 eexists.
  - match goal with
    | |- context [os_chdir ?p ?w0] => rewrite (os_chdir_dir p w0)
    end.
    + unfold entered. cbn [os events logged cwd fs search_path cpu_count
                           platform set_cwd set_fs].
      rewrite <- app_assoc. reflexivity.
    + unfold is_dir. cbn [os fs set_fs].
      rewrite lookup_insert_ne by exact Hne. exact HD.
  - match goal with
    | |- context [os_chdir ?p ?w0] => rewrite (os_chdir_dir p w0)
    end.
    + unfold entered. cbn [os events logged cwd fs search_path cpu_count
                           platform set_cwd set_fs].
      rewrite <- app_assoc. reflexivity.
    + unfold is_dir. cbn [os fs set_fs].
      rewrite lookup_insert_ne by exact Hne. exact HD.
Qed.

(** X6. When the working directory cannot be entered, [run_software] fails
    with the [OSError] of [os.chdir], whether the tool is installed or not:
    no logfile is created, no child process is started and the process
    state is as before. *)
Theorem run_software_wkdir_unreachable (software_name : string)
    (arguments : list string) (wkdir : path) (with_mpi : bool) (nb_cpu : Z)
    (w : world) :
  is_dir (cwd (os w)) w ->
  ~ is_dir wkdir w ->
  exists e lines,
    is_OSError e = true /\
    run_software software_name arguments wkdir with_mpi nb_cpu w =
    (Raise e,
     {| os := os w;
        events := events w ++ [EChdir wkdir false; EChdir (cwd (os w)) true];
        logged := lines |}).
Proof.
  intros HD HT.
  destruct (run_software_prefix software_name arguments wkdir with_mpi nb_cpu w)
    as (cmd0 & lines0 & ->).
  unfold run_tail.
  unfold mbind at 1. unfold Py_bind at 1. unfold get_os at 1. cbn [os].
  do 5 (unfold mbind at 1; unfold Py_bind at 1; unfold log_info at 1;
        cbn [os events logged]).
  unfold mbind at 1. unfold Py_bind at 1.
  match goal with
  | |- context [change_working_dir wkdir ?b ?w0] =>
      destruct (change_working_dir_refused wkdir b w0 HD HT) as (e & He & ->)
  end.
  exists e. eexists. split; [exact He|reflexivity].
Qed.



(** ** More on the step runner *)


(** *** The entry file *)

Lemma append_length (s t : string) :
  String.length (s +:+ t) = String.length s + String.length t.
Proof. induction s as [|c s IH]; [reflexivity|]. rewrite append_cons. cbn. lia. Qed.

Lemma rfind_append (c : ascii) (s t : string) (i : nat) :
  rfind c t = Some i -> rfind c (s +:+ t) = Some (String.length s + i).
Proof.
  intros Ht. induction s as [|a s IH]; [exact Ht|].
  rewrite append_cons. cbn [rfind String.length]. rewrite IH. reflexivity.
Qed.

Lemma substring_start (s t : string) :
  String.substring 0 (String.length s) (s +:+ t) = s.
Proof.
  induction s as [|c s IH]; [destruct t; reflexivity|].
  rewrite append_cons. cbn [String.length String.substring]. rewrite IH.
  reflexivity.
Qed.

(** The stem of "x.py" is "x". *)
Lemma name_stem_py (x : string) : x <> "" -> name_stem (x +:+ ".py") = x.
Proof.
  intros Hx. unfold name_stem.
  rewrite (rfind_append "." x ".py" 0) by reflexivity.
  rewrite Nat.add_0_r, append_length. cbn [String.length].
  assert (Hpos : (0 <? String.length x)%nat = true).
  { apply Nat.ltb_lt. destruct x; [congruence|cbn; lia]. }
  assert (Hlt : (String.length x <? String.length x + 3 - 1)%nat = true).
  { apply Nat.ltb_lt. lia. }
  rewrite Hpos, Hlt. cbn [andb]. apply substring_start.
Qed.

Lemma append_assoc (s t u : string) : (s +:+ t) +:+ u = s +:+ t +:+ u.
Proof.
  induction s as [|c s IH]; [reflexivity|].
  rewrite !append_cons, IH. reflexivity.
Qed.

Lemma append_empty_r (s : string) : s +:+ "" = s.
Proof. induction s as [|c s IH]; [reflexivity|]. rewrite append_cons, IH. reflexivity. Qed.

Lemma rev_app_rev (s acc : string) :
  String.rev_app s acc = String.rev s +:+ acc.
Proof.
  revert acc. induction s as [|c s IH]; intros acc; [reflexivity|].
  unfold String.rev. cbn [String.rev_app].
  rewrite (IH (String c acc)), (IH (String c "")), append_assoc. reflexivity.
Qed.

Lemma rev_append (s t : string) : String.rev (s +:+ t) = String.rev t +:+ String.rev s.
Proof.
  induction s as [|c s IH].
  - change ("" +:+ t) with t. change (String.rev "") with "".
    rewrite append_empty_r. reflexivity.
  - rewrite append_cons. unfold String.rev at 1 3. cbn [String.rev_app].
    rewrite !rev_app_rev, IH, append_assoc. reflexivity.
Qed.

Lemma endswith_append (s t : string) : endswith (s +:+ t) t = true.
Proof.
  unfold endswith. rewrite rev_append.
  apply prefix_append. clear s.
  induction (String.rev t) as [|c r IH]; [reflexivity|].
  cbn [String.prefix]. destruct (ascii_dec c c); [exact IH|congruence].
Qed.

Lemma startswith_dunder_py (x : string) :
  startswith (x +:+ ".py") "__" = startswith x "__".
Proof.
  unfold startswith.
  destruct x as [|c1 [|c2 x]]; try reflexivity.
  change (String c1 (String c2 x) +:+ ".py")
    with (String c1 (String c2 (x +:+ ".py"))).
  cbn [String.prefix].
  destruct (ascii_dec "_" c1); [|reflexivity].
  destruct (ascii_dec "_" c2); [|reflexivity].
  destruct x; destruct (_ +:+ ".py"); reflexivity.
Qed.

Lemma path_name_snoc (d : path) (x : string) : path_name (d ++ [x]) = x.
Proof. unfold path_name. apply last_last. Qed.

Lemma find_python_file_from (files : list path) :
  forall bound : option string,
    foldl (fun python_file file =>
             if is_entry_file file then Some (name_stem (path_name file))
             else python_file) bound files =
    match find_python_file files with
    | Some f => Some f
    | None => bound
    end.
Proof.
  unfold find_python_file.
  induction files as [|file files IH] using rev_ind; intros bound;
    [reflexivity|].
  rewrite !foldl_app. cbn [foldl]. fold (is_entry_file file).
  destruct (is_entry_file file); [reflexivity|]. apply IH.
Qed.

(** X8. The loop over the module directory keeps the last entry that
    qualifies (a name ending in ".py" and not starting with "__") and binds
    its stem: when "x.py" is the last such entry of the listing, with x
    non-empty, the module imported is "x". When no entry qualifies, nothing
    is bound. *)
Theorem find_python_file_last_wins (before after : list path) (d : path)
    (x : string) :
  x <> "" ->
  startswith x "__" = false ->
  (forall file, file ∈ after -> is_entry_file file = false) ->
  find_python_file (before ++ [d ++ [x +:+ ".py"]] ++ after) = Some x /\
  (find_python_file after = None).
Proof.
  intros Hx Hdunder Hafter.
  assert (Hnone : find_python_file after = None).
  { induction after as [|file after IH] using rev_ind; [reflexivity|].
    unfold find_python_file. rewrite foldl_app. cbn [foldl].
    fold (is_entry_file file).
    rewrite (Hafter file) by (apply elem_of_app; right; apply list_elem_of_here).
    apply IH. intros f Hf. apply Hafter. apply elem_of_app. left. exact Hf. }
  split; [|exact Hnone].
  unfold find_python_file. rewrite !foldl_app. cbn [foldl].
  fold (is_entry_file (d ++ [x +:+ ".py"])).
  assert (Hentry : is_entry_file (d ++ [x +:+ ".py"]) = true).
  { unfold is_entry_file. rewrite path_name_snoc, endswith_append,
      startswith_dunder_py, Hdunder. reflexivity. }
  rewrite Hentry, path_name_snoc, name_stem_py by exact Hx.
  rewrite find_python_file_from, Hnone. reflexivity.
Qed.


(** ** More on the results directory *)

Lemma path_mkdir_parents_unfold (rev_parts : list string) (exist_ok : bool)
    (w : world) :
  path_mkdir_parents rev_parts exist_ok w =
  match os_mkdir (reverse rev_parts) w with
  | (Raise (FileNotFoundError f), w1) =>
      match rev_parts with
      | [] => (Raise (FileNotFoundError f), w1)
      | _ :: rev_parent =>
          (path_mkdir_parents rev_parent true;;
           path_mkdir_here (reverse rev_parts) exist_ok) w1
      end
  | (Raise e, w1) =>
      if is_OSError e then
        match path_is_dir (reverse rev_parts) w1 with
        | (Ok is_d, w2) =>
            if negb exist_ok || negb is_d then (Raise e, w2) else (Ok tt, w2)
        | (Raise e', w2) => (Raise e', w2)
        end
      else (Raise e, w1)
  | (Ok u, w1) => (Ok u, w1)
  end.
Proof. destruct rev_parts; reflexivity. Qed.

Lemma os_mkdir_exists (p : path) (w : world) (n : node) :
  fs (os w) !! p = Some n -> os_mkdir p w = (Raise (FileExistsError p), w).
Proof.
  intros Hp. unfold os_mkdir, mbind, Py_bind, get_os. rewrite Hp. reflexivity.
Qed.

Lemma os_mkdir_creates (p parent : path) (w : world) :
  fs (os w) !! p = None ->
  path_parent p = Some parent ->
  is_dir parent w ->
  os_mkdir p w = (Ok tt, with_fs (<[p := Dir]> (fs (os w))) w).
Proof.
  intros Hp Hparent Hd. unfold os_mkdir, mbind, Py_bind, get_os.
  rewrite Hp, Hparent. unfold is_dir in Hd. rewrite Hd. reflexivity.
Qed.

Lemma os_mkdir_orphan (p parent : path) (w : world) :
  fs (os w) !! p = None ->
  path_parent p = Some parent ->
  fs (os w) !! parent = None ->
  os_mkdir p w = (Raise (FileNotFoundError p), w).
Proof.
  intros Hp Hparent Hd. unfold os_mkdir, mbind, Py_bind, get_os.
  rewrite Hp, Hparent, Hd. reflexivity.
Qed.

Lemma grown_with_fs (p : path) (w : world) :
  fs (os w) !! p = None -> grown w (with_fs (<[p := Dir]> (fs (os w))) w).
Proof.
  intros Hp. unfold grown, with_fs; cbn. repeat split.
  intros q n Hq. rewrite lookup_insert_ne; [exact Hq|].
  intros ->. rewrite Hp in Hq. discriminate Hq.
Qed.

Lemma tree_shaped_parent (m : gmap path node) (q parent : path) (n : node) :
  tree_shaped m = true ->
  m !! q = Some n ->
  path_parent q = Some parent ->
  m !! parent = Some Dir.
Proof.
  unfold tree_shaped. intros Ht Hq Hp.
  rewrite forallb_forall in Ht.
  assert (Hin : In q ((map_to_list m).*1)).
  { apply list_elem_of_In. apply list_elem_of_fmap. exists (q, n).
    split; [reflexivity|]. apply elem_of_map_to_list. exact Hq. }
  specialize (Ht q Hin). rewrite Hp in Ht.
  destruct (m !! parent) as [[|c]|]; [reflexivity|discriminate Ht..].
Qed.

(** In such a file system the directories above an entry are all there. *)
Lemma tree_shaped_above (base : path) (w : world) (s : list string) :
  tree_shaped (fs (os w)) = true ->
  forall (t : list string) (n : node),
    s <> [] ->
    fs (os w) !! (base ++ reverse (s ++ t)) = Some n ->
    is_dir (base ++ reverse t) w.
Proof.
  intros Ht. induction s as [|x s IH]; intros t n Hs Hn; [contradiction|].
  assert (Hparent : is_dir (base ++ reverse (s ++ t)) w).
  { apply (tree_shaped_parent _ (base ++ reverse ((x :: s) ++ t)) _ n Ht Hn).
    cbn [app]. rewrite reverse_cons, app_assoc. apply path_parent_snoc. }
  destruct s as [|y s]; [exact Hparent|].
  apply (IH t Dir); [discriminate|exact Hparent].
Qed.

Lemma grown_is_dir (p : path) (w w' : world) :
  grown w w' -> is_dir p w -> is_dir p w'.
Proof.
  intros (_ & _ & _ & _ & _ & _ & _ & Hfs) Hd. apply Hfs. exact Hd.
Qed.

(** [mkdir(parents=True)] below a directory: when no regular file stands
    on the way from [base] to the path, every missing directory of the way
    is made, nothing but directories of the way is new, and nothing longer
    than the path is touched. *)
Lemma path_mkdir_parents_below (base : path) (rev_new : list string) :
  forall (exist_ok : bool) (w : world),
    is_dir base w ->
    tree_shaped (fs (os w)) = true ->
    (forall s t c, rev_new = s ++ t ->
                   fs (os w) !! (base ++ reverse t) <> Some (File c)) ->
    exist_ok = true \/ fs (os w) !! (base ++ reverse rev_new) = None ->
    exists w',
      path_mkdir_parents (rev_new ++ reverse base) exist_ok w = (Ok tt, w') /\
      (forall s t, rev_new = s ++ t -> is_dir (base ++ reverse t) w') /\
      grown w w' /\
      (forall q, length (base ++ reverse rev_new) < length q ->
                 fs (os w') !! q = fs (os w) !! q) /\
      (forall q, fs (os w') !! q = fs (os w) !! q \/
                 exists s t, rev_new = s ++ t /\ q = base ++ reverse t).
Proof.
  induction rev_new as [|x r IH]; intros exist_ok w Hbase Htree Hfiles Hfresh.
  - rewrite path_mkdir_parents_unfold. cbn [app].
    rewrite reverse_involutive, reverse_nil, app_nil_r in *.
    rewrite (os_mkdir_exists base w Dir Hbase). cbn [is_OSError].
    rewrite path_is_dir_eq. unfold is_dir in Hbase. rewrite Hbase.
    destruct Hfresh as [->|Habs]; [|congruence].
    exists w. cbn [negb orb]. split; [reflexivity|]. split; [|split; [|split]].
    + intros s t Hst. symmetry in Hst. apply app_eq_nil in Hst.
      destruct Hst as [_ ->]. rewrite reverse_nil, app_nil_r. exact Hbase.
    + apply grown_refl.
    + intros q _. reflexivity.
    + intros q. left. reflexivity.
  - rewrite path_mkdir_parents_unfold.
    assert (Hself : reverse ((x :: r) ++ reverse base) = (base ++ reverse r) ++ [x]).
    { rewrite reverse_app, reverse_involutive, reverse_cons, app_assoc.
      reflexivity. }
    assert (Hname : base ++ reverse (x :: r) = (base ++ reverse r) ++ [x]).
    { rewrite reverse_cons, app_assoc. reflexivity. }
    rewrite Hself. rewrite Hname in Hfresh |- *.
    set (parent := base ++ reverse r) in *.
    set (self := parent ++ [x]) in *.
    assert (Hparent : path_parent self = Some parent) by apply path_parent_snoc.
    assert (Hlen : length self = S (length parent)).
    { subst self. rewrite length_app. cbn. lia. }
    (* the directories of the way, once the last one is there *)
    assert (Hway : forall w0 : world,
               is_dir self w0 ->
               (forall s t, r = s ++ t -> is_dir (base ++ reverse t) w0) ->
               forall s t, x :: r = s ++ t -> is_dir (base ++ reverse t) w0).
    { intros w0 Hd Hr s t Hst. destruct s as [|y s].
      - cbn [app] in Hst. subst t. rewrite Hname. exact Hd.
      - injection Hst as _ Hst. apply (Hr s t Hst). }
    (* the directories above the parent, when the parent is there *)
    assert (Habove : is_dir parent w ->
               forall s t, r = s ++ t -> is_dir (base ++ reverse t) w).
    { intros Hd s t Hst. destruct s as [|y s].
      - cbn [app] in Hst. subst t. exact Hd.
      - apply (tree_shaped_above base w (y :: s) Htree t Dir); [discriminate|].
        rewrite <- Hst. exact Hd. }
    (* what is new when the last directory is made *)
    assert (Hnew : forall (w0 : world) (q : path),
               (fs (os w0) !! q = fs (os w) !! q \/
                exists s t, r = s ++ t /\ q = base ++ reverse t) ->
               <[self := Dir]> (fs (os w0)) !! q = fs (os w) !! q \/
               exists s t, x :: r = s ++ t /\ q = base ++ reverse t).
    { intros w0 q Hq. destruct (decide (q = self)) as [->|Hne].
      - right. exists [], (x :: r). split; [reflexivity|]. symmetry. exact Hname.
      - rewrite lookup_insert_ne by (intros Heq; apply Hne; symmetry; exact Heq).
        destruct Hq as [Hq|(s & t & Hst & Hq)]; [left; exact Hq|].
        right. exists (x :: s), t. split; [rewrite Hst; reflexivity|exact Hq]. }
    destruct (fs (os w) !! self) as [[|c]|] eqn:Eself.
    + (* the directory is there *)
      rewrite (os_mkdir_exists self w Dir Eself). cbn [is_OSError].
      rewrite path_is_dir_eq, Eself.
      destruct Hfresh as [->|Habs]; [|congruence].
      exists w. cbn [negb orb]. split; [reflexivity|]. split; [|split; [|split]].
      * apply (Hway w Eself). apply Habove.
        apply (tree_shaped_parent _ self _ Dir Htree Eself Hparent).
      * apply grown_refl.
      * intros q _. reflexivity.
      * intros q. left. reflexivity.
    + exfalso. apply (Hfiles [] (x :: r) c eq_refl).
      rewrite Hname. exact Eself.
    + destruct (fs (os w) !! parent) as [[|c]|] eqn:Eparent.
      * rewrite (os_mkdir_creates self parent w Eself Hparent Eparent).
        exists (with_fs (<[self := Dir]> (fs (os w))) w).
        split; [reflexivity|]. split; [|split; [|split]].
        -- apply Hway.
           ++ unfold is_dir, with_fs; cbn. apply lookup_insert_eq.
           ++ intros s t Hst.
              apply (grown_is_dir _ w); [apply grown_with_fs; exact Eself|].
              apply (Habove Eparent s t Hst).
        -- apply grown_with_fs. exact Eself.
        -- intros q Hq. unfold with_fs; cbn. apply lookup_insert_ne.
           intros Heq. rewrite <- Heq in Hq. lia.
        -- intros q. unfold with_fs; cbn. apply (Hnew w q). left. reflexivity.
      * exfalso. apply (Hfiles [x] r c eq_refl). exact Eparent.
      * rewrite (os_mkdir_orphan self parent w Eself Hparent Eparent).
        cbn [app].
        destruct (IH true w Hbase Htree) as (w2 & Hrun & Hd2 & Hg2 & Hframe2 & Hnew2).
        { intros s t c Hst. apply (Hfiles (x :: s) t c). rewrite Hst.
          reflexivity. }
        { left. reflexivity. }
        unfold mbind, Py_bind. rewrite Hrun.
        fold parent in Hframe2.
        assert (Hp2 : is_dir parent w2) by apply (Hd2 [] r eq_refl).
        assert (Eself2 : fs (os w2) !! self = None).
        { rewrite Hframe2 by lia. exact Eself. }
        unfold path_mkdir_here.
        rewrite (os_mkdir_creates self parent w2 Eself2 Hparent Hp2).
        exists (with_fs (<[self := Dir]> (fs (os w2))) w2).
        split; [reflexivity|]. split; [|split; [|split]].
        -- apply Hway.
           ++ unfold is_dir, with_fs; cbn. apply lookup_insert_eq.
           ++ intros s t Hst.
              apply (grown_is_dir _ w2); [apply grown_with_fs; exact Eself2|].
              apply (Hd2 s t Hst).
        -- apply (grown_trans _ _ _ Hg2). apply grown_with_fs. exact Eself2.
        -- intros q Hq. unfold with_fs; cbn.
           rewrite lookup_insert_ne by (intros Heq; rewrite <- Heq in Hq; lia).
           apply Hframe2. lia.
        -- intros q. unfold with_fs; cbn. apply (Hnew w2 q). apply Hnew2.
Qed.

(** X9. [get_results_directory] succeeds for a registered module whose
    specification gives a relative [RESULTS_DIR], from a working directory
    that exists in a file system where every entry sits in a directory, as
    soon as no regular file stands on the way from the working directory
    to the results directory: it returns the working directory joined with
    [RESULTS_DIR]; after the call every directory of the way, down to the
    results directory, is there; nothing that was there has been changed,
    and nothing but directories of the way is new. *)
Theorem get_results_directory_creates (module_name : string) (w : world)
    (specs : py_module) (parts : list string) :
  let dotted := "ceasiompy." +:+ module_name +:+ ".__specs__" in
  let results_dir := cwd (os w) ++ parts in
  in_list module_name module_list = true ->
  packages dotted = Ok specs ->
  RESULTS_DIR specs = Some (RelPath parts) ->
  is_dir (cwd (os w)) w ->
  tree_shaped (fs (os w)) = true ->
  (forall before rest c, parts = before ++ rest ->
                         fs (os w) !! (cwd (os w) ++ before) <> Some (File c)) ->
  exists w',
    get_results_directory module_name w = (Ok results_dir, w') /\
    is_dir results_dir w' /\
    (forall before rest, parts = before ++ rest ->
                         is_dir (cwd (os w) ++ before) w') /\
    grown (imported dotted w) w' /\
    (forall q, fs (os w') !! q = fs (os w) !! q \/
               exists before rest, parts = before ++ rest /\
                                   q = cwd (os w) ++ before).
Proof.
  intros dotted results_dir Hreg Hpkg Hrd Hcwd Htree Hfiles.
  destruct (fs (os w) !! results_dir) as [[|c]|] eqn:Eres.
  - exists (imported dotted w).
    split; [|split; [exact Eres|split; [|split; [apply grown_refl|]]]].
    + apply (get_results_directory_present module_name w specs (RelPath parts));
        assumption.
    + intros before rest Hparts.
      destruct rest as [|y rest].
      * rewrite app_nil_r in Hparts. subst before. exact Eres.
      * pose proof (tree_shaped_above (cwd (os w)) w (reverse (y :: rest)) Htree
                      (reverse before) Dir) as Habove.
        rewrite <- reverse_app, <- Hparts, !reverse_involutive in Habove.
        apply Habove; [|exact Eres].
        rewrite reverse_cons. intros Hnil. apply app_eq_nil in Hnil.
        destruct Hnil as [_ Hnil]. discriminate Hnil.
    + intros q. left. reflexivity.
  - exfalso. apply (Hfiles parts [] c); [symmetry; apply app_nil_r|exact Eres].
  - destruct (path_mkdir_parents_below (cwd (os w)) (reverse parts) false
                (imported dotted w)) as (w' & Hrun & Hd & Hg & _ & Hnew).
    + exact Hcwd.
    + exact Htree.
    + intros s t c Hst. apply (Hfiles (reverse t) (reverse s)).
      rewrite <- reverse_app, <- Hst, reverse_involutive. reflexivity.
    + right. rewrite reverse_involutive. exact Eres.
    + exists w'. split; [|split; [|split; [|split; [exact Hg|]]]].
      * unfold get_results_directory. rewrite Hreg. cbn [negb].
        unfold import_module. fold dotted. rewrite Hpkg.
        unfold mbind, Py_bind, emit, mret, Py_ret. fold (imported dotted w).
        rewrite (os_getcwd_dir (imported dotted w)) by exact Hcwd.
        rewrite Hrd, path_is_dir_eq. cbn [os imported path_join].
        fold results_dir. rewrite Eres. cbn [negb].
        unfold path_mkdir. subst results_dir. rewrite reverse_app.
        fold (imported dotted w). rewrite Hrun. reflexivity.
      * pose proof (Hd [] (reverse parts) eq_refl) as Hres.
        rewrite reverse_involutive in Hres. exact Hres.
      * intros before rest Hparts.
        pose proof (Hd (reverse rest) (reverse before)) as Hway.
        rewrite reverse_involutive in Hway. apply Hway.
        rewrite Hparts. apply reverse_app.
      * intros q. destruct (Hnew q) as [Hq|(s & t & Hst & Hq)]; [left; exact Hq|].
        right. exists (reverse t), (reverse s). split; [|exact Hq].
        rewrite <- reverse_app, <- Hst, reverse_involutive. reflexivity.
Qed.

(** X10. [get_results_directory] refuses without touching the file system:
    an unregistered module name raises [ValueError] before anything is
    imported, and a regular file standing where the results directory
    should be makes [mkdir] raise [FileExistsError]. *)
Theorem get_results_directory_refuses (module_name : string) (w : world) :
  let dotted := "ceasiompy." +:+ module_name +:+ ".__specs__" in
  (in_list module_name module_list = false ->
   get_results_directory module_name w =
     (Raise (ValueError ("Module '" +:+ module_name +:+ "' did not exit!")), w))
  /\
  (forall specs results_subdir c,
     in_list module_name module_list = true ->
     packages dotted = Ok specs ->
     RESULTS_DIR specs = Some results_subdir ->
     is_dir (cwd (os w)) w ->
     fs (os w) !! path_join (cwd (os w)) results_subdir = Some (File c) ->
     get_results_directory module_name w =
       (Raise (FileExistsError (path_join (cwd (os w)) results_subdir)),
        imported dotted w)).
Proof.
  intros dotted. split.
  - intros Hreg. unfold get_results_directory. rewrite Hreg. reflexivity.
  - intros specs results_subdir c Hreg Hpkg Hrd Hcwd Hfile.
    unfold get_results_directory. rewrite Hreg. cbn [negb].
    unfold import_module. fold dotted. rewrite Hpkg.
    unfold mbind, Py_bind, emit, mret, Py_ret. fold (imported dotted w).
    rewrite (os_getcwd_dir (imported dotted w)) by exact Hcwd.
    rewrite Hrd, path_is_dir_eq. cbn [os imported].
    rewrite Hfile. cbn [negb].
    unfold path_mkdir. rewrite path_mkdir_parents_unfold, reverse_involutive.
    fold (imported dotted w).
    rewrite (os_mkdir_exists _ (imported dotted w) (File c)) by exact Hfile.
    cbn [is_OSError]. rewrite path_is_dir_eq. cbn [os imported].
    rewrite Hfile. reflexivity.
Qed.

Lemma os_mkdir_grown (p : path) (w w' : world) (r : result unit) :
  os_mkdir p w = (r, w') -> grown w w'.
Proof.
  intros H. pose proof (os_mkdir_inv p w w' r H) as Hinv.
  destruct r; [apply Hinv|]. destruct Hinv as [-> _]. apply grown_refl.
Qed.

Lemma path_mkdir_here_grown (p : path) (exist_ok : bool) (w w' : world)
    (r : result unit) :
  path_mkdir_here p exist_ok w = (r, w') -> grown w w'.
Proof.
  unfold path_mkdir_here.
  destruct (os_mkdir p w) as [r1 w1] eqn:Em.
  pose proof (os_mkdir_grown p w w1 r1 Em) as Hg.
  destruct r1 as [[]|e]; [intros [= <- <-]; exact Hg|].
  destruct e; try (intros [= <- <-]; exact Hg);
    cbn [is_OSError]; rewrite path_is_dir_eq;
    destruct (negb exist_ok || negb _); intros [= <- <-]; exact Hg.
Qed.

Lemma path_mkdir_parents_grown (rev_parts : list string) :
  forall (exist_ok : bool) (w w' : world) (r : result unit),
    path_mkdir_parents rev_parts exist_ok w = (r, w') -> grown w w'.
Proof.
  induction rev_parts as [|x rev_parent IH]; intros exist_ok w w' r;
    rewrite path_mkdir_parents_unfold;
    destruct (os_mkdir _ w) as [r1 w1] eqn:Em;
    pose proof (os_mkdir_grown _ w w1 r1 Em) as Hg;
    (destruct r1 as [[]|e]; [intros [= <- <-]; exact Hg|]).
  - destruct e; try (intros [= <- <-]; exact Hg);
      cbn [is_OSError]; rewrite path_is_dir_eq;
      destruct (negb exist_ok || negb _); intros [= <- <-]; exact Hg.
  - destruct e; try (intros [= <- <-]; exact Hg);
      try (cbn [is_OSError]; rewrite path_is_dir_eq;
           destruct (negb exist_ok || negb _); intros [= <- <-]; exact Hg).
    unfold mbind, Py_bind.
    destruct (path_mkdir_parents rev_parent true w1) as [[[]|e1] w2] eqn:Ep.
    + intros Hh. apply path_mkdir_here_grown in Hh.
      exact (grown_trans _ _ _ Hg (grown_trans _ _ _ (IH _ _ _ _ Ep) Hh)).
    + intros [= <- <-]. exact (grown_trans _ _ _ Hg (IH _ _ _ _ Ep)).
Qed.

(** X11. Whatever its outcome, [get_results_directory] leaves the working
    directory, the search path and the log as they are, and every entry of
    the file system that was there before the call is there after it,
    unchanged: the call only ever adds entries. *)
Theorem get_results_directory_preserves (module_name : string) (w : world) :
  let w' := snd (get_results_directory module_name w) in
  cwd (os w') = cwd (os w) /\
  search_path (os w') = search_path (os w) /\
  logged w' = logged w /\
  forall q n, fs (os w) !! q = Some n -> fs (os w') !! q = Some n.
Proof.
  intros w'.
  assert (Hg : grown w w' \/
               grown (imported ("ceasiompy." +:+ module_name +:+ ".__specs__") w) w').
  { subst w'. unfold get_results_directory.
    destruct (in_list module_name module_list); cbn [negb];
      [|left; apply grown_refl].
    right. unfold import_module.
    set (dotted := "ceasiompy." +:+ module_name +:+ ".__specs__").
    unfold mbind, Py_bind, emit. fold (imported dotted w).
    destruct (packages dotted) as [specs|]; [|apply grown_refl].
    unfold mret at 1. unfold Py_ret at 1.
    unfold os_getcwd, mbind, Py_bind, get_os.
    destruct (fs (os (imported dotted w)) !! cwd (os (imported dotted w)))
      as [[|c]|]; try apply grown_refl.
    unfold mret at 1. unfold Py_ret at 1.
    destruct (RESULTS_DIR specs) as [results_subdir|]; [|apply grown_refl].
    rewrite path_is_dir_eq.
    destruct (match fs (os (imported dotted w)) !! _ with
              | Some Dir => true | _ => false end); cbn [negb].
    - apply grown_refl.
    - unfold path_mkdir.
      destruct (path_mkdir_parents _ false (imported dotted w)) as [r w2] eqn:Emk.
      apply path_mkdir_parents_grown in Emk.
      destruct r as [[]|e]; exact Emk. }
  destruct Hg as [(G1 & G2 & G3 & G4 & G5 & G6 & G7 & G8)
                 |(G1 & G2 & G3 & G4 & G5 & G6 & G7 & G8)];
    repeat split; assumption.
Qed.


(** ** More on the CPU budget *)

Lemma get_reasonable_nb_cpu_known (w : world) (n : Z) :
  cpu_count (os w) = Some n ->
  (0 <= n < 2 ^ 53)%Z ->
  get_reasonable_nb_cpu w = (Ok (math_ceil (Qmake n 4)), w).
Proof.
  intros Hc Hn. unfold get_reasonable_nb_cpu, mbind, Py_bind, get_os.
  rewrite Hc, int_truediv_pow2_small by exact Hn. reflexivity.
Qed.

(** X12. The recommended number of CPUs is at least one and never more than
    the host has, and a host with more CPUs is never recommended fewer. *)
Theorem get_reasonable_nb_cpu_bounds (w1 w2 : world) (n m : Z) :
  cpu_count (os w1) = Some n ->
  cpu_count (os w2) = Some m ->
  (1 <= n <= m)%Z ->
  (m < 2 ^ 53)%Z ->
  exists k1 k2,
    get_reasonable_nb_cpu w1 = (Ok k1, w1) /\
    get_reasonable_nb_cpu w2 = (Ok k2, w2) /\
    (1 <= k1 <= n)%Z /\
    (k1 <= k2 <= m)%Z.
Proof.
  intros H1 H2 Hnm Hm.
  exists (math_ceil (Qmake n 4)), (math_ceil (Qmake m 4)).
  rewrite (get_reasonable_nb_cpu_known w1 n H1) by lia.
  rewrite (get_reasonable_nb_cpu_known w2 m H2) by lia.
  pose proof (math_ceil_quarter n) as Hk1. pose proof (math_ceil_quarter m) as Hk2.
  cbv zeta in Hk1, Hk2. repeat split; lia.
Qed.

(** ** More on mirrored parts *)

Lemma prefix_empty (s : string) : String.prefix "" s = true.
Proof. destruct s; reflexivity. Qed.

Lemma prefix_trans (p : string) :
  forall a b, String.prefix p a = true -> String.prefix a b = true ->
              String.prefix p b = true.
Proof.
  induction p as [|c p IH]; intros a b Hpa Hab; [apply prefix_empty|].
  destruct a as [|c1 a]; [discriminate Hpa|].
  destruct b as [|c2 b]; [discriminate Hab|].
  apply prefix_cons_inv in Hpa. destruct Hpa as [-> Hpa].
  apply prefix_cons_inv in Hab. destruct Hab as [-> Hab].
  cbn [String.prefix]. destruct (ascii_dec c2 c2); [|congruence].
  exact (IH a b Hpa Hab).
Qed.

Lemma split_head_is_prefix (sep s : string) :
  String.prefix (split_head sep s) s = true.
Proof.
  induction s as [|c s IH]; cbn [split_head].
  - destruct (String.prefix sep ""); reflexivity.
  - destruct (String.prefix sep (String c s)); [reflexivity|].
    cbn [String.prefix]. destruct (ascii_dec c c); [exact IH|congruence].
Qed.

(** The text kept before the separator does not start with it anywhere the
    whole text does not. *)
Lemma split_head_keeps_no_start (sep : string) (c : ascii) (s : string) :
  String.prefix sep (String c s) = false ->
  String.prefix sep (String c (split_head sep s)) = false.
Proof.
  intros Hno.
  destruct (String.prefix sep (String c (split_head sep s))) eqn:Hp;
    [|reflexivity].
  rewrite <- Hno. symmetry.
  apply (prefix_trans sep (String c (split_head sep s)) (String c s) Hp).
  cbn [String.prefix]. destruct (ascii_dec c c); [|congruence].
  apply split_head_is_prefix.
Qed.

Lemma split_head_idempotent (sep s : string) :
  split_head sep (split_head sep s) = split_head sep s.
Proof.
  induction s as [|c s IH]; cbn [split_head].
  - destruct (String.prefix sep "") eqn:E; cbn [split_head]; rewrite E;
      reflexivity.
  - destruct (String.prefix sep (String c s)) eqn:E.
    + cbn [split_head]. destruct (String.prefix sep ""); reflexivity.
    + cbn [split_head]. rewrite (split_head_keeps_no_start sep c s E), IH.
      reflexivity.
Qed.

Lemma split_head_free (sep s : string) :
  sep <> "" -> str_contains sep (split_head sep s) = false.
Proof.
  intros Hsep.
  assert (Hempty : String.prefix sep "" = false).
  { destruct sep; [congruence|reflexivity]. }
  induction s as [|c s IH]; cbn [split_head].
  - rewrite Hempty. cbn [str_contains]. rewrite Hempty. reflexivity.
  - destruct (String.prefix sep (String c s)) eqn:E.
    + cbn [str_contains]. rewrite Hempty. reflexivity.
    + cbn [str_contains]. rewrite (split_head_keeps_no_start sep c s E), IH.
      reflexivity.
Qed.

(** X13. For every uid, the document is asked for the address of the uid
    cut before its first "_mirrored", and for nothing else: the call comes
    to what that lookup gives (its address classified, or its exception).
    The uid asked about never contains "_mirrored", and cutting a uid
    beforehand changes nothing: the call on the cut uid has the result and
    the log of the call on the uid. *)
Theorem get_part_type_resolves_cut_uid (tixi : tixi_handle) (part_uid : string)
    (print : bool) (w : world) :
  let asked := split_head "_mirrored" part_uid in
  get_part_type tixi part_uid print w = part_type_of tixi asked print w /\
  str_contains "_mirrored" asked = false /\
  get_part_type tixi asked print w = get_part_type tixi part_uid print w.
Proof.
  intros asked. subst asked. split; [|split].
  - apply get_part_type_asks_cut_uid.
  - apply split_head_free. discriminate.
  - unfold get_part_type. rewrite split_head_idempotent. reflexivity.
Qed.


(** ** More on removing files by type *)

(** What the file system holds at [q] once the files of the listed types
    have been removed from [directory]. *)
Lemma remove_file_type_in_dir_run (directory : path)
    (file_type_list : list string) (w : world) :
  is_dir directory w ->
  exists m',
    remove_file_type_in_dir directory file_type_list w = (Ok tt, with_fs m' w) /\
    forall q, m' !! q = swept directory file_type_list (fs (os w)) q.
Proof.
  intros Hd. unfold is_dir in Hd.
  unfold remove_file_type_in_dir.
  unfold mbind at 1. unfold Py_bind at 1.
  unfold path_exists, mbind at 1. unfold Py_bind at 1. unfold get_os at 1.
  unfold mret at 1. unfold Py_ret at 1. rewrite Hd.
  rewrite bool_decide_eq_true_2 by (eexists; reflexivity). cbn [negb].
  unfold mbind at 1. unfold Py_bind at 1.
  unfold path_iterdir, mbind at 1. unfold Py_bind at 1. unfold get_os at 1.
  rewrite Hd. unfold mret at 1. unfold Py_ret at 1.
  destruct (remove_loop file_type_list (listing (os w) directory) w)
    as (m' & Hrun & Hm').
  exists m'. split; [exact Hrun|].
  intros q. rewrite Hm'. unfold removable, swept.
  destruct (fs (os w) !! q) as [[|c]|] eqn:Eq;
    rewrite ?andb_false_r; try reflexivity.
  destruct (decide (path_parent q = Some directory)) as [Hp|Hp].
  - rewrite !bool_decide_eq_true_2; [reflexivity|exact Hp|].
    apply elem_of_listing. split; [exact Hp|exists (File c); exact Eq].
  - rewrite !bool_decide_eq_false_2; [reflexivity|exact Hp|].
    intros Hc. apply elem_of_listing in Hc. destruct Hc as [Hc _].
    exact (Hp Hc).
Qed.

Lemma in_list_app (x : string) (l1 l2 : list string) :
  in_list x (l1 ++ l2) = in_list x l1 || in_list x l2.
Proof. unfold in_list. apply existsb_app. Qed.

(** X14. Removing by type composes: removing the types of a first list and
    then those of a second from the same directory leaves what removing
    the types of both lists at once leaves; in particular a second removal
    of the same types changes nothing, and so does a removal with an empty
    list. *)
Theorem remove_file_type_in_dir_composes (directory : path)
    (types1 types2 : list string) (w : world) :
  is_dir directory w ->
  let once := remove_file_type_in_dir directory types1 w in
  remove_file_type_in_dir directory types2 (snd once)
    = remove_file_type_in_dir directory (types1 ++ types2) w /\
  remove_file_type_in_dir directory types1 (snd once) = (Ok tt, snd once) /\
  remove_file_type_in_dir directory [] w = (Ok tt, w).
Proof.
  intros Hd once.
  destruct (remove_file_type_in_dir_run directory types1 w Hd)
    as (m1 & Hrun1 & Hm1).
  assert (Hd1 : is_dir directory (with_fs m1 w)).
  { unfold is_dir, with_fs; cbn. rewrite Hm1. unfold swept.
    unfold is_dir in Hd. rewrite Hd. reflexivity. }
  subst once. rewrite Hrun1. cbn [snd].
  split; [|split].
  - destruct (remove_file_type_in_dir_run directory types2 (with_fs m1 w) Hd1)
      as (m2 & Hrun2 & Hm2).
    destruct (remove_file_type_in_dir_run directory (types1 ++ types2) w Hd)
      as (m3 & Hrun3 & Hm3).
    rewrite Hrun2, Hrun3. f_equal.
    assert (Heq : m2 = m3).
    { apply map_eq. intros q. rewrite Hm2, Hm3. cbn [with_fs os fs set_fs].
      unfold swept. rewrite Hm1. unfold swept.
      rewrite in_list_app.
      destruct (fs (os w) !! q) as [[|c]|]; try reflexivity.
      destruct (bool_decide (path_parent q = Some directory));
        destruct (in_list (name_suffix (path_name q)) types1);
        destruct (in_list (name_suffix (path_name q)) types2); reflexivity. }
    rewrite Heq. reflexivity.
  - destruct (remove_file_type_in_dir_run directory types1 (with_fs m1 w) Hd1)
      as (m2 & Hrun2 & Hm2).
    rewrite Hrun2. f_equal.
    assert (Heq : m2 = m1).
    { apply map_eq. intros q. rewrite Hm2. cbn [with_fs os fs set_fs].
      unfold swept. rewrite Hm1. unfold swept.
      destruct (fs (os w) !! q) as [[|c]|]; try reflexivity.
      destruct (bool_decide (path_parent q = Some directory));
        destruct (in_list (name_suffix (path_name q)) types1) eqn:E;
        cbn [andb]; rewrite ?E; reflexivity. }
    rewrite Heq. reflexivity.
  - destruct (remove_file_type_in_dir_run directory [] w Hd)
      as (m0 & Hrun0 & Hm0).
    rewrite Hrun0. f_equal.
    assert (Heq : m0 = fs (os w)).
    { apply map_eq. intros q. rewrite Hm0. unfold swept.
      destruct (fs (os w) !! q) as [[|c]|]; try reflexivity.
      cbn. rewrite andb_false_r. reflexivity. }
    rewrite Heq. apply with_fs_same.
Qed.

(** X15. [remove_file_type_in_dir] only ever removes: whatever its outcome,
    every entry the file system holds after the call was there before it,
    unchanged, and the working directory, the events and the log are as
    before. A path that is a regular file passes the existence test and
    makes the listing raise [NotADirectoryError], nothing being changed. *)
Theorem remove_file_type_in_dir_only_removes (directory : path)
    (file_type_list : list string) (w : world) :
  let run := remove_file_type_in_dir directory file_type_list w in
  (forall q n, fs (os (snd run)) !! q = Some n -> fs (os w) !! q = Some n) /\
  cwd (os (snd run)) = cwd (os w) /\
  events (snd run) = events w /\
  logged (snd run) = logged w /\
  (forall c, fs (os w) !! directory = Some (File c) ->
             run = (Raise (NotADirectoryError directory), w)).
Proof.
  intros run.
  destruct (fs (os w) !! directory) as [[|c]|] eqn:Ed.
  - destruct (remove_file_type_in_dir_run directory file_type_list w Ed)
      as (m' & Hrun & Hm').
    subst run. rewrite Hrun. cbn [snd with_fs os fs set_fs cwd events logged].
    repeat split; try discriminate.
    intros q n. rewrite Hm'. unfold swept.
    destruct (fs (os w) !! q) as [[|c]|]; try (intros H; exact H).
    destruct (_ && _); [discriminate|intros H; exact H].
  - assert (Hrun : run = (Raise (NotADirectoryError directory), w)).
    { subst run. unfold remove_file_type_in_dir, path_exists, path_iterdir,
        mbind, Py_bind, get_os, mret, Py_ret.
      rewrite Ed. rewrite bool_decide_eq_true_2 by (eexists; reflexivity).
      cbn [negb]. cbv beta. rewrite Ed. reflexivity. }
    rewrite Hrun. cbn [snd]. repeat split; auto.
  - assert (Hrun : run = (Raise (FileNotFoundError directory), w)).
    { subst run. unfold remove_file_type_in_dir, path_exists, mbind, Py_bind,
        get_os, mret, Py_ret.
      rewrite Ed. rewrite bool_decide_eq_false_2; [reflexivity|].
      intros [x Hx]. discriminate Hx. }
    rewrite Hrun. cbn [snd]. repeat split; auto. discriminate.
Qed.

(** *** The shape of a suffix *)

Lemma rfind_split (c : ascii) (s : string) (i : nat) :
  rfind c s = Some i ->
  exists before rest,
    s = before +:+ String c rest /\ String.length before = i.
Proof.
  revert i. induction s as [|a s IH]; intros i; cbn [rfind]; [discriminate|].
  destruct (rfind c s) as [j|] eqn:Ej.
  - intros [= <-]. destruct (IH j eq_refl) as (before & rest & -> & Hlen).
    exists (String a before), rest. split; [reflexivity|]. cbn. lia.
  - destruct (Ascii.eqb a c) eqn:Eac; [|discriminate].
    intros [= <-]. apply Ascii.eqb_eq in Eac. subst a.
    exists "", s. split; reflexivity.
Qed.

Lemma substring_end (before rest : string) :
  String.substring (String.length before) (String.length rest) (before +:+ rest)
  = rest.
Proof.
  induction before as [|a before IH].
  - change ("" +:+ rest) with rest. cbn [String.length].
    induction rest as [|b rest IHr]; [reflexivity|].
    cbn [String.length String.substring]. rewrite IHr. reflexivity.
  - rewrite append_cons. cbn [String.length String.substring]. exact IH.
Qed.

(** A suffix is empty or a dot followed by at least one character. *)
Lemma name_suffix_shape (n : string) :
  name_suffix n = "" \/
  exists c rest, name_suffix n = String "." (String c rest).
Proof.
  unfold name_suffix.
  destruct (rfind "." n) as [i|] eqn:Ei; [|left; reflexivity].
  destruct ((0 <? i)%nat && (i <? String.length n - 1)%nat) eqn:Eb;
    [|left; reflexivity].
  right. apply andb_true_iff in Eb. destruct Eb as [_ Hlt].
  apply Nat.ltb_lt in Hlt.
  destruct (rfind_split "." n i Ei) as (before & rest & -> & Hlen).
  rewrite append_length in *. cbn [String.length] in *.
  replace (String.length before + S (String.length rest) - i)
    with (String.length (String "." rest)) by (cbn; lia).
  rewrite <- Hlen, substring_end.
  destruct rest as [|c rest]; [cbn in Hlt; lia|].
  exists c, rest. reflexivity.
Qed.

(** X16. The types are compared with suffixes as [pathlib] gives them, dot
    included: a list whose entries are non-empty and do not start with a
    dot (["log"] for [".log"]) matches no file, and the call removes
    nothing. *)
Theorem remove_file_type_in_dir_needs_dot (directory : path)
    (file_type_list : list string) (w : world) :
  is_dir directory w ->
  (forall t, t ∈ file_type_list -> t <> "" /\ startswith t "." = false) ->
  remove_file_type_in_dir directory file_type_list w = (Ok tt, w).
Proof.
  intros Hd Htypes.
  assert (Hno : forall n, in_list (name_suffix n) file_type_list = false).
  { intros n. unfold in_list.
    destruct (existsb (String.eqb (name_suffix n)) file_type_list) eqn:E;
      [|reflexivity].
    apply existsb_exists in E. destruct E as (t & Hin & Heq).
    apply String.eqb_eq in Heq. apply list_elem_of_In in Hin.
    destruct (Htypes t Hin) as [Hne Hdot].
    destruct (name_suffix_shape n) as [Hs|(c & rest & Hs)];
      rewrite Hs in Heq; subst t; [congruence|discriminate Hdot]. }
  destruct (remove_file_type_in_dir_run directory file_type_list w Hd)
    as (m' & Hrun & Hm').
  rewrite Hrun. f_equal.
  assert (Heq : m' = fs (os w)).
  { apply map_eq. intros q. rewrite Hm'. unfold swept.
    destruct (fs (os w) !! q) as [[|c]|]; try reflexivity.
    rewrite Hno, andb_false_r. reflexivity. }
  rewrite Heq. apply with_fs_same.
Qed.


(** ** The aircraft name *)

Lemma str_replace_char_length (old new : ascii) (s : string) :
  String.length (str_replace_char old new s) = String.length s.
Proof. induction s as [|c s IH]; [reflexivity|]. cbn. rewrite IH. reflexivity. Qed.

Lemma str_replace_char_free (old new : ascii) (s : string) :
  new <> old ->
  str_contains (String old "") (str_replace_char old new s) = false.
Proof.
  intros Hne. induction s as [|c s IH]; [reflexivity|].
  cbn [str_replace_char str_contains String.prefix]. rewrite IH, orb_false_r.
  destruct (Ascii.eqb c old) eqn:E.
  - destruct (ascii_dec old new); [congruence|reflexivity].
  - apply Ascii.eqb_neq in E. destruct (ascii_dec old c); [congruence|reflexivity].
Qed.

Lemma str_replace_char_absent (old new : ascii) (s : string) :
  str_contains (String old "") s = false -> str_replace_char old new s = s.
Proof.
  induction s as [|c s IH]; [reflexivity|].
  cbn [str_replace_char str_contains String.prefix].
  destruct (ascii_dec old c) as [->|Hne].
  - rewrite prefix_empty. discriminate.
  - cbn [orb]. intros H. rewrite (IH H).
    destruct (Ascii.eqb c old) eqn:E; [|reflexivity].
    apply Ascii.eqb_eq in E. congruence.
Qed.

(** X17. A name [aircraft_name] returns is the stored name (or "Aircraft",
    the default handed to the library) with each space replaced by an
    underscore: it has the length of the stored name, holds no space, and
    is the stored name itself when that holds none. The call logs the name
    on one INFO line and does nothing else to the process. *)
Theorem aircraft_name_no_space (tixi_or_cpacs : tixi_or_cpacs_arg tixi_handle)
    (w w' : world) (name : string) (left : tixi_handle) :
  aircraft_name tixi_or_cpacs w = (Ok (name, left), w') ->
  exists tixi stored,
    get_value_or_default tixi AIRCRAFT_NAME_XPATH (VStr "Aircraft")
      = Ok (VStr stored, left) /\
    name = str_replace_char " " "_" stored /\
    String.length name = String.length stored /\
    str_contains " " name = false /\
    (str_contains " " stored = false -> name = stored) /\
    w' = with_line (INFO, "The name of the aircraft is : " +:+ name) w.
Proof.
  unfold aircraft_name. unfold mbind at 1. unfold Py_bind at 1.
  set (opened := match tixi_or_cpacs with
                 | GivenPath _ => _ | GivenTixi t => mret t end).
  assert (Hopen : forall r w1, opened w = (r, w1) -> w1 = w).
  { subst opened. destruct tixi_or_cpacs as [cpacs_path|handle].
    - unfold mbind, Py_bind, get_os.
      destruct (open_tixi cpacs_path (os w)); intros r w1 [= _ <-]; reflexivity.
    - intros r w1 [= _ <-]. reflexivity. }
  destruct (opened w) as [[tixi|e] w1] eqn:Eo; [|discriminate].
  rewrite (Hopen _ _ eq_refl).
  destruct (get_value_or_default tixi AIRCRAFT_NAME_XPATH (VStr "Aircraft"))
    as [[[stored| | | |] t']|e] eqn:Eg; try discriminate.
  unfold mbind, Py_bind, log_info, mret, Py_ret. intros [= <- <- <-].
  exists tixi, stored. split; [exact Eg|]. split; [reflexivity|].
  split; [apply str_replace_char_length|].
  split; [apply str_replace_char_free; discriminate|].
  split; [apply str_replace_char_absent|reflexivity].
Qed.

(** ** The settings page *)

Lemma update_value_widgets (st : session_state tixi_handle) (xpath key : string) :
  widgets (snd (update_value st xpath key)) = widgets st.
Proof.
  unfold update_value.
  destruct (widgets st !! key) as [[s|n|x|b|[|v l]]|]; try reflexivity;
    match goal with
    | |- context [match ?r with Ok _ => _ | Raise _ => _ end] => destruct r
    end; reflexivity.
Qed.

(** X18. [update_all_modified_value] skips the entries whose key is not in
    the session state: it does what it would do on the entries whose key is
    there, in the same order, and when no key is there it leaves the
    document as it is. The widgets are never changed. *)
Theorem update_all_modified_value_skips (xpath_to_update : list (string * string))
    (st : session_state tixi_handle) :
  let present (entry : string * string) :=
    bool_decide (is_Some (widgets st !! snd entry)) in
  update_all_modified_value xpath_to_update st
    = update_all_modified_value (List.filter present xpath_to_update) st /\
  widgets (snd (update_all_modified_value xpath_to_update st)) = widgets st /\
  (List.filter present xpath_to_update = [] ->
   update_all_modified_value xpath_to_update st = (Ok tt, st)).
Proof.
  cbv zeta.
  assert (Hmain : forall st0 : session_state tixi_handle,
            widgets st0 = widgets st ->
            update_all_modified_value xpath_to_update st0
              = update_all_modified_value
                  (List.filter (fun entry : string * string =>
                                  bool_decide (is_Some (widgets st !! snd entry)))
                               xpath_to_update) st0 /\
            widgets (snd (update_all_modified_value xpath_to_update st0))
              = widgets st).
  { induction xpath_to_update as [|[xpath key] rest IH]; intros st0 Hw;
      [split; [reflexivity|exact Hw]|].
    cbn [update_all_modified_value List.filter snd].
    destruct (widgets st !! key) as [value|] eqn:Ek.
    - rewrite bool_decide_eq_true_2 by (eexists; reflexivity).
      cbn [update_all_modified_value].
      pose proof (update_value_widgets st0 xpath key) as Hkeep.
      destruct (update_value st0 xpath key) as [[[]|e] st1]; cbn [snd] in *.
      + apply IH. congruence.
      + split; [reflexivity|congruence].
    - rewrite bool_decide_eq_false_2 by (intros [v Hv]; discriminate Hv).
      unfold update_value. rewrite Hw, Ek. apply IH. exact Hw. }
  destruct (Hmain st eq_refl) as [H1 H2].
  split; [exact H1|]. split; [exact H2|].
  intros Hnone. rewrite H1, Hnone. reflexivity.
Qed.

(** ** More on the aeromap list *)

(** X19. The fallback is kept: with a document library that reads back, at
    the xpath, the list of aeromaps written there, a call that returned a
    list without [empty_if_not_found] is followed by calls that return the
    same list and leave the document as it is, whatever their flag. *)
Theorem get_aeromap_list_from_xpath_kept (cpacs cpacs' : CPACS tixi_handle)
    (xpath : string) (listed : list string) :
  (forall t t',
     add_string_vector t xpath (get_aeromap_uid_list cpacs) = Ok t' ->
     get_string_vector t' xpath = Ok (get_aeromap_uid_list cpacs)) ->
  get_aeromap_list_from_xpath cpacs xpath false = (Ok listed, cpacs') ->
  forall empty_if_not_found,
    get_aeromap_list_from_xpath cpacs' xpath empty_if_not_found
      = (Ok listed, cpacs').
Proof.
  intros Hback. unfold get_aeromap_list_from_xpath at 1.
  destruct (get_string_vector (tixi cpacs) xpath) as [stored|e] eqn:Eg.
  - intros [= <- <-] flag. unfold get_aeromap_list_from_xpath. rewrite Eg.
    reflexivity.
  - destruct e; try discriminate. cbn [negb].
    destruct (create_branch (tixi cpacs) xpath) as [t1|e1]; [|discriminate].
    destruct (add_string_vector t1 xpath (get_aeromap_uid_list cpacs))
      as [t2|e2] eqn:Ea; [|discriminate].
    intros [= <- <-] flag. unfold get_aeromap_list_from_xpath. cbn [tixi].
    rewrite (Hback t1 t2 Ea). reflexivity.
Qed.

End Ceasiompyutils.

(** ** The statements on the concrete host *)

(** A block that fails inside the run directory: the failure comes out and
    the process is back home. *)
Lemma change_working_dir_restores_example :
  let block : Py unit := raise (OtherException "solver failed") in
  let run := change_working_dir ["home"; "run"] block (demo demo_tools) in
  fst run = Raise (OtherException "solver failed") /\
  cwd (os (snd run)) = ["home"] /\
  events (snd run) = [EChdir ["home"; "run"] true; EChdir ["home"] true].
Proof.
  intros block run.
  destruct (change_working_dir_restores ["home"; "run"] block (demo demo_tools))
    as (H1 & H2 & H3 & H4); [vm_compute; reflexivity ..|].
  subst run. rewrite H2. repeat split.
Defined.

(** Entering a directory that does not exist: the error of [os.chdir] comes
    out, after an [os.chdir] back home. *)
Lemma change_working_dir_enter_fails_example :
  change_working_dir ["home"; "missing"] (mret tt) (demo demo_tools) =
  (Raise (FileNotFoundError ["home"; "missing"]),
   {| os := demo_os demo_tools;
      events := [EChdir ["home"; "missing"] false; EChdir ["home"] true];
      logged := [] |}).
Proof.
  destruct (change_working_dir_enter_fails ["home"; "missing"] (mret tt)
              (demo demo_tools)) as (e & He & Hos & Hrun).
  - vm_compute. reflexivity.
  - intros H. vm_compute in H. discriminate H.
  - rewrite Hrun. vm_compute in He. injection He as <-. reflexivity.
Defined.

(** C2, where the specification departs from the code: it has the failed
    entry propagate "without attempting restoration", but the trace of the
    call ends with an [os.chdir] to the saved directory. *)
Lemma change_working_dir_chdir_back_after_failed_entry :
  let w := demo demo_tools in
  let run := change_working_dir ["home"; "missing"] (mret tt) w in
  fst (os_chdir ["home"; "missing"] w) = Raise (FileNotFoundError ["home"; "missing"]) /\
  fst run = Raise (FileNotFoundError ["home"; "missing"]) /\
  events (snd run) = [EChdir ["home"; "missing"] false; EChdir ["home"] true] /\
  events (snd run) <> [EChdir ["home"; "missing"] false].
Proof.
  vm_compute. repeat split. discriminate.
Qed.

(** Eight CPUs: two are recommended. *)
Lemma get_reasonable_nb_cpu_example :
  get_reasonable_nb_cpu (demo demo_tools) = (Ok 2%Z, demo demo_tools).
Proof.
  destruct (get_reasonable_nb_cpu_spec (demo demo_tools)) as (k & Hrun & Hk).
  - intros n H. vm_compute in H. injection H as <-. split; [lia|reflexivity].
  - rewrite Hrun. cbn in Hk. destruct Hk as (_ & _ & H8).
    rewrite (H8 eq_refl). reflexivity.
Defined.

(** The rounding of the model is the one of binary64: beyond 2^53 the
    quotient by 4 is no longer exact. *)
Example int_truediv_pow2_rounds :
  int_truediv_pow2 (2 ^ 53 + 1) 2 = Ok (Qmake (2 ^ 53) 4).
Proof. reflexivity. Qed.

(** The Optimisation step at iteration 2 and at iteration 0. *)
Lemma run_module_optimisation_skip_example :
  let w := demo demo_tools in
  let dotted := "ceasiompy.Optimisation.optimisation" in
  let skipped := run_module demo_packages demo_optimisation ["home"; "run"] 2 w in
  let ran := run_module demo_packages demo_optimisation ["home"; "run"] 0 w in
  (fst skipped = Ok tt /\ os (snd skipped) = os w /\ events (snd skipped) = []) /\
  (fst ran = Ok tt /\
   events (snd ran) =
     [EImport dotted; EChdir ["home"; "run"] true;
      ECall dotted ["home"; "cpacs_in.xml"] ["home"; "cpacs_out.xml"];
      EChdir ["home"] true] /\
   fs (os (snd ran)) !! ["home"; "cpacs_out.xml"] = Some (File "<cpacs/>")).
Proof.
  intros w dotted skipped ran. split.
  - pose proof (proj1 (run_module_optimisation_skip demo_packages
                         demo_optimisation ["home"; "run"] 2 w)
                      eq_refl ltac:(lia)) as H.
    subst skipped. rewrite H. repeat split.
  - pose proof (proj2 (run_module_optimisation_skip demo_packages
                         demo_optimisation ["home"; "run"] 0 w)
                      "optimisation"
                      {| RESULTS_DIR := None; main := Some demo_main |}
                      demo_main) as H.
    cbv zeta in H.
    assert (Hrun : ran = ran) by reflexivity. unfold ran at 1 in Hrun.
    rewrite H in Hrun;
      [ | right; lia | vm_compute; reflexivity | vm_compute; reflexivity
        | vm_compute; reflexivity | reflexivity | vm_compute; reflexivity
        | vm_compute; reflexivity | vm_compute; reflexivity ].
    rewrite <- Hrun. vm_compute. repeat split.
Defined.

(** [run_software("echo", ["hello"], wkdir, with_mpi=True, nb_cpu=4)] on a
    host with and on a host without "mpirun". *)
Lemma run_software_mpi_prefix_example :
  let logfile := ["home"; "run"; "logfile_echo.log"] in
  let wrapped :=
    run_software demo_child "echo" ["hello"] ["home"; "run"] true 4
      (demo demo_mpi_tools) in
  let degraded :=
    run_software demo_child "echo" ["hello"] ["home"; "run"] true 4
      (demo demo_tools) in
  (fst wrapped = Ok tt /\
   events (snd wrapped) =
     [EChdir ["home"; "run"] true;
      ESpawn ["/bin/mpirun"; "-np"; "4"; "/bin/echo"; "hello"] logfile;
      EChdir ["home"] true]) /\
  (fst degraded = Ok tt /\
   events (snd degraded) =
     [EChdir ["home"; "run"] true;
      ESpawn ["/bin/echo"; "hello"] logfile;
      EChdir ["home"] true]).
Proof.
  intros logfile wrapped degraded. split.
  - destruct (proj1 (run_software_mpi_prefix demo_child "echo" ["hello"]
                       ["home"; "run"] 4 (demo demo_mpi_tools) eq_refl)
                    ["bin"; "mpirun"] ["bin"; "echo"])
      as (Hr & Ho & He);
      [ vm_compute; reflexivity | vm_compute; reflexivity
      | vm_compute; reflexivity | vm_compute; reflexivity
      | intros H; vm_compute in H; discriminate H
      | vm_compute; reflexivity | ].
    subst wrapped. rewrite Hr, He. vm_compute. split; reflexivity.
  - destruct (proj2 (run_software_mpi_prefix demo_child "echo" ["hello"]
                       ["home"; "run"] 4 (demo demo_tools) eq_refl))
      as (_ & Hrun); [vm_compute; reflexivity|].
    destruct (Hrun ["bin"; "echo"]) as (Hr & Ho & He);
      [ vm_compute; reflexivity | vm_compute; reflexivity
      | vm_compute; reflexivity
      | intros H; vm_compute in H; discriminate H
      | vm_compute; reflexivity | ].
    subst degraded. rewrite Hr, He. vm_compute. split; reflexivity.
Defined.

(** Two calls for the Optimisation module: the first creates
    [Results/Optimisation] under the working directory, the second finds
    it. *)
Lemma get_results_directory_idempotent_example :
  let first :=
    get_results_directory demo_module_list demo_packages "Optimisation"
      (demo demo_tools) in
  let second :=
    get_results_directory demo_module_list demo_packages "Optimisation"
      (snd first) in
  fst first = Ok ["home"; "Results"; "Optimisation"] /\
  fst second = Ok ["home"; "Results"; "Optimisation"] /\
  os (snd second) = os (snd first).
Proof.
  intros first second.
  assert (Hfirst : get_results_directory demo_module_list demo_packages
                     "Optimisation" (demo demo_tools)
                   = (Ok ["home"; "Results"; "Optimisation"], snd first))
    by (vm_compute; reflexivity).
  destruct (get_results_directory_idempotent demo_module_list demo_packages
              "Optimisation" (demo demo_tools) (snd first)
              ["home"; "Results"; "Optimisation"] Hfirst)
    as (_ & _ & _ & Hsecond).
  subst second. rewrite Hsecond. subst first. rewrite Hfirst.
  repeat split.
Defined.

(** The three cases of the aeromap list on the demo document. *)
Lemma get_aeromap_list_from_xpath_cases_example :
  get_aeromap_list_from_xpath demo_doc demo_get_string_vector demo_create_branch
    demo_add_string_vector demo_cpacs "/cpacs/toolspecific/plot" false
    = (Ok ["aeromap_1"], demo_cpacs) /\
  get_aeromap_list_from_xpath demo_doc demo_get_string_vector demo_create_branch
    demo_add_string_vector demo_cpacs "/cpacs/toolspecific/skin" true
    = (Ok [], demo_cpacs) /\
  (let '(listed, cpacs') :=
     get_aeromap_list_from_xpath demo_doc demo_get_string_vector demo_create_branch
       demo_add_string_vector demo_cpacs "/cpacs/toolspecific/skin" false in
   listed = Ok ["aeromap_1"; "aeromap_2"] /\
   demo_get_string_vector (tixi cpacs') "/cpacs/toolspecific/skin"
     = Ok ["aeromap_1"; "aeromap_2"]).
Proof.
  split; [|split].
  - apply (proj1 (get_aeromap_list_from_xpath_cases demo_doc demo_get_string_vector
                    demo_create_branch demo_add_string_vector demo_cpacs
                    "/cpacs/toolspecific/plot" false)).
    vm_compute. reflexivity.
  - apply (proj2 (get_aeromap_list_from_xpath_cases demo_doc demo_get_string_vector
                    demo_create_branch demo_add_string_vector demo_cpacs
                    "/cpacs/toolspecific/skin" true)
                 "/cpacs/toolspecific/skin XPath does not exist!");
      [vm_compute; reflexivity | reflexivity].
  - rewrite (proj2 (proj2 (get_aeromap_list_from_xpath_cases demo_doc
                             demo_get_string_vector demo_create_branch
                             demo_add_string_vector demo_cpacs
                             "/cpacs/toolspecific/skin" false)
                          "/cpacs/toolspecific/skin XPath does not exist!"
                          ltac:(vm_compute; reflexivity))
                   eq_refl demo_document
                   {| vectors := <["/cpacs/toolspecific/skin" :=
                                     ["aeromap_1"; "aeromap_2"]]>
                                   (vectors demo_document);
                      uids := uids demo_document |}
                   eq_refl eq_refl).
    split; [reflexivity | vm_compute; reflexivity].
Defined.

(** A mirrored wing, with logging. *)
Lemma get_part_type_classifies_example :
  get_part_type demo_doc demo_uIDGetXPath demo_document "Wing1_mirrored" true
    (demo demo_tools)
  = (Ok (Some "wing"),
     with_line (INFO, "'Wing1' is a wing") (demo demo_tools)).
Proof.
  destruct (get_part_type_classifies demo_doc demo_uIDGetXPath demo_document
              "Wing1_mirrored" true (demo demo_tools)
              "/cpacs/vehicles/aircraft/model/wings/wing[1]")
    as (Hr & Hw & _); [vm_compute; reflexivity|].
  rewrite (Hw ltac:(vm_compute; reflexivity)) in Hr.
  destruct (get_part_type demo_doc demo_uIDGetXPath demo_document "Wing1_mirrored" true
              (demo demo_tools)) as [r w'] eqn:E.
  cbn [fst] in Hr. subst r. f_equal.
  vm_compute in E. injection E as <-. reflexivity.
Defined.

(** C8, where the specification departs from the code: it has a warning
    emitted for every unrecognized part, but with [print=False] the landing
    gear is unrecognized and nothing is logged. *)
Lemma get_part_type_silent_when_print_is_off :
  let w := demo demo_tools in
  demo_uIDGetXPath demo_document "Gear1"
    = Ok "/cpacs/vehicles/aircraft/model/landingGear/noseGears/noseGear[1]" /\
  classify_by_patterns
    "/cpacs/vehicles/aircraft/model/landingGear/noseGears/noseGear[1]" = None /\
  get_part_type demo_doc demo_uIDGetXPath demo_document "Gear1" false w = (Ok None, w) /\
  logged (snd (get_part_type demo_doc demo_uIDGetXPath demo_document "Gear1" false w)) = [].
Proof.
  vm_compute. repeat split.
Qed.

(** The mirrored wing is resolved under the uid of the wing, which the
    logged line names. *)
Lemma get_part_type_mirrored_example :
  let mirrored :=
    get_part_type demo_doc demo_uIDGetXPath demo_document "Wing1_mirrored_2" true
      (demo demo_tools) in
  mirrored = (Ok (Some "wing"),
              with_line (INFO, "'Wing1' is a wing") (demo demo_tools)) /\
  mirrored = get_part_type demo_doc demo_uIDGetXPath demo_document "Wing1" true
               (demo demo_tools) /\
  split_head "_mirrored" "Wing1_mirrored_2" = "Wing1".
Proof.
  intros mirrored.
  destruct (get_part_type_mirrored demo_doc demo_uIDGetXPath demo_document
              "Wing1" "_2" true (demo demo_tools))
    as (_ & Hasked & Hbase & _ & Hcut).
  split; [|split].
  - subst mirrored. refine (eq_trans (Hasked _) _); vm_compute; reflexivity.
  - exact Hbase.
  - apply Hcut. vm_compute. reflexivity.
Defined.

(** Cleaning the run directory of its logs: the log file goes, the
    directory named like one stays, and so do the other files. *)
Lemma remove_file_type_in_dir_exact_example :
  let w := demo demo_tools in
  (exists m',
     remove_file_type_in_dir ["home"; "run"] [".log"] w = (Ok tt, with_fs m' w) /\
     m' !! ["home"; "run"; "old.log"] = None /\
     m' !! ["home"; "run"; "backup.log"] = Some Dir /\
     m' !! ["home"; "run"; "notes.txt"] = Some (File "notes") /\
     m' !! ["home"; "cpacs_in.xml"] = Some (File "<cpacs/>")) /\
  remove_file_type_in_dir ["home"; "gone"] [".log"] w
    = (Raise (FileNotFoundError ["home"; "gone"]), w).
Proof.
  intros w. split.
  - destruct (proj1 (remove_file_type_in_dir_exact ["home"; "run"] [".log"] w))
      as (m' & Hrun & Hm'); [vm_compute; reflexivity|].
    exists m'. split; [exact Hrun|]. rewrite !Hm'.
    vm_compute. repeat split.
  - apply (proj2 (remove_file_type_in_dir_exact ["home"; "gone"] [".log"] w)).
    vm_compute. reflexivity.
Defined.

(** ** The further properties on the concrete host *)

(** The working directory is gone: [UnboundLocalError]. *)
Lemma change_working_dir_cwd_removed_example :
  change_working_dir ["home"; "run"] (mret tt) demo_removed
  = (Raise (UnboundLocalError "cwd"), demo_removed).
Proof.
  apply (change_working_dir_cwd_removed ["home"; "run"] (mret tt) demo_removed).
  intros H. vm_compute in H. discriminate H.
Defined.

(** The block removes the home directory: the way back fails, the process
    stays in the run directory. *)
Lemma change_working_dir_restore_fails_example :
  let run := change_working_dir ["home"; "run"] demo_remove_home (demo demo_tools) in
  fst run = Raise (FileNotFoundError ["home"]) /\
  cwd (os (snd run)) = ["home"; "run"].
Proof.
  intros run.
  destruct (change_working_dir_restore_fails ["home"; "run"] demo_remove_home
              (demo demo_tools)) as (e & He & Hrun & Hcwd).
  - vm_compute. reflexivity.
  - vm_compute. reflexivity.
  - intros H. vm_compute in H. discriminate H.
  - subst run. vm_compute. split; reflexivity.
Defined.

(** Two scopes, one in the other. *)
Lemma change_working_dir_nested_example :
  let run := change_working_dir ["home"; "run"]
               (change_working_dir ["pkg"] (mret tt)) (demo demo_tools) in
  fst run = Ok tt /\
  cwd (os (snd run)) = ["home"] /\
  events (snd run) =
    [EChdir ["home"; "run"] true; EChdir ["pkg"] true;
     EChdir ["home"; "run"] true; EChdir ["home"] true].
Proof.
  intros run.
  destruct (change_working_dir_nested ["home"; "run"] ["pkg"] (mret tt)
              (demo demo_tools)) as (H1 & H2 & H3 & H4);
    [vm_compute; reflexivity ..|].
  subst run. rewrite H2. repeat split.
Defined.

(** A tool that is not installed, in the strict and in the permissive
    mode; a tool that is. *)
Lemma get_install_path_modes_example :
  fst (get_install_path "su2" true (demo demo_tools))
    = Raise (SoftwareNotInstalled "su2 is not installed on your computer!") /\
  fst (get_install_path "su2" false (demo demo_tools)) = Ok None /\
  fst (get_install_path "echo" true (demo demo_tools)) = Ok (Some ["bin"; "echo"]).
Proof.
  destruct (get_install_path_modes "su2" true (demo demo_tools))
    as (_ & _ & _ & Hstrict).
  destruct (get_install_path_modes "su2" false (demo demo_tools))
    as (_ & _ & Hperm & _).
  destruct (get_install_path_modes "echo" true (demo demo_tools))
    as (_ & Hfound & _).
  split; [|split].
  - apply Hstrict; vm_compute; reflexivity.
  - apply Hperm; vm_compute; reflexivity.
  - apply Hfound. vm_compute. reflexivity.
Defined.

(** The tool is missing: a logfile is left behind, nothing is run. *)
Lemma run_software_tool_missing_example :
  let run := run_software demo_child "su2" ["config.cfg"] ["home"; "run"] false 1
               (demo demo_tools) in
  (exists msg, fst run = Raise (TypeError msg)) /\
  fs (os (snd run)) !! ["home"; "run"; "logfile_su2.log"] = Some (File "") /\
  events (snd run) = [EChdir ["home"; "run"] true; EChdir ["home"] true].
Proof.
  intros run.
  destruct (run_software_tool_missing demo_child "su2" ["config.cfg"]
              ["home"; "run"] false 1 (demo demo_tools) eq_refl)
    as (msg & lines & Hrun).
  - vm_compute. reflexivity.
  - vm_compute. reflexivity.
  - vm_compute. reflexivity.
  - intros H. vm_compute in H. discriminate H.
  - subst run. rewrite Hrun. split; [exists msg; reflexivity|].
    split; vm_compute; reflexivity.
Defined.

(** The working directory is missing: nothing is created, nothing is run. *)
Lemma run_software_wkdir_unreachable_example :
  let run := run_software demo_child "echo" ["hello"] ["home"; "gone"] false 1
               (demo demo_tools) in
  fst run = Raise (FileNotFoundError ["home"; "gone"]) /\
  os (snd run) = demo_os demo_tools /\
  events (snd run) = [EChdir ["home"; "gone"] false; EChdir ["home"] true].
Proof.
  intros run.
  destruct (run_software_wkdir_unreachable demo_child "echo" ["hello"]
              ["home"; "gone"] false 1 (demo demo_tools))
    as (e & lines & He & Hrun).
  - vm_compute. reflexivity.
  - intros H. vm_compute in H. discriminate H.
  - subst run. vm_compute. repeat split.
Defined.



(** The listing of the Optimisation package, README last. *)
Lemma find_python_file_last_wins_example :
  find_python_file
    [ ["pkg"; "Optimisation"; "helper.py"];
      ["pkg"; "Optimisation"; "__init__.py"];
      ["pkg"; "Optimisation"; "optimisation.py"];
      ["pkg"; "Optimisation"; "__specs__.py"];
      ["pkg"; "Optimisation"; "README.md"] ]
  = Some "optimisation".
Proof.
  apply (find_python_file_last_wins
           [ ["pkg"; "Optimisation"; "helper.py"];
             ["pkg"; "Optimisation"; "__init__.py"] ]
           [ ["pkg"; "Optimisation"; "__specs__.py"];
             ["pkg"; "Optimisation"; "README.md"] ]
           ["pkg"; "Optimisation"] "optimisation").
  - discriminate.
  - reflexivity.
  - intros file Hin. apply elem_of_cons in Hin. destruct Hin as [->|Hin];
      [reflexivity|].
    apply list_elem_of_singleton in Hin. subst file. reflexivity.
Defined.

(** The results directory of the Optimisation module does not exist yet:
    it is created, with the directory above it, and the run directory is
    as it was. *)
Lemma get_results_directory_creates_example :
  let run := get_results_directory demo_module_list demo_packages "Optimisation"
               (demo demo_tools) in
  fst run = Ok ["home"; "Results"; "Optimisation"] /\
  fs (os (snd run)) !! ["home"; "Results"] = Some Dir /\
  fs (os (snd run)) !! ["home"; "Results"; "Optimisation"] = Some Dir /\
  fs (os (snd run)) !! ["home"; "run"; "extra"] = None.
Proof.
  intros run.
  destruct (get_results_directory_creates demo_module_list demo_packages
              "Optimisation" (demo demo_tools)
              {| RESULTS_DIR := Some (RelPath ["Results"; "Optimisation"]);
                 main := None |}
              ["Results"; "Optimisation"]) as (w' & Hrun & Hd & Hway & Hg & Hnew).
  - reflexivity.
  - reflexivity.
  - reflexivity.
  - vm_compute. reflexivity.
  - vm_compute. reflexivity.
  - intros before rest c Heq.
    destruct before as [|a [|b [|x before]]]; cbn in Heq.
    + vm_compute. discriminate.
    + injection Heq as <- _. vm_compute. discriminate.
    + injection Heq as <- <- _. vm_compute. discriminate.
    + injection Heq as _ _ Habs. destruct before; discriminate Habs.
  - subst run. rewrite Hrun. cbn [fst snd]. split; [reflexivity|].
    split; [|split].
    + apply (Hway ["Results"] ["Optimisation"]). reflexivity.
    + exact Hd.
    + destruct (Hnew ["home"; "run"; "extra"])
        as [Hsame|(before & rest & Hparts & Hq)].
      * rewrite Hsame. vm_compute. reflexivity.
      * exfalso. vm_compute in Hq. injection Hq as Hq. subst before.
        cbn [app] in Hparts. discriminate Hparts.
Defined.

(** An unregistered module name. *)
Lemma get_results_directory_refuses_example :
  get_results_directory demo_module_list demo_packages "Unknown" (demo demo_tools)
  = (Raise (ValueError "Module 'Unknown' did not exit!"), demo demo_tools).
Proof.
  apply (proj1 (get_results_directory_refuses demo_module_list demo_packages
                  "Unknown" (demo demo_tools))).
  reflexivity.
Defined.

(** Eight CPUs: between one and eight are recommended. *)
Lemma get_reasonable_nb_cpu_bounds_example :
  exists k,
    get_reasonable_nb_cpu (demo demo_tools) = (Ok k, demo demo_tools) /\
    (1 <= k <= 8)%Z.
Proof.
  destruct (get_reasonable_nb_cpu_bounds (demo demo_tools) (demo demo_tools) 8 8)
    as (k1 & k2 & H1 & H2 & Hk1 & Hk2);
    [reflexivity | reflexivity | lia | reflexivity |].
  exists k1. split; [exact H1|exact Hk1].
Defined.

(** Logs, then notes: the same as both at once. *)
Lemma remove_file_type_in_dir_composes_example :
  let w := demo demo_tools in
  remove_file_type_in_dir ["home"; "run"] [".txt"]
    (snd (remove_file_type_in_dir ["home"; "run"] [".log"] w))
  = remove_file_type_in_dir ["home"; "run"] [".log"; ".txt"] w.
Proof.
  intros w.
  apply (proj1 (remove_file_type_in_dir_composes ["home"; "run"] [".log"] [".txt"]
                  w ltac:(vm_compute; reflexivity))).
Defined.

(** A file where a directory is expected. *)
Lemma remove_file_type_in_dir_only_removes_example :
  remove_file_type_in_dir ["home"; "cpacs_in.xml"] [".xml"] (demo demo_tools)
  = (Raise (NotADirectoryError ["home"; "cpacs_in.xml"]), demo demo_tools).
Proof.
  destruct (remove_file_type_in_dir_only_removes ["home"; "cpacs_in.xml"] [".xml"]
              (demo demo_tools)) as (_ & _ & _ & _ & Hfile).
  apply (Hfile "<cpacs/>"). vm_compute. reflexivity.
Defined.

(** Types given without their dot remove nothing. *)
Lemma remove_file_type_in_dir_needs_dot_example :
  remove_file_type_in_dir ["home"; "run"] ["log"; "txt"] (demo demo_tools)
  = (Ok tt, demo demo_tools).
Proof.
  apply (remove_file_type_in_dir_needs_dot ["home"; "run"] ["log"; "txt"]
           (demo demo_tools)).
  - vm_compute. reflexivity.
  - intros t Hin. apply elem_of_cons in Hin. destruct Hin as [->|Hin];
      [split; [discriminate|reflexivity]|].
    apply list_elem_of_singleton in Hin. subst t.
    split; [discriminate|reflexivity].
Defined.

(** The name "D150 v2 test" of the demo document. *)
Lemma aircraft_name_no_space_example :
  fst (aircraft_name demo_doc demo_open_tixi demo_get_value_or_default
         demo_name_xpath (GivenTixi demo_document) (demo demo_tools))
  = Ok ("D150_v2_test", demo_document) /\
  str_contains " " "D150_v2_test" = false.
Proof.
  destruct (aircraft_name_no_space demo_doc demo_open_tixi
              demo_get_value_or_default demo_name_xpath
              (GivenTixi demo_document) (demo demo_tools)
              (with_line (INFO, "The name of the aircraft is : D150_v2_test")
                 (demo demo_tools))
              "D150_v2_test" demo_document)
    as (t & stored & _ & _ & _ & Hfree & _).
  - vm_compute. reflexivity.
  - split; [vm_compute; reflexivity|exact Hfree].
Defined.

(** Three entries to update, one of them for a widget that was never
    drawn. *)
Lemma update_all_modified_value_skips_example :
  update_all_modified_value demo_doc demo_add_string_vector demo_add_value
    [ ("/cpacs/toolspecific/aeromap", "0_PyTornado_aeromap");
      ("/cpacs/toolspecific/mesh", "0_PyTornado_mesh");
      ("/cpacs/toolspecific/plot", "0_PyTornado_plot") ] demo_session
  = update_all_modified_value demo_doc demo_add_string_vector demo_add_value
      [ ("/cpacs/toolspecific/aeromap", "0_PyTornado_aeromap");
        ("/cpacs/toolspecific/plot", "0_PyTornado_plot") ] demo_session.
Proof.
  apply (proj1 (update_all_modified_value_skips demo_doc demo_add_string_vector
                  demo_add_value
                  [ ("/cpacs/toolspecific/aeromap", "0_PyTornado_aeromap");
                    ("/cpacs/toolspecific/mesh", "0_PyTornado_mesh");
                    ("/cpacs/toolspecific/plot", "0_PyTornado_plot") ]
                  demo_session)).
Defined.

(** The list written for a missing field is read back by the next call. *)
Lemma get_aeromap_list_from_xpath_kept_example :
  let first :=
    get_aeromap_list_from_xpath demo_doc demo_get_string_vector
      demo_create_branch demo_add_string_vector demo_cpacs
      "/cpacs/toolspecific/skin" false in
  get_aeromap_list_from_xpath demo_doc demo_get_string_vector
    demo_create_branch demo_add_string_vector (snd first)
    "/cpacs/toolspecific/skin" true
  = (Ok ["aeromap_1"; "aeromap_2"], snd first).
Proof.
  intros first.
  apply (get_aeromap_list_from_xpath_kept demo_doc demo_get_string_vector
           demo_create_branch demo_add_string_vector demo_cpacs (snd first)
           "/cpacs/toolspecific/skin" ["aeromap_1"; "aeromap_2"]).
  - intros t t' Hadd. injection Hadd as <-.
    unfold demo_get_string_vector. cbn [vectors].
    rewrite lookup_insert_eq. reflexivity.
  - vm_compute. reflexivity.
Defined.
